(** * simplesimdb: the Manager class of [src/simplesimdb/__init__.py]

    A shallow embedding of the content-addressed simulation store: the
    hashing of input records, the name registry kept in the sidecar file
    [simplesimdb.json], the path scheme of input and output files, and the
    operations [create], [delete], [count], [files], [register] on a
    directory, followed by the properties the specification states about
    them.  The [Repeater] class of the same file and further properties
    of both classes come after those. *)

From Stdlib Require Import ZArith String Ascii DecimalString HexadecimalString.
From Stdlib Require HexadecimalPos HexadecimalN.
From stdpp Require Import gmap strings list fin_maps sorting.

Set Warnings "-register-all".
Local Open Scope string_scope.
Local Open Scope Z_scope.

(** ** Python strings

    A Python [str] is modelled as a Rocq [string]; each character stands
    for the code point of the same number, so the model covers the code
    points 0..255.  Paths follow [posixpath]. *)

(** [s[0:k]] *)
Definition str_take (k : nat) (s : string) : string := String.substring 0 k s.

(** [s[-k:]] for k > 0: the last k characters, the whole string when shorter *)
Definition str_last (k : nat) (s : string) : string :=
  String.substring (String.length s - k) k s.

(** [s.endswith(suffix)] *)
Definition endswith (s suffix : string) : bool :=
  String.eqb (str_last (String.length suffix) s) suffix
  && Nat.leb (String.length suffix) (String.length s).

(** [", ".join(l)] and the like *)
Fixpoint str_join (sep : string) (l : list string) : string :=
  match l with
  | [] => EmptyString
  | [x] => x
  | x :: rest => x ++ sep ++ str_join sep rest
  end.

(** lowercase hexadecimal digits of a natural number, ["0"] for zero *)
Definition hex_digits (n : N) : string :=
  HexadecimalString.NilZero.string_of_uint (N.to_hex_uint n).

(** [hex(n)] for n > 0 *)
Definition hex (n : Z) : string := "0x" ++ hex_digits (Z.to_N n).

(** [repr] of a Python int *)
Definition int_repr (n : Z) : string :=
  DecimalString.NilZero.string_of_int (Z.to_int n).

(** ** hashlib.sha1

    SHA-1 (FIPS 180-4) over a byte string; words are 32-bit integers kept
    in [Z] with the wrap-around written out. *)
Module SHA1.

Definition w32 (x : Z) : Z := x mod 2^32.
Definition add32 (x y : Z) : Z := w32 (x + y).
Definition rotl (k : Z) (x : Z) : Z :=
  w32 (Z.lor (Z.shiftl x k) (Z.shiftr x (32 - k))).
Definition not32 (x : Z) : Z := 2^32 - 1 - x.

Definition bytes_of (s : string) : list Z :=
  map (fun c => Z.of_N (N_of_ascii c)) (list_ascii_of_string s).

(** big-endian bytes of [x], [k] of them *)
Fixpoint be_bytes (k : nat) (x : Z) : list Z :=
  match k with
  | O => []
  | S k' => be_bytes k' (Z.shiftr x 8) ++ [x mod 256]
  end.

Definition be_word (bs : list Z) : Z :=
  fold_left (fun acc b => acc * 256 + b) bs 0.

(** message, 0x80, zeros up to 56 mod 64, then the bit length on 8 bytes *)
Definition pad (msg : list Z) : list Z :=
  let len := Z.of_nat (length msg) in
  let zeros := Z.to_nat ((55 - len) mod 64) in
  msg ++ [128] ++ repeat 0 zeros ++ be_bytes 8 (8 * len).

Fixpoint chunks (fuel : nat) (k : nat) (l : list Z) : list (list Z) :=
  match fuel with
  | O => []
  | S fuel' =>
      match l with
      | [] => []
      | _ => take k l :: chunks fuel' k (drop k l)
      end
  end.

Definition words_of_block (block : list Z) : list Z :=
  map be_word (chunks 16 4 block).

(** the message schedule, most recent word first *)
Fixpoint extend (k : nat) (rev_w : list Z) : list Z :=
  match k with
  | O => rev_w
  | S k' =>
      let x := Z.lxor (Z.lxor (nth 2 rev_w 0) (nth 7 rev_w 0))
                      (Z.lxor (nth 13 rev_w 0) (nth 15 rev_w 0)) in
      extend k' (rotl 1 x :: rev_w)
  end.

Definition schedule (block : list Z) : list Z :=
  rev (extend 64 (rev (words_of_block block))).

Definition state : Type := Z * Z * Z * Z * Z.

Definition round (i : nat) (st : state) (w : Z) : state :=
  let '(a, b, c, d, e) := st in
  let '(f, k) :=
    if Nat.ltb i 20 then (Z.lor (Z.land b c) (Z.land (not32 b) d), 0x5A827999)
    else if Nat.ltb i 40 then (Z.lxor (Z.lxor b c) d, 0x6ED9EBA1)
    else if Nat.ltb i 60 then
      (Z.lor (Z.lor (Z.land b c) (Z.land b d)) (Z.land c d), 0x8F1BBCDC)
    else (Z.lxor (Z.lxor b c) d, 0xCA62C1D6) in
  let temp := add32 (add32 (add32 (add32 (rotl 5 a) f) e) k) w in
  (temp, a, rotl 30 b, c, d).

Fixpoint rounds (i : nat) (ws : list Z) (st : state) : state :=
  match ws with
  | [] => st
  | w :: ws' => rounds (S i) ws' (round i st w)
  end.

Definition compress (h : state) (block : list Z) : state :=
  let '(h0, h1, h2, h3, h4) := h in
  let '(a, b, c, d, e) := rounds 0 (schedule block) h in
  (add32 h0 a, add32 h1 b, add32 h2 c, add32 h3 d, add32 h4 e).

Definition init : state :=
  (0x67452301, 0xEFCDAB89, 0x98BADCFE, 0x10325476, 0xC3D2E1F0).

Definition digest (msg : list Z) : state :=
  let padded := pad msg in
  fold_left compress (chunks (length padded) 64 padded) init.

Definition hex_nibble (x : Z) : ascii :=
  ascii_of_N (Z.to_N (if x <? 10 then 48 + x else 87 + x)).

Fixpoint hex_fixed (k : nat) (x : Z) : string :=
  match k with
  | O => EmptyString
  | S k' => hex_fixed k' (Z.shiftr x 4) ++ String (hex_nibble (x mod 16)) EmptyString
  end.

(** [hashlib.sha1(data).hexdigest()] *)
Definition hexdigest (data : string) : string :=
  let '(h0, h1, h2, h3, h4) := digest (bytes_of data) in
  hex_fixed 8 h0 ++ hex_fixed 8 h1 ++ hex_fixed 8 h2 ++ hex_fixed 8 h3
    ++ hex_fixed 8 h4.

End SHA1.

(** ** JSON values and json.dumps

    [JFloat] carries the token [float.__repr__] gives for the number
    (["10.0"], ["1e-05"], or [NaN], [Infinity], [-Infinity] as the
    encoder writes them); binary floating point itself is not modelled.
    A [JDict] lists its items in insertion order. *)

Inductive json : Type :=
| JNull
| JBool (b : bool)
| JInt (n : Z)
| JFloat (repr : string)
| JStr (s : string)
| JList (l : list json)
| JDict (items : list (string * json)).

(** the order of [str] keys: code points, lexicographically *)
Definition key_le {A : Type} (x y : string * A) : Prop :=
  String.leb x.1 y.1 = true.

Global Instance key_le_dec {A : Type} : RelDecision (@key_le A).
Proof. intros x y. unfold key_le. apply _. Defined.

(** [sorted(dct.items())] for a dict with [str] keys *)
Definition sort_items {A : Type} (items : list (string * A)) : list (string * A) :=
  merge_sort key_le items.

Definition hex_of_nibble (x : N) : ascii :=
  ascii_of_N (if (x <? 10)%N then 48 + x else 87 + x).

Definition dquote : string := String (ascii_of_nat 34) EmptyString.
Definition backslash : string := String (ascii_of_nat 92) EmptyString.

(** one character under [ensure_ascii=True] *)
Definition escape_char (c : ascii) : string :=
  let n := N_of_ascii c in
  if (n =? 34)%N then backslash ++ dquote
  else if (n =? 92)%N then backslash ++ backslash
  else if (n =? 10)%N then backslash ++ "n"
  else if (n =? 13)%N then backslash ++ "r"
  else if (n =? 9)%N then backslash ++ "t"
  else if (n =? 12)%N then backslash ++ "f"
  else if (n =? 8)%N then backslash ++ "b"
  else if ((32 <=? n) && (n <=? 126))%N then String c EmptyString
  else backslash ++ "u00"
         ++ String (hex_of_nibble (n / 16)) (String (hex_of_nibble (n mod 16)) EmptyString).

Fixpoint escape_chars (s : string) : string :=
  match s with
  | EmptyString => EmptyString
  | String c rest => escape_char c ++ escape_chars rest
  end.

Definition encode_str (s : string) : string := dquote ++ escape_chars s ++ dquote.

Definition encode_item (kv : string * string) : string :=
  encode_str kv.1 ++ ": " ++ kv.2.

(** [json.dumps(js, sort_keys=True, ensure_ascii=True)]: the values of a
    dict are encoded, then the items are put in key order. *)
Fixpoint dumps (js : json) : string :=
  match js with
  | JNull => "null"
  | JBool true => "true"
  | JBool false => "false"
  | JInt n => int_repr n
  | JFloat repr => repr
  | JStr s => encode_str s
  | JList l => "[" ++ str_join ", " (map dumps l) ++ "]"
  | JDict items =>
      "{" ++ str_join ", "
               (map encode_item (sort_items (map (fun kv => (kv.1, dumps kv.2)) items)))
          ++ "}"
  end.

(** what [json.load] gives back for a file written with
    [json.dump(js, f, sort_keys=True, ...)]: every dict in key order *)
Fixpoint canon (js : json) : json :=
  match js with
  | JList l => JList (map canon l)
  | JDict items => JDict (sort_items (map (fun kv => (kv.1, canon kv.2)) items))
  | _ => js
  end.

(** [hashinput]: sha1 of the sorted dump; the dump is ASCII, so its
    utf-8 encoding is the string itself. *)
Definition hashinput (js : json) : string :=
  let inputstring := dumps js in
  let hashed := SHA1.hexdigest inputstring in
  hashed.

(** ** Files, exceptions, results *)

(** A file either holds text that [json.load] parses to [v], or other
    bytes, on which [json.load] raises: [UnicodeDecodeError] when the
    bytes are not UTF-8 text, [JSONDecodeError] otherwise. *)
Inductive fcontent : Type :=
| FJson (v : json)
| FRaw (bytes : string).

(** The file system: the regular files, by path.  Paths are compared as
    strings; directories are not represented. *)
Abbreviation filesystem := (gmap string fcontent).

Inductive exn : Type :=
| Exception (msg : string)
| ValueError (msg : string)
| TypeError
| JSONDecodeError
| UnicodeDecodeError
| FileNotFoundError (path : string)
| OSError
| CalledProcessError (returncode : Z) (stdout stderr : string)
| OutOfFuel.

Inductive result (A : Type) : Type :=
| Ok (a : A)
| Raise (e : exn).
Arguments Ok {A} a.
Arguments Raise {A} e.

Global Instance result_ret : MRet result := @Ok.
Global Instance result_bind : MBind result := fun A B f r =>
  match r with
  | Ok a => f a
  | Raise e => Raise e
  end.

Fixpoint mapR {A B : Type} (f : A -> result B) (l : list A) : result (list B) :=
  match l with
  | [] => Ok []
  | x :: rest => y ← f x; ys ← mapR f rest; Ok (y :: ys)
  end.

(** *** os.path *)

Definition starts_with_slash (s : string) : bool :=
  match s with
  | String c _ => Ascii.eqb c "/"
  | EmptyString => false
  end.

(** what [os.path.join(a, b)] puts before a relative [b] *)
Definition dir_prefix (a : string) : string :=
  if String.eqb a EmptyString || endswith a "/" then a else a ++ "/".

(** [os.path.join(a, b)] *)
Definition path_join (a b : string) : string :=
  if starts_with_slash b then b else dir_prefix a ++ b.

(** [os.path.isfile(path)] *)
Definition isfile (fs : filesystem) (path : string) : bool :=
  bool_decide (is_Some (fs !! path)).

Fixpoint strip_prefix (p s : string) : option string :=
  match p, s with
  | EmptyString, _ => Some s
  | String a p', String b s' => if Ascii.eqb a b then strip_prefix p' s' else None
  | String _ _, EmptyString => None
  end.

Fixpoint has_slash (s : string) : bool :=
  match s with
  | EmptyString => false
  | String c rest => Ascii.eqb c "/" || has_slash rest
  end.

Definition entry_name (directory path : string) : option string :=
  match strip_prefix (dir_prefix directory) path with
  | Some f => if String.eqb f EmptyString || has_slash f then None else Some f
  | None => None
  end.

(** [os.listdir(directory)]: the names of the regular files directly in
    the directory, in the order the map lists them.  The directory is
    taken to exist, as the constructor leaves it; one that was removed
    lists as empty here, where [os.listdir] raises. *)
Definition listdir (fs : filesystem) (directory : string) : list string :=
  omap (fun kv => entry_name directory kv.1) (map_to_list fs).

(** a byte in the range [lo..hi] *)
Definition byte_in (lo hi : N) (c : ascii) : bool :=
  let k := N_of_ascii c in ((lo <=? k) && (k <=? hi))%N.

(** well-formed UTF-8 (the byte sequences of the Unicode standard, table
    3-7), as the strict decoder of a file opened in text mode accepts it:
    no overlong form, no surrogate, nothing above U+10FFFF *)
Fixpoint utf8_valid (s : string) : bool :=
  match s with
  | EmptyString => true
  | String a rest =>
      let k := N_of_ascii a in
      if (k <=? 127)%N then utf8_valid rest
      else if byte_in 194 223 a then
        match rest with
        | String b rest' => byte_in 128 191 b && utf8_valid rest'
        | _ => false
        end
      else if byte_in 224 239 a then
        match rest with
        | String b (String c rest') =>
            (if (k =? 224)%N then byte_in 160 191 b
             else if (k =? 237)%N then byte_in 128 159 b
             else byte_in 128 191 b)
            && byte_in 128 191 c && utf8_valid rest'
        | _ => false
        end
      else if byte_in 240 244 a then
        match rest with
        | String b (String c (String d rest')) =>
            (if (k =? 240)%N then byte_in 144 191 b
             else if (k =? 244)%N then byte_in 128 143 b
             else byte_in 128 191 b)
            && byte_in 128 191 c && byte_in 128 191 d && utf8_valid rest'
        | _ => false
        end
      else false
  end.

(** [with open(path) as f: json.load(f)], in a UTF-8 locale: the text is
    decoded before it is parsed *)
Definition json_load (fs : filesystem) (path : string) : result json :=
  match fs !! path with
  | None => Raise (FileNotFoundError path)
  | Some (FJson v) => Ok v
  | Some (FRaw bytes) =>
      if utf8_valid bytes then Raise JSONDecodeError else Raise UnicodeDecodeError
  end.

(** ** The Manager: paths and read-only queries *)

Record Manager : Type := {
  directory : string;
  filetype : string;
  executable : string
}.

(** a loaded JSON document used as a dict (its keys are distinct, as in
    a Python dict); anything but an object is taken to raise [TypeError]
    at its first use *)
Definition as_dict (v : json) : result (gmap string json) :=
  match v with
  | JDict items => Ok (list_to_map items)
  | _ => Raise TypeError
  end.

(** a value used where a [str] is concatenated *)
Definition as_str (v : json) : result string :=
  match v with
  | JStr s => Ok s
  | _ => Raise TypeError
  end.

(** [value == name] for a [str] name *)
Definition is_str_eq (v : json) (name : string) : bool :=
  match v with
  | JStr s => String.eqb s name
  | _ => false
  end.

Section Queries.

Variable self : Manager.
Variable fs : filesystem.

Definition get_registry : result (gmap string json) :=
  let registryFile := path_join (directory self) "simplesimdb.json" in
  if isfile fs registryFile then
    registry ← json_load fs registryFile;
    as_dict registry
  else Ok ∅.

Definition jsonfile (js : json) : result string :=
  registry ← get_registry;
  let hashid := hashinput js in
  name ← match registry !! hashid with
         | Some v => as_str v
         | None => Ok hashid
         end;
  Ok (path_join (directory self) (name ++ ".json")).

Definition outfile (js : json) (n : Z) : result string :=
  let hashid := hashinput js in
  let sim_num := if 0 <? n then hex n else EmptyString in
  registry ← get_registry;
  name ← match registry !! hashid with
         | Some v => as_str v
         | None => Ok hashid
         end;
  if String.eqb (filetype self) "json" then
    Ok (path_join (directory self) (name ++ sim_num ++ "_out.json"))
  else
    Ok (path_join (directory self) (name ++ sim_num ++ "." ++ filetype self)).

Definition exists_ (js : json) (n : Z) : result bool :=
  ncfile ← outfile js n;
  Ok (isfile fs ncfile).

Definition select (js : json) (n : Z) : result string :=
  ncfile ← outfile js n;
  let exists' := isfile fs ncfile in
  if negb exists' then Raise (ValueError "Entry does not exist")
  else Ok ncfile.

(** the [while] loop of [count]; the fuel bounds the iterations and
    [OutOfFuel] marks its exhaustion *)
Fixpoint count_loop (fuel : nat) (js : json) (number : Z) : result Z :=
  match fuel with
  | O => Raise OutOfFuel
  | S fuel' =>
      b ← exists_ js number;
      if (b : bool) then count_loop fuel' js (number + 1) else Ok number
  end.

Definition count (js : json) : result Z :=
  count_loop (S (size fs)) js 0.

Record entry : Type := {
  id : string;
  n : Z;
  inputfile : string;
  outputfile : string
}.

(** order of the keys [(id, n)] *)
Definition entry_leb (e1 e2 : entry) : bool :=
  match String.compare (id e1) (id e2) with
  | Lt => true
  | Eq => n e1 <=? n e2
  | Gt => false
  end.

Definition entry_le (e1 e2 : entry) : Prop := entry_leb e1 e2 = true.

Global Instance entry_le_dec : RelDecision entry_le.
Proof. intros e1 e2. unfold entry_le. apply _. Defined.

Definition range (number : Z) : list Z :=
  map Z.of_nat (seq 0 (Z.to_nat number)).

(** the body of the [for filename] loop of [files] for one file that
    passed the test on its name.  [registry.get(hashid, hashid)] is read
    as a [str]: for any other value [outfile], called just before on the
    same files, has already raised [TypeError]. *)
Definition files_of (filename : string) : result (list entry) :=
  js ← json_load fs (path_join (directory self) filename);
  number ← count js;
  mapR (fun n =>
          ncfile ← outfile js n;
          registry ← get_registry;
          ident ← match registry !! hashinput js with
                  | Some v => as_str v
                  | None => Ok (hashinput js)
                  end;
          input ← jsonfile js;
          Ok {| id := ident; n := n; inputfile := input; outputfile := ncfile |})
       (range number).

Definition is_input_name (filename : string) : bool :=
  endswith filename ".json" && negb (endswith filename "out.json").

Definition files : result (list entry) :=
  table ← mapR files_of (List.filter is_input_name (listdir fs (directory self)));
  Ok (merge_sort entry_le (concat table)).

Definition table : result (list json) :=
  listed ← files;
  table ← mapR (fun d => js ← json_load fs (inputfile d);
                         Ok (if n d =? 0 then [js] else []))
               listed;
  Ok (concat table).

End Queries.


(** ** The Manager: operations that change the directory *)

(** what [print] was given: a [str], or the [bytes] of a captured stream *)
Inductive printed : Type :=
| PStr (s : string)
| PBytes (b : string).

(** A finished run of the executable: exit code, captured streams, and
    what it left at its output path ([None]: it wrote no output file). *)
Record process : Type := {
  p_returncode : Z;
  p_stdout : string;
  p_stderr : string;
  p_output : option fcontent
}.

Section Store.

(** The executable is a black box with a state [W] of its own.  Given its
    argument vector it reads the files and either cannot be started
    ([None]) or finishes as a [process].  Following the class docstring
    ("may only generate one single output file"), the only file it writes
    is its output path, the third element of the argument vector. *)
Context {W : Type}.
Variable run_executable : list string -> W -> filesystem -> option process * W.

Record world : Type := {
  fs : filesystem;
  console : list printed;
  calls : list (list string);
  ext : W
}.

Definition M (A : Type) : Type := world -> result A * world.

Global Instance M_ret : MRet M := fun A a w => (Ok a, w).
Global Instance M_bind : MBind M := fun A B f m w =>
  match m w with
  | (Ok a, w') => f a w'
  | (Raise e, w') => (Raise e, w')
  end.

Definition rd {A : Type} (f : filesystem -> result A) : M A :=
  fun w => (f (fs w), w).

Definition raise {A : Type} (e : exn) : M A := fun w => (Raise e, w).

Definition set_fs (f : filesystem -> filesystem) (w : world) : world :=
  {| fs := f (fs w); console := console w; calls := calls w; ext := ext w |}.

Definition print (x : printed) : M unit := fun w =>
  (Ok (), {| fs := fs w; console := console w ++ [x]; calls := calls w; ext := ext w |}).

(** [os.remove(path)] *)
Definition os_remove (path : string) : M unit := fun w =>
  if isfile (fs w) path then (Ok (), set_fs (delete path) w)
  else (Raise (FileNotFoundError path), w).

(** [with open(path, "w") as f: json.dump(v, f, sort_keys=True, ...)].
    Directories are not represented, so the directory of [path] is taken
    to exist and the write to succeed; [open] raises [FileNotFoundError]
    when it does not; [opens_for_writing], below, names the paths for
    which that cannot happen. *)
Definition json_dump (path : string) (v : json) : M unit := fun w =>
  (Ok (), set_fs (insert path (FJson (canon v))) w).

(** [subprocess.run(argv, check=True, capture_output=True)] *)
Definition subprocess_run (argv : list string) : M process := fun w =>
  let '(r, x) := run_executable argv (ext w) (fs w) in
  match r with
  | None =>
      (Raise OSError,
       {| fs := fs w; console := console w; calls := calls w ++ [argv]; ext := x |})
  | Some p =>
      let fs' := match p_output p with
                 | Some c => <[nth 2 argv EmptyString := c]> (fs w)
                 | None => fs w
                 end in
      let w' := {| fs := fs'; console := console w; calls := calls w ++ [argv]; ext := x |} in
      if p_returncode p =? 0 then (Ok p, w')
      else (Raise (CalledProcessError (p_returncode p) (p_stdout p) (p_stderr p)), w')
  end.

(** [try: body except subprocess.CalledProcessError as e: handler] *)
Definition try_except_CalledProcessError {A : Type}
    (body : M A) (handler : Z -> string -> string -> M A) : M A := fun w =>
  match body w with
  | (Raise (CalledProcessError code out err), w') => handler code out err w'
  | other => other
  end.

Fixpoint for_each {A : Type} (l : list A) (body : A -> M unit) : M unit :=
  match l with
  | [] => mret ()
  | x :: rest => _ ← body x; for_each rest body
  end.

Variable self : Manager.

Definition set_registry (registry : gmap string json) : M unit :=
  let registryFile := path_join (directory self) "simplesimdb.json" in
  _ ← json_dump registryFile (JDict (map_to_list registry));
  if decide (registry = ∅) then os_remove registryFile else mret ().

Definition name_taken_msg (name other : string) : string :=
  "The name '" ++ name ++ "' cannot be used! The input file is already known under the name '"
    ++ other ++ "'. Use delete to clear the registry.".

Definition register (js : json) (name : string) : M unit :=
  registry ← rd (get_registry self);
  let hashid := hashinput js in
  _ ← (if String.eqb name "simplesimdb" then
         raise (Exception "The name simplesimdb is not allowed. Choose a different name!")
       else mret ());
  registry ← match registry !! hashid with
             | Some v =>
                 if negb (is_str_eq v name) then
                   known ← rd (fun _ => as_str v);
                   raise (Exception (name_taken_msg name known))
                 else mret registry
             | None =>
                 let jsonfile := path_join (directory self) (hashid ++ ".json") in
                 present ← rd (fun fs => Ok (isfile fs jsonfile));
                 if (present : bool) then raise (Exception (name_taken_msg name jsonfile))
                 else mret (<[hashid := JStr name]> registry)
             end;
  _ ← (if existsb (fun kv => is_str_eq kv.2 name && negb (String.eqb kv.1 hashid))
                  (map_to_list registry)
       then raise (Exception ("The name '" ++ name ++
                      "' is already in use for a different simulation. Choose a different name!"))
       else mret ());
  set_registry registry.

Definition create (js : json) (n : Z) (name error stdout : string) : M string :=
  let hashid := hashinput js in
  _ ← (if negb (String.eqb name EmptyString) then register js name else mret ());
  ncfile ← rd (fun fs => outfile self fs js n);
  exists' ← rd (fun fs => Ok (isfile fs ncfile));
  if (exists' : bool) then
    _ ← print (PStr ("Existing simulation " ++ str_take 6 hashid ++ "..." ++ str_last 9 ncfile));
    mret ncfile
  else
    _ ← print (PStr ("Running simulation " ++ str_take 6 hashid ++ "..." ++ str_last 9 ncfile));
    input ← rd (fun fs => jsonfile self fs js);
    present ← rd (fun fs => Ok (isfile fs input));
    _ ← (if (present : bool) then mret ()
         else input ← rd (fun fs => jsonfile self fs js); json_dump input js);
    _ ← try_except_CalledProcessError
          (if n =? 0 then
             input ← rd (fun fs => jsonfile self fs js);
             process ← subprocess_run [executable self; input; ncfile];
             if String.eqb stdout "display" then print (PBytes (p_stdout process)) else mret ()
           else
             previous_ncfile ← rd (fun fs => outfile self fs js (n - 1));
             input ← rd (fun fs => jsonfile self fs js);
             process ← subprocess_run [executable self; input; ncfile; previous_ncfile];
             if String.eqb stdout "display" then print (PBytes (p_stdout process)) else mret ())
          (fun code out err =>
             present ← rd (fun fs => Ok (isfile fs ncfile));
             _ ← (if (present : bool) then os_remove ncfile else mret ());
             _ ← (if n =? 0 then input ← rd (fun fs => jsonfile self fs js); os_remove input
                  else mret ());
             if String.eqb error "display" then print (PBytes err)
             else if String.eqb error "raise" then raise (CalledProcessError code out err)
             else mret ());
    mret ncfile.

Definition delete_ (js : json) (n : Z) : M unit :=
  ncfile ← rd (fun fs => outfile self fs js n);
  exists' ← rd (fun fs => Ok (isfile fs ncfile));
  if (exists' : bool) then
    _ ← os_remove ncfile;
    if n =? 0 then
      input ← rd (fun fs => jsonfile self fs js);
      _ ← os_remove input;
      registry ← rd (get_registry self);
      let hashid := hashinput js in
      let registry := if decide (is_Some (registry !! hashid)) then delete hashid registry
                      else registry in
      set_registry registry
    else mret ()
  else mret ().

Definition recreate (js : json) (n : Z) (name error stdout : string) : M string :=
  _ ← delete_ js n;
  create js n name error stdout.

(** [delete_all]; the final [os.rmdir], whose [OSError] is suppressed,
    removes no file and directories are not represented. *)
Definition delete_all : M unit :=
  listed ← rd (files self);
  _ ← for_each listed (fun entry =>
         _ ← (if n entry =? 0 then os_remove (inputfile entry) else mret ());
         os_remove (outputfile entry));
  let registry : gmap string json := ∅ in
  set_registry registry.

End Store.


(** ** Vocabulary of the specification *)

(** the sidecar file of the registry *)
Definition registry_path (self : Manager) : string :=
  path_join (directory self) "simplesimdb.json".

(** [resolve(key)]: the registered name if there is one, else the key *)
Definition display_name (self : Manager) (fs : filesystem) (js : json) : result string :=
  registry ← get_registry self fs;
  match registry !! hashinput js with
  | Some v => as_str v
  | None => Ok (hashinput js)
  end.

(** the suffix of restart index [n]: none for index 0, [0x] and the
    hexadecimal digits of [n] for [n > 0] *)
Definition sim_suffix (n : Z) : string :=
  if 0 <? n then "0x" ++ hex_digits (Z.to_N n) else EmptyString.

(** the end of an output file name for an output extension *)
Definition ext_suffix (ext : string) : string :=
  if String.eqb ext "json" then "_out.json" else "." ++ ext.

(** the output path as the specification describes it: a function of the
    directory, the display name, the extension and the index *)
Definition out_path (dir name ext : string) (n : Z) : string :=
  path_join dir (name ++ sim_suffix n ++ ext_suffix ext).

(** the input path of a display name *)
Definition in_path (dir name : string) : string :=
  path_join dir (name ++ ".json").

(** a character of a lowercase hexadecimal numeral *)
Definition is_lower_hex (c : ascii) : bool :=
  let k := N_of_ascii c in
  ((48 <=? k) && (k <=? 57) || (97 <=? k) && (k <=? 102))%N.

Fixpoint all_chars (p : ascii -> bool) (s : string) : bool :=
  match s with
  | EmptyString => true
  | String c rest => p c && all_chars p rest
  end.

(** two records that differ only in the order of the keys of their
    mappings, at any depth *)
Inductive reordered : json -> json -> Prop :=
| reordered_refl (v : json) : reordered v v
| reordered_list (l1 l2 : list json) :
    Forall2 reordered l1 l2 -> reordered (JList l1) (JList l2)
| reordered_dict (items1 items2 items3 : list (string * json)) :
    Forall2 (fun a b => a.1 = b.1 /\ reordered a.2 b.2) items1 items2 ->
    items2 ≡ₚ items3 ->
    NoDup (items3.*1) ->
    reordered (JDict items1) (JDict items3).

(** the five words of a digest as one number below [2^160] *)
Definition digest_code (st : SHA1.state) : Z :=
  let '(a, b, c, d, e) := st in
  a * 2^128 + b * 2^96 + c * 2^64 + d * 2^32 + e.

Definition digest_bound : Z := 2^160.

Fixpoint str_repeat (c : ascii) (k : nat) : string :=
  match k with
  | O => EmptyString
  | S k' => String c (str_repeat c k')
  end.

(** a family of records with pairwise different serializations *)
Definition filler (k : nat) : json := JDict [("pad", JStr (str_repeat "a" k))].

Definition word_range (x : Z) : Prop := 0 <= x < 2^32.

Definition state_range (st : SHA1.state) : Prop :=
  let '(a, b, c, d, e) := st in
  word_range a /\ word_range b /\ word_range c /\ word_range d /\ word_range e.


(** the cases in which [register] refuses to bind [name] to the key of
    [js], given the registry as read from the directory *)
Definition rejected (self : Manager) (files : filesystem) (registry : gmap string json)
    (js : json) (name : string) : Prop :=
  name = "simplesimdb"
  \/ (exists v, registry !! hashinput js = Some v /\ v <> JStr name)
  \/ (registry !! hashinput js = None
      /\ isfile files (path_join (directory self) (hashinput js ++ ".json")) = true)
  \/ (exists k, k <> hashinput js /\ registry !! k = Some (JStr name)).


(** *** What a call of [create] leaves behind *)

Section Outcome.

Context {W : Type}.
Variable self : Manager.

Definition existing_line (js : json) (nc : string) : printed :=
  PStr ("Existing simulation " ++ str_take 6 (hashinput js) ++ "..." ++ str_last 9 nc).

Definition running_line (js : json) (nc : string) : printed :=
  PStr ("Running simulation " ++ str_take 6 (hashinput js) ++ "..." ++ str_last 9 nc).

(** the world in which the executable is started on a cache miss: the
    line is printed and the input file is written unless it exists *)
Definition prepared (js : json) (nc input : string) (w : @world W) : @world W :=
  {| fs := if isfile (fs w) input then fs w else <[input := FJson (canon js)]> (fs w);
     console := console w ++ [running_line js nc];
     calls := calls w;
     ext := ext w |}.

(** the argument vector for index [n] *)
Definition argv_for (n : Z) (input nc previous : string) : list string :=
  if n =? 0 then [executable self; input; nc]
  else [executable self; input; nc; previous].

(** the files after the clean-up that follows a failed run *)
Definition rolled_back (n : Z) (input nc : string) (files : filesystem) : filesystem :=
  if n =? 0 then delete input (delete nc files) else delete nc files.

End Outcome.

(** ** A small store, used to instantiate the statements *)

Module Demo.

Definition store : Manager :=
  {| directory := "data"; filetype := "nc"; executable := "./execute.sh" |}.

Definition record : json := JDict [("x", JInt 1)].

(** an executable that writes its output file and exits with 0 *)
Definition succeeds (argv : list string) (x : unit) (files : filesystem)
  : option process * unit :=
  (Some {| p_returncode := 0; p_stdout := "done"; p_stderr := EmptyString;
           p_output := Some (FRaw "result") |}, x).

(** an executable that leaves a partial output file and exits with 1 *)
Definition fails (argv : list string) (x : unit) (files : filesystem)
  : option process * unit :=
  (Some {| p_returncode := 1; p_stdout := EmptyString; p_stderr := "boom";
           p_output := Some (FRaw "partial") |}, x).

(** an executable that exits with 0 and writes nothing *)
Definition idles (argv : list string) (x : unit) (files : filesystem)
  : option process * unit :=
  (Some {| p_returncode := 0; p_stdout := EmptyString; p_stderr := EmptyString;
           p_output := None |}, x).

Definition start : @world unit :=
  {| fs := ∅; console := []; calls := []; ext := () |}.

Definition on_disk (files : filesystem) : @world unit :=
  {| fs := files; console := []; calls := []; ext := () |}.

(** the record registered as "run", with outputs 0, 1 and 3 *)
Definition chain : filesystem :=
  list_to_map
    [("data/simplesimdb.json", FJson (JDict [(hashinput record, JStr "run")]));
     ("data/run.json", FJson record);
     ("data/run.nc", FRaw "r0");
     ("data/run0x1.nc", FRaw "r1");
     ("data/run0x3.nc", FRaw "r3")].

(** the record registered as "fallout", with its input and two outputs *)
Definition fallout : filesystem :=
  list_to_map
    [("data/simplesimdb.json", FJson (JDict [(hashinput record, JStr "fallout")]));
     ("data/fallout.json", FJson record);
     ("data/fallout.nc", FRaw "r0");
     ("data/fallout0x1.nc", FRaw "r1")].

End Demo.

(** further directories of the demonstration store *)
Module DemoFiles.

(** the record registered as "run": registry and input file, no output *)
Definition orphan : filesystem :=
  list_to_map
    [("data/simplesimdb.json", FJson (JDict [(hashinput Demo.record, JStr "run")]));
     ("data/run.json", FJson Demo.record)].

(** another record, registered as "other" *)
Definition taken : filesystem :=
  list_to_map
    [("data/simplesimdb.json", FJson (JDict [(hashinput (JDict []), JStr "other")]))].

End DemoFiles.
(** ** The Repeater: one pair of files, overwritten by every run *)

Module Repeater.

Record t : Type := {
  executable : string;
  inputfile : string;
  outputfile : string
}.

Section Methods.

Context {W : Type}.
Variable run_executable : list string -> W -> filesystem -> option process * W.
Variable self : t.

(** [run]: the input file is written whatever is on disk, then the
    executable is started; nothing is removed when it fails. *)
Definition run (js : json) (error stdout : string) : @M W unit :=
  _ ← json_dump (inputfile self) js;
  try_except_CalledProcessError
    (process ← subprocess_run run_executable
                 [executable self; inputfile self; outputfile self];
     if String.eqb stdout "display" then print (PBytes (p_stdout process)) else mret ())
    (fun code out err =>
       if String.eqb error "display" then print (PBytes err)
       else if String.eqb error "raise" then raise (CalledProcessError code out err)
       else mret ()).

Definition clean : @M W unit :=
  present ← rd (fun fs => Ok (isfile fs (inputfile self)));
  _ ← (if (present : bool) then os_remove (inputfile self) else mret ());
  present ← rd (fun fs => Ok (isfile fs (outputfile self)));
  if (present : bool) then os_remove (outputfile self) else mret ().

End Methods.

End Repeater.

(** ** Further vocabulary *)

(** a record as Python can hold it: the keys of every dict are distinct *)
Fixpoint distinct_keys (js : json) : bool :=
  match js with
  | JList l => forallb distinct_keys l
  | JDict items =>
      bool_decide (NoDup (items.*1)) && forallb (fun kv => distinct_keys kv.2) items
  | _ => true
  end.

(** a registry as [register] keeps it: the reserved name is not bound,
    and no name is bound to two keys *)
Definition sound_registry (registry : gmap string json) : Prop :=
  (forall k, registry !! k <> Some (JStr "simplesimdb"))
  /\ (forall k1 k2 s, registry !! k1 = Some (JStr s) ->
                      registry !! k2 = Some (JStr s) -> k1 = k2).

(** a registry with [str] values, as its type annotation says *)
Definition str_valued (registry : gmap string json) : Prop :=
  forall k v, registry !! k = Some v -> exists s, v = JStr s.

(** the Repeater with the default arguments of its constructor *)
Module DemoRepeater.

Definition temp : Repeater.t :=
  {| Repeater.executable := "./execute.sh";
     Repeater.inputfile := "temp.json";
     Repeater.outputfile := "temp.nc" |}.

End DemoRepeater.

(** more directories of the demonstration store *)
Module DemoMore.

(** the record registered as "run", with its output and no input file *)
Definition lone : filesystem :=
  list_to_map
    [("data/simplesimdb.json", FJson (JDict [(hashinput Demo.record, JStr "run")]));
     ("data/run.nc", FRaw "r0")].

(** a sidecar file that is not JSON *)
Definition corrupt : filesystem :=
  list_to_map [("data/simplesimdb.json", FRaw "{")].

(** a sidecar file that is not text: the bytes FF FE *)
Definition binary : filesystem :=
  list_to_map [("data/simplesimdb.json",
                FRaw (String (ascii_of_nat 255) (String (ascii_of_nat 254) EmptyString)))].

End DemoMore.

(** the entry of [files] for a display name and an index *)
Definition entry_of (self : Manager) (name : string) (i : Z) : entry :=
  {| id := name; n := i;
     inputfile := in_path (directory self) name;
     outputfile := out_path (directory self) name (filetype self) i |}.

(** the body of the loop of [delete_all], for one entry of [files()] *)
Definition remove_entry {W : Type} (entry : entry) : @M W unit :=
  _ ← (if n entry =? 0 then os_remove (inputfile entry) else mret ());
  os_remove (outputfile entry).

(** the store of [Demo.chain] after its input file was copied by hand *)
Module DemoTwin.

Definition twin : filesystem :=
  list_to_map
    [("data/simplesimdb.json", FJson (JDict [(hashinput Demo.record, JStr "run")]));
     ("data/run.json", FJson Demo.record);
     ("data/copy.json", FJson Demo.record);
     ("data/run.nc", FRaw "r0")].

End DemoTwin.


(** ** Strings *)

Lemma str_app_cons (c : ascii) (a b : string) :
  String c a ++ b = String c (a ++ b).
Proof. reflexivity. Qed.

Lemma str_app_nil_l (b : string) : EmptyString ++ b = b.
Proof. reflexivity. Qed.

Lemma str_app_nil_r (s : string) : s ++ EmptyString = s.
Proof.
  induction s as [|c s IH]; [reflexivity |].
  rewrite str_app_cons. now f_equal.
Qed.

Lemma str_app_assoc (a b c : string) : (a ++ b) ++ c = a ++ (b ++ c).
Proof.
  induction a as [|x a IH]; [reflexivity |].
  rewrite !str_app_cons. now f_equal.
Qed.

Lemma str_length_app (a b : string) :
  String.length (a ++ b) = (String.length a + String.length b)%nat.
Proof.
  induction a as [|x a IH]; [reflexivity |].
  rewrite str_app_cons. simpl. now rewrite IH.
Qed.

Lemma str_app_inv_head (a b c : string) : a ++ b = a ++ c -> b = c.
Proof.
  induction a as [|x a IH]; intros H; [exact H |].
  rewrite !str_app_cons in H. injection H as H. now apply IH.
Qed.

Lemma str_app_inv_tail (t a b : string) : a ++ t = b ++ t -> a = b.
Proof.
  revert b. induction a as [|x a IH]; intros [|y b] H.
  - reflexivity.
  - apply (f_equal String.length) in H.
    rewrite str_app_nil_l, str_length_app in H. simpl in H. lia.
  - apply (f_equal String.length) in H.
    rewrite str_app_nil_l, str_length_app in H. simpl in H. lia.
  - rewrite !str_app_cons in H. injection H as -> H. f_equal. now apply IH.
Qed.

(** *** The order of keys *)

Lemma ascii_compare_trans (c : comparison) (a b d : ascii) :
  Ascii.compare a b = c -> Ascii.compare b d = c -> Ascii.compare a d = c.
Proof.
  unfold Ascii.compare. destruct c; intros H1 H2.
  - apply N.compare_eq in H1, H2. rewrite H1, H2. apply N.compare_refl.
  - rewrite N.compare_lt_iff in *. lia.
  - rewrite N.compare_gt_iff in *. lia.
Qed.

Lemma string_compare_lt_trans (a b c : string) :
  String.compare a b = Lt -> String.compare b c <> Gt -> String.compare a c = Lt.
Proof.
  revert b c. induction a as [|x a IH]; intros [|y b] [|z c]; simpl;
    try congruence; try tauto.
  destruct (Ascii.compare x y) eqn:Hxy; try discriminate.
  - apply Ascii.compare_eq_iff in Hxy. subst y.
    destruct (Ascii.compare x z) eqn:Hxz; try tauto.
    + intros H1 H2. eapply IH; eauto.
  - intros _. destruct (Ascii.compare y z) eqn:Hyz.
    + apply Ascii.compare_eq_iff in Hyz. subst z. now rewrite Hxy.
    + now rewrite (ascii_compare_trans Lt x y z).
    + congruence.
Qed.

Lemma string_leb_trans (a b c : string) :
  String.leb a b = true -> String.leb b c = true -> String.leb a c = true.
Proof.
  unfold String.leb. intros H1 H2.
  destruct (String.compare a b) eqn:Hab; try discriminate.
  - apply String.compare_eq_iff in Hab. now subst b.
  - rewrite (string_compare_lt_trans a b c); auto.
    destruct (String.compare b c); congruence.
Qed.

Lemma key_le_trans {A : Type} : Transitive (@key_le A).
Proof. intros x y z. unfold key_le. apply string_leb_trans. Qed.

Lemma key_le_total {A : Type} : Total (@key_le A).
Proof. intros x y. unfold key_le. apply String.leb_total. Qed.

(** *** Sorting the items of a dict *)

Lemma NoDup_fst_unique {A : Type} (l : list (string * A)) (k : string) (v1 v2 : A) :
  NoDup (l.*1) -> (k, v1) ∈ l -> (k, v2) ∈ l -> v1 = v2.
Proof.
  induction l as [|[k' v'] l IH]; intros Hnd H1 H2.
  - now apply elem_of_nil in H1.
  - simpl in Hnd. apply NoDup_cons in Hnd as [Hk Hnd].
    apply elem_of_cons in H1 as [H1 | H1]; apply elem_of_cons in H2 as [H2 | H2].
    + congruence.
    + injection H1 as -> ->. exfalso. apply Hk.
      apply (list_elem_of_fmap_2 fst) in H2. exact H2.
    + injection H2 as -> ->. exfalso. apply Hk.
      apply (list_elem_of_fmap_2 fst) in H1. exact H1.
    + now apply IH.
Qed.

Lemma sort_items_perm {A : Type} (l1 l2 : list (string * A)) :
  NoDup (l1.*1) -> l1 ≡ₚ l2 -> sort_items l1 = sort_items l2.
Proof.
  intros Hnd Hp. unfold sort_items.
  apply (@Sorted_unique_strong _ key_le key_le_trans).
  - intros [k1 v1] [k2 v2] H1 H2 Hle1 Hle2. unfold key_le in *. simpl in *.
    pose proof (String.leb_antisym _ _ Hle1 Hle2) as Hk. subst k2.
    f_equal. rewrite merge_sort_Permutation in H1, H2. rewrite <- Hp in H2.
    exact (NoDup_fst_unique l1 k1 v1 v2 Hnd H1 H2).
  - apply Sorted_merge_sort, key_le_total.
  - apply Sorted_merge_sort, key_le_total.
  - now rewrite !merge_sort_Permutation.
Qed.

Lemma dumps_reordered (a b : json) : reordered a b -> dumps a = dumps b.
Proof.
  revert a b. fix IH 3. intros a b H.
  destruct H as [v | l1 l2 HF | items1 items2 items3 HF HP HN].
  - reflexivity.
  - assert (Hmap : map dumps l1 = map dumps l2).
    { induction HF as [|x y l1 l2 Hxy HF IHF]; [reflexivity |].
      simpl. f_equal; [now apply IH | exact IHF]. }
    simpl. now rewrite Hmap.
  - simpl.
    assert (Hmap : map (fun kv => (kv.1, dumps kv.2)) items1
                   = map (fun kv => (kv.1, dumps kv.2)) items2).
    { clear HP HN. induction HF as [|x y l1 l2 [Hk Hv] HF IHF]; [reflexivity |].
      simpl. f_equal; [| exact IHF]. rewrite Hk. f_equal. now apply IH. }
    rewrite Hmap.
    assert (Hs : sort_items (map (fun kv : string * json => (kv.1, dumps kv.2)) items2)
                 = sort_items (map (fun kv : string * json => (kv.1, dumps kv.2)) items3)).
    { apply sort_items_perm.
      - assert (Hk : (map (fun kv : string * json => (kv.1, dumps kv.2)) items2).*1
                     = items2.*1).
        { clear. induction items2 as [|x l IHl]; [reflexivity |]. simpl. now f_equal. }
        rewrite Hk. now rewrite HP.
      - now apply Permutation_map. }
    now rewrite Hs.
Qed.

(** ** The digest takes finitely many values *)

Lemma add32_range (x y : Z) : word_range (SHA1.add32 x y).
Proof. unfold word_range, SHA1.add32, SHA1.w32. apply Z.mod_pos_bound. lia. Qed.

Lemma compress_range (h : SHA1.state) (block : list Z) :
  state_range (SHA1.compress h block).
Proof.
  destruct h as [[[[h0 h1] h2] h3] h4]. unfold SHA1.compress.
  destruct (SHA1.rounds 0 (SHA1.schedule block) (h0, h1, h2, h3, h4))
    as [[[[a b] c] d] e].
  unfold state_range. repeat split; apply add32_range.
Qed.

Lemma fold_compress_range (blocks : list (list Z)) (st : SHA1.state) :
  state_range st -> state_range (fold_left SHA1.compress blocks st).
Proof.
  revert st. induction blocks as [|b blocks IH]; intros st Hst; [exact Hst |].
  simpl. apply IH, compress_range.
Qed.

Lemma digest_range (msg : list Z) : state_range (SHA1.digest msg).
Proof.
  unfold SHA1.digest. apply fold_compress_range.
  unfold SHA1.init, state_range, word_range. lia.
Qed.

Lemma digest_code_bound (st : SHA1.state) :
  state_range st -> 0 <= digest_code st < digest_bound.
Proof.
  destruct st as [[[[a b] c] d] e]. unfold state_range, word_range, digest_code, digest_bound.
  lia.
Qed.

Lemma digest_code_inj (s t : SHA1.state) :
  state_range s -> state_range t -> digest_code s = digest_code t -> s = t.
Proof.
  destruct s as [[[[a b] c] d] e], t as [[[[a' b'] c'] d'] e'].
  unfold state_range, word_range, digest_code. intros Hs Ht H.
  assert (a = a' /\ b = b' /\ c = c' /\ d = d' /\ e = e') as (-> & -> & -> & -> & ->) by lia.
  reflexivity.
Qed.

Lemma hexdigest_of_digest (s t : string) :
  SHA1.digest (SHA1.bytes_of s) = SHA1.digest (SHA1.bytes_of t) ->
  SHA1.hexdigest s = SHA1.hexdigest t.
Proof. unfold SHA1.hexdigest. now intros ->. Qed.

(** no function from the naturals into a bounded range is injective *)
Lemma not_injective_into_bounded (bound : nat) (f : nat -> nat) :
  (forall i, (f i < bound)%nat) -> ~ (forall i j, f i = f j -> i = j).
Proof.
  intros Hlt Hinj.
  assert (Hnd : NoDup (f <$> seq 0 (S bound))).
  { apply NoDup_fmap_2_strong; [| apply NoDup_seq].
    intros x y _ _. apply Hinj. }
  assert (Hsub : f <$> seq 0 (S bound) ⊆ seq 0 bound).
  { intros y Hy. apply list_elem_of_fmap in Hy as (i & -> & _).
    apply elem_of_seq. specialize (Hlt i). lia. }
  pose proof (submseteq_length _ _ (NoDup_submseteq _ _ Hnd Hsub)) as Hlen.
  rewrite length_fmap, !length_seq in Hlen. lia.
Qed.

Lemma escape_repeat_a (k : nat) :
  escape_chars (str_repeat "a" k) = str_repeat "a" k.
Proof.
  induction k as [|k IH]; [reflexivity |].
  simpl. rewrite IH. reflexivity.
Qed.

Lemma length_str_repeat (c : ascii) (k : nat) : String.length (str_repeat c k) = k.
Proof. induction k as [|k IH]; simpl; [reflexivity | now rewrite IH]. Qed.

Lemma length_dumps_filler (k : nat) : String.length (dumps (filler k)) = (k + 11)%nat.
Proof.
  unfold filler.
  change (dumps (JDict [("pad", JStr (str_repeat "a" k))]))
    with ("{" ++ (encode_str "pad" ++ ": " ++ encode_str (str_repeat "a" k)) ++ "}").
  unfold encode_str. rewrite escape_repeat_a.
  rewrite !str_length_app, length_str_repeat. simpl. lia.
Qed.

(** ** Hexadecimal suffixes and paths *)

Lemma to_hex_uint_nonnil (n : N) : N.to_hex_uint n <> Hexadecimal.Nil.
Proof.
  destruct n as [|p]; simpl; [discriminate |].
  apply HexadecimalPos.Unsigned.to_uint_nonnil.
Qed.

Lemma hex_digits_read_back (n : N) :
  HexadecimalString.NilZero.uint_of_string (hex_digits n) = Some (N.to_hex_uint n).
Proof. unfold hex_digits. apply HexadecimalString.NilZero.usu, to_hex_uint_nonnil. Qed.

Lemma hex_digits_value (n : N) :
  N.of_hex_uint <$> HexadecimalString.NilZero.uint_of_string (hex_digits n) = Some n.
Proof.
  rewrite hex_digits_read_back. simpl. f_equal. apply HexadecimalN.Unsigned.of_to.
Qed.

Lemma hex_digits_inj (a b : N) : hex_digits a = hex_digits b -> a = b.
Proof.
  intros H. apply HexadecimalN.Unsigned.to_uint_inj.
  pose proof (hex_digits_read_back a) as Ha. rewrite H, hex_digits_read_back in Ha.
  congruence.
Qed.

Lemma hex_uint_lower (d : Hexadecimal.uint) :
  all_chars is_lower_hex (HexadecimalString.NilEmpty.string_of_uint d) = true.
Proof. induction d; simpl; auto. Qed.

Lemma hex_digits_lower (n : N) : all_chars is_lower_hex (hex_digits n) = true.
Proof.
  unfold hex_digits, HexadecimalString.NilZero.string_of_uint.
  destruct (N.to_hex_uint n) eqn:E; try (rewrite <- E; apply hex_uint_lower);
    try reflexivity; apply (hex_uint_lower (_ u)).
Qed.

Lemma sim_suffix_inj (a b : Z) :
  0 <= a -> 0 <= b -> sim_suffix a = sim_suffix b -> a = b.
Proof.
  unfold sim_suffix. intros Ha Hb H.
  destruct (0 <? a) eqn:Ea, (0 <? b) eqn:Eb; try discriminate.
  - apply (str_app_inv_head "0x") in H. apply hex_digits_inj in H. lia.
  - lia.
Qed.

Lemma starts_with_slash_app (name x : string) :
  starts_with_slash (name ++ x)
  = if String.eqb name EmptyString then starts_with_slash x else starts_with_slash name.
Proof. destruct name; reflexivity. Qed.

Lemma path_join_suffix_inj (d name x y : string) :
  starts_with_slash x = false -> starts_with_slash y = false ->
  path_join d (name ++ x) = path_join d (name ++ y) -> x = y.
Proof.
  intros Hx Hy. unfold path_join. rewrite !starts_with_slash_app, Hx, Hy.
  destruct (String.eqb name EmptyString), (starts_with_slash name); intros H;
    repeat (apply str_app_inv_head in H); exact H.
Qed.

Lemma out_suffix_not_slash (n : Z) (ext : string) :
  starts_with_slash (sim_suffix n ++ ext_suffix ext) = false.
Proof.
  unfold sim_suffix, ext_suffix.
  destruct (0 <? n), (String.eqb ext "json"); reflexivity.
Qed.

Lemma out_path_inj (d name ext : string) (a b : Z) :
  0 <= a -> 0 <= b -> out_path d name ext a = out_path d name ext b -> a = b.
Proof.
  intros Ha Hb H. unfold out_path in H.
  apply path_join_suffix_inj in H; try apply out_suffix_not_slash.
  apply str_app_inv_tail in H. now apply sim_suffix_inj.
Qed.

Lemma in_path_not_out_path (d name ext : string) (n : Z) :
  in_path d name <> out_path d name ext n.
Proof.
  unfold in_path, out_path. intros H.
  apply path_join_suffix_inj in H; [| reflexivity | apply out_suffix_not_slash].
  unfold sim_suffix, ext_suffix in H.
  destruct (0 <? n); [discriminate |].
  rewrite str_app_nil_l in H.
  destruct (String.eqb_spec ext "json") as [-> | Hne]; [discriminate |].
  apply (str_app_inv_head ".") in H. congruence.
Qed.

Lemma outfile_resolved (self : Manager) (fs : filesystem) (js : json) (n : Z) :
  outfile self fs js n
  = (name ← display_name self fs js;
     Ok (out_path (directory self) name (filetype self) n)).
Proof.
  unfold outfile, display_name, out_path, sim_suffix, ext_suffix, hex.
  destruct (get_registry self fs) as [registry | e]; [| reflexivity]. simpl.
  destruct (registry !! hashinput js) as [v |]; simpl.
  - destruct (as_str v); simpl; [| reflexivity].
    destruct (String.eqb (filetype self) "json"); reflexivity.
  - destruct (String.eqb (filetype self) "json"); reflexivity.
Qed.

Lemma jsonfile_resolved (self : Manager) (fs : filesystem) (js : json) :
  jsonfile self fs js
  = (name ← display_name self fs js; Ok (in_path (directory self) name)).
Proof.
  unfold jsonfile, display_name, in_path.
  destruct (get_registry self fs) as [registry | e]; [| reflexivity]. simpl.
  destruct (registry !! hashinput js) as [v |]; simpl; [| reflexivity].
  destruct (as_str v); reflexivity.
Qed.

(** ** The restart chain *)

Lemma exists_resolved (self : Manager) (fs : filesystem) (js : json) (n : Z) :
  exists_ self fs js n
  = (name ← display_name self fs js;
     Ok (isfile fs (out_path (directory self) name (filetype self) n))).
Proof.
  unfold exists_. rewrite outfile_resolved.
  destruct (display_name self fs js); reflexivity.
Qed.

Lemma isfile_true (fs : filesystem) (p : string) :
  isfile fs p = true <-> is_Some (fs !! p).
Proof. unfold isfile. apply bool_decide_eq_true. Qed.

Lemma isfile_false (fs : filesystem) (p : string) :
  isfile fs p = false <-> fs !! p = None.
Proof.
  unfold isfile. rewrite bool_decide_eq_false. rewrite eq_None_not_Some. tauto.
Qed.

(** as many files as there are distinct paths among them *)
Lemma files_bound (fs : filesystem) (path : Z -> string) (k : nat) :
  (forall a b, 0 <= a -> 0 <= b -> path a = path b -> a = b) ->
  (forall i, 0 <= i < Z.of_nat k -> isfile fs (path i) = true) ->
  (k <= size fs)%nat.
Proof.
  intros Hinj Hall.
  set (l := (fun i : nat => path (Z.of_nat i)) <$> seq 0 k).
  assert (Hnd : NoDup l).
  { apply NoDup_fmap_2_strong; [| apply NoDup_seq].
    intros x y _ _ Hxy. apply Hinj in Hxy; lia. }
  assert (Hsub : (list_to_set l : gset string) ⊆ dom fs).
  { intros p Hp. apply elem_of_list_to_set in Hp.
    apply list_elem_of_fmap in Hp as (i & -> & Hi). apply elem_of_seq in Hi.
    apply elem_of_dom, isfile_true, Hall. lia. }
  apply subseteq_size in Hsub.
  rewrite size_list_to_set, size_dom in Hsub by exact Hnd.
  unfold l in Hsub. rewrite length_fmap, length_seq in Hsub. exact Hsub.
Qed.

Lemma count_loop_spec (self : Manager) (fs : filesystem) (js : json) (name : string)
    (fuel : nat) (number : Z) :
  display_name self fs js = Ok name ->
  0 <= number ->
  (forall i, 0 <= i < number ->
             isfile fs (out_path (directory self) name (filetype self) i) = true) ->
  (size fs < Z.to_nat number + fuel)%nat ->
  exists k, count_loop self fs fuel js number = Ok k
            /\ number <= k
            /\ (forall i, 0 <= i < k ->
                  isfile fs (out_path (directory self) name (filetype self) i) = true)
            /\ isfile fs (out_path (directory self) name (filetype self) k) = false.
Proof.
  intros Hname. revert number.
  induction fuel as [|fuel IH]; intros number Hpos Hall Hfuel.
  - exfalso.
    assert (Hb : (Z.to_nat number <= size fs)%nat).
    { apply (files_bound fs (out_path (directory self) name (filetype self))).
      - intros a b. apply out_path_inj.
      - intros i Hi. apply Hall. lia. }
    lia.
  - simpl. rewrite exists_resolved, Hname. simpl.
    destruct (isfile fs (out_path (directory self) name (filetype self) number)) eqn:E.
    + destruct (IH (number + 1)) as (k & Hk & Hle & Hall' & Hgap).
      * lia.
      * intros i Hi. destruct (decide (i = number)) as [-> | Hne]; [exact E |].
        apply Hall. lia.
      * lia.
      * exists k. repeat split; auto. lia.
    + exists number. repeat split; auto. lia.
Qed.

(** ** The hash is a hexadecimal numeral *)

Lemma hex_nibble_lower (x : Z) : is_lower_hex (SHA1.hex_nibble (x mod 16)) = true.
Proof.
  pose proof (Z.mod_pos_bound x 16 ltac:(lia)) as Hb.
  assert (H : x mod 16 = 0 \/ x mod 16 = 1 \/ x mod 16 = 2 \/ x mod 16 = 3
              \/ x mod 16 = 4 \/ x mod 16 = 5 \/ x mod 16 = 6 \/ x mod 16 = 7
              \/ x mod 16 = 8 \/ x mod 16 = 9 \/ x mod 16 = 10 \/ x mod 16 = 11
              \/ x mod 16 = 12 \/ x mod 16 = 13 \/ x mod 16 = 14 \/ x mod 16 = 15) by lia.
  repeat (destruct H as [H | H]; [rewrite H; reflexivity |]).
  rewrite H. reflexivity.
Qed.

Lemma hex_fixed_head (k : nat) (x : Z) :
  exists c rest, SHA1.hex_fixed (S k) x = String c rest /\ is_lower_hex c = true.
Proof.
  revert x. induction k as [|k IH]; intros x.
  - exists (SHA1.hex_nibble (x mod 16)), EmptyString. split; [reflexivity |].
    apply hex_nibble_lower.
  - destruct (IH (Z.shiftr x 4)) as (c & rest & Hc & Hl).
    exists c, (rest ++ String (SHA1.hex_nibble (x mod 16)) EmptyString).
    split; [| exact Hl].
    change (SHA1.hex_fixed (S (S k)) x)
      with (SHA1.hex_fixed (S k) (Z.shiftr x 4) ++ String (SHA1.hex_nibble (x mod 16)) EmptyString).
    rewrite Hc. reflexivity.
Qed.

Lemma hashinput_head (js : json) :
  exists c rest, hashinput js = String c rest /\ is_lower_hex c = true.
Proof.
  unfold hashinput, SHA1.hexdigest.
  destruct (SHA1.digest (SHA1.bytes_of (dumps js))) as [[[[h0 h1] h2] h3] h4].
  destruct (hex_fixed_head 7 h0) as (c & rest & Hc & Hl).
  exists c. eexists. split; [| exact Hl].
  rewrite Hc. rewrite str_app_cons. reflexivity.
Qed.

(** ** The registry and the other files *)

Lemma registry_path_eq (self : Manager) :
  registry_path self = dir_prefix (directory self) ++ "simplesimdb.json".
Proof. reflexivity. Qed.

Lemma get_registry_insert (self : Manager) (fs : filesystem) (p : string) (c : fcontent) :
  p <> registry_path self ->
  get_registry self (<[p := c]> fs) = get_registry self fs.
Proof.
  intros Hne. unfold get_registry, isfile, json_load.
  fold (registry_path self). now rewrite lookup_insert_ne.
Qed.

Lemma get_registry_delete (self : Manager) (fs : filesystem) (p : string) :
  p <> registry_path self ->
  get_registry self (delete p fs) = get_registry self fs.
Proof.
  intros Hne. unfold get_registry, isfile, json_load.
  fold (registry_path self). now rewrite lookup_delete_ne.
Qed.

Lemma display_name_insert (self : Manager) (fs : filesystem) (js : json)
    (p : string) (c : fcontent) :
  p <> registry_path self ->
  display_name self (<[p := c]> fs) js = display_name self fs js.
Proof. intros Hne. unfold display_name. now rewrite get_registry_insert. Qed.

Lemma display_name_delete (self : Manager) (fs : filesystem) (js : json) (p : string) :
  p <> registry_path self ->
  display_name self (delete p fs) js = display_name self fs js.
Proof. intros Hne. unfold display_name. now rewrite get_registry_delete. Qed.

Lemma get_registry_absent (self : Manager) (fs : filesystem) :
  fs !! registry_path self = None -> get_registry self fs = Ok ∅.
Proof.
  intros H. unfold get_registry. fold (registry_path self).
  apply isfile_false in H. now rewrite H.
Qed.

(** a missing file named after the display name of a record is not the
    sidecar file *)
Lemma missing_not_registry (self : Manager) (fs : filesystem) (js : json)
    (name x : string) :
  display_name self fs js = Ok name ->
  fs !! path_join (directory self) (name ++ x) = None ->
  path_join (directory self) (name ++ x) <> registry_path self.
Proof.
  intros Hname Hnone Heq. rewrite Heq in Hnone.
  unfold display_name in Hname. rewrite (get_registry_absent _ _ Hnone) in Hname.
  simpl in Hname. rewrite lookup_empty in Hname. injection Hname as <-.
  destruct (hashinput_head js) as (c & rest & Hc & Hl).
  rewrite Hc in Heq. rewrite registry_path_eq in Heq. unfold path_join in Heq.
  rewrite str_app_cons in Heq. unfold starts_with_slash in Heq.
  destruct (Ascii.eqb_spec c "/") as [-> | _]; [discriminate |].
  apply str_app_inv_head in Heq. injection Heq as -> _. discriminate.
Qed.

(** ** [create] on a cache hit and on a cache miss *)

Section CreateLemmas.
Context {W : Type}.
Variable run : list string -> W -> filesystem -> option process * W.
Variable self : Manager.

Lemma create_hit (js : json) (n : Z) (error stdout : string) (w : @world W) (nc : string) :
  outfile self (fs w) js n = Ok nc ->
  isfile (fs w) nc = true ->
  create run self js n EmptyString error stdout w
  = (Ok nc, {| fs := fs w; console := console w ++ [existing_line js nc];
               calls := calls w; ext := ext w |}).
Proof.
  intros Hout Hfile. unfold create.
  change (negb (String.eqb EmptyString EmptyString)) with false. cbv iota.
  unfold mbind, M_bind, rd, mret, M_ret.
  rewrite Hout, Hfile. reflexivity.
Qed.

Lemma create_miss (js : json) (n : Z) (error stdout : string) (w : @world W) (name : string) :
  let nc := out_path (directory self) name (filetype self) n in
  let input := in_path (directory self) name in
  let previous := out_path (directory self) name (filetype self) (n - 1) in
  let w1 := prepared js nc input w in
  let argv := argv_for self n input nc previous in
  display_name self (fs w) js = Ok name ->
  fs w !! nc = None ->
  create run self js n EmptyString error stdout w
  = match run argv (ext w1) (fs w1) with
    | (None, x) =>
        (Raise OSError,
         {| fs := fs w1; console := console w1; calls := calls w ++ [argv]; ext := x |})
    | (Some p, x) =>
        if p_returncode p =? 0 then
          (Ok nc,
           {| fs := match p_output p with
                    | Some c => <[nc := c]> (fs w1)
                    | None => fs w1
                    end;
              console := console w1 ++ (if String.eqb stdout "display"
                                        then [PBytes (p_stdout p)] else []);
              calls := calls w ++ [argv]; ext := x |})
        else
          (if String.eqb error "display" then Ok nc
           else if String.eqb error "raise"
                then Raise (CalledProcessError (p_returncode p) (p_stdout p) (p_stderr p))
                else Ok nc,
           {| fs := rolled_back n input nc (fs w1);
              console := console w1 ++ (if String.eqb error "display"
                                        then [PBytes (p_stderr p)] else []);
              calls := calls w ++ [argv]; ext := x |})
    end.
Proof.
  intros nc input previous w1 argv Hname Hmiss.
  assert (Hin_ne : input <> nc) by apply in_path_not_out_path.
  assert (Hnc_rp : nc <> registry_path self).
  { unfold nc, out_path. eapply missing_not_registry; eauto. }
  assert (Hname1 : display_name self (fs w1) js = Ok name).
  { unfold w1, prepared. simpl. destruct (isfile (fs w) input) eqn:E; [exact Hname |].
    rewrite display_name_insert; [exact Hname |].
    apply isfile_false in E. unfold input, in_path. eapply missing_not_registry; eauto. }
  assert (Hmiss1 : fs w1 !! nc = None).
  { unfold w1, prepared. simpl. destruct (isfile (fs w) input); [exact Hmiss |].
    rewrite lookup_insert_ne; auto. }
  assert (Hin1 : isfile (fs w1) input = true).
  { unfold w1, prepared. simpl. destruct (isfile (fs w) input) eqn:E; [exact E |].
    apply isfile_true. rewrite lookup_insert_eq. eauto. }
  assert (Hjson : forall files, display_name self files js = Ok name ->
                                jsonfile self files js = Ok input).
  { intros files H. rewrite jsonfile_resolved, H. reflexivity. }
  assert (Hprev : forall files, display_name self files js = Ok name ->
                                outfile self files js (n - 1) = Ok previous).
  { intros files H. rewrite outfile_resolved, H. reflexivity. }
  unfold create.
  change (negb (String.eqb EmptyString EmptyString)) with false. cbv iota.
  unfold mbind, M_bind, rd, mret, M_ret, print, json_dump, set_fs.
  rewrite outfile_resolved, Hname. cbn [mbind result_bind]. fold nc.
  apply isfile_false in Hmiss. rewrite Hmiss.
  cbv beta iota. cbn [fs console calls ext].
  rewrite (Hjson _ Hname).
  fold (running_line js nc).
  set (wp := {| fs := if isfile (fs w) input then fs w else <[input := FJson (canon js)]> (fs w);
                console := console w ++ [running_line js nc];
                calls := calls w; ext := ext w |}).
  clear wp.
  match goal with
  | |- (let (r, w') := ?pre ?wp in _) = _ =>
      assert (Hprep : pre wp = (Ok (), w1))
  end.
  { unfold w1, prepared. destruct (isfile (fs w) input); [reflexivity |].
    cbn [fs console calls ext]. rewrite (Hjson _ Hname). reflexivity. }
  rewrite Hprep. cbv beta iota.
  assert (Hcalls : calls w1 = calls w) by reflexivity.
  clearbody w1.
  unfold try_except_CalledProcessError, subprocess_run, os_remove, raise, set_fs.
  assert (Hrm_nc : forall c, delete nc (<[nc := c]> (fs w1)) = delete nc (fs w1)).
  { intros c. apply delete_insert_eq. }
  assert (Hrm_id : delete nc (fs w1) = fs w1) by (now apply delete_id).
  assert (Hname2 : display_name self (delete nc (fs w1)) js = Ok name).
  { now rewrite display_name_delete. }
  assert (Hin2 : isfile (delete nc (fs w1)) input = true).
  { apply isfile_true. rewrite lookup_delete_ne by congruence. now apply isfile_true. }
  assert (Hnc_in : forall c, isfile (<[nc := c]> (fs w1)) nc = true).
  { intros c. apply isfile_true. rewrite lookup_insert_eq. eauto. }
  assert (Hnc_out : isfile (fs w1) nc = false) by (now apply isfile_false).
  unfold try_except_CalledProcessError, subprocess_run.
  destruct (run argv (ext w1) (fs w1)) as [[p|] x] eqn:Erun;
    unfold argv, argv_for, rolled_back in *; destruct (n =? 0) eqn:En;
    rewrite ?(Hjson _ Hname1), ?(Hprev _ Hname1); cbv beta iota;
    rewrite Erun; cbv beta iota; cbn [nth].
  1-2: destruct (p_returncode p =? 0) eqn:Erc.
  all: try (destruct (String.eqb stdout "display"); unfold print; cbn [fs console calls ext];
            rewrite ?app_nil_r, ?Hcalls; reflexivity).
  all: cbn [fs console calls ext]; destruct (p_output p) as [c|];
    rewrite ?Hnc_in, ?Hnc_out; cbv beta iota; cbn [fs console calls ext];
    rewrite ?Hnc_in, ?Hrm_nc, ?Hrm_id; cbv beta iota; cbn [fs console calls ext];
    rewrite ?(Hjson _ Hname1), ?Hin1; cbv beta iota; cbn [fs console calls ext];
    destruct (String.eqb error "display"), (String.eqb error "raise");
    cbv beta iota; cbn [fs console calls ext]; rewrite ?app_nil_r, ?Hcalls; reflexivity.
Qed.
End CreateLemmas.

(** ** Writing and reading the registry *)

Lemma is_str_eq_true (v : json) (name : string) :
  is_str_eq v name = true <-> v = JStr name.
Proof.
  destruct v; simpl; try (split; [discriminate | intros H; discriminate H]).
  rewrite String.eqb_eq. split; [now intros -> | now intros [= ->]].
Qed.

Lemma as_dict_canon (registry : gmap string json) :
  as_dict (canon (JDict (map_to_list registry))) = Ok (canon <$> registry).
Proof.
  simpl. f_equal.
  set (l := map (fun kv : string * json => (kv.1, canon kv.2)) (map_to_list registry)).
  assert (Hl : l = prod_map Datatypes.id canon <$> map_to_list registry).
  { unfold l. apply map_ext. now intros [k v]. }
  assert (Hnd : NoDup (l.*1)).
  { rewrite Hl. rewrite <- list_fmap_compose.
    replace (fst ∘ prod_map Datatypes.id canon) with (@fst string json).
    - apply NoDup_fst_map_to_list.
    - reflexivity. }
  unfold sort_items.
  rewrite <- (list_to_map_proper l (merge_sort key_le l) Hnd).
  - rewrite Hl, list_to_map_fmap, list_to_map_to_list. reflexivity.
  - symmetry. apply merge_sort_Permutation.
Qed.

Lemma get_registry_written (self : Manager) (files : filesystem) (registry : gmap string json) :
  get_registry self
    (<[registry_path self := FJson (canon (JDict (map_to_list registry)))]> files)
  = Ok (canon <$> registry).
Proof.
  unfold get_registry, isfile, json_load. fold (registry_path self).
  rewrite lookup_insert_eq.
  rewrite bool_decide_eq_true_2 by eauto.
  apply as_dict_canon.
Qed.

Section RegistryLemmas.
Context {W : Type}.
Variable self : Manager.

Lemma set_registry_nonempty (registry : gmap string json) (w : @world W) :
  registry <> ∅ ->
  set_registry self registry w
  = (Ok (), set_fs (insert (registry_path self)
                           (FJson (canon (JDict (map_to_list registry))))) w).
Proof.
  intros Hne. unfold set_registry, mbind, M_bind, json_dump. fold (registry_path self).
  destruct (decide (registry = ∅)); [contradiction | reflexivity].
Qed.

Lemma set_registry_empty (w : @world W) :
  set_registry self ∅ w = (Ok (), set_fs (delete (registry_path self)) w).
Proof.
  unfold set_registry, mbind, M_bind, json_dump, os_remove. fold (registry_path self).
  destruct (decide ((∅ : gmap string json) = ∅)) as [_ | Hne]; [| contradiction].
  unfold set_fs. cbn [fs console calls ext].
  rewrite (proj2 (isfile_true _ _)) by (rewrite lookup_insert_eq; eauto).
  now rewrite delete_insert_eq.
Qed.

End RegistryLemmas.

Lemma used_elsewhere_spec (registry : gmap string json) (name hashid : string) :
  existsb (fun kv : string * json => is_str_eq kv.2 name && negb (String.eqb kv.1 hashid))
          (map_to_list registry) = true
  <-> exists k, k <> hashid /\ registry !! k = Some (JStr name).
Proof.
  rewrite existsb_exists. split.
  - intros ([k v] & Hin & Hb). simpl in Hb.
    apply andb_true_iff in Hb as [Hv Hk].
    apply is_str_eq_true in Hv. subst v.
    apply negb_true_iff, String.eqb_neq in Hk.
    exists k. split; [exact Hk |].
    apply elem_of_map_to_list. now apply list_elem_of_In.
  - intros (k & Hk & Hlook). exists (k, JStr name). split.
    + apply list_elem_of_In. now apply elem_of_map_to_list.
    + simpl. rewrite String.eqb_refl. simpl.
      apply negb_true_iff, String.eqb_neq. exact Hk.
Qed.

Section RegisterLemmas.
Context {W : Type}.
Variable self : Manager.

Lemma register_spec (js : json) (name : string) (w : @world W) (registry : gmap string json) :
  get_registry self (fs w) = Ok registry ->
  (rejected self (fs w) registry js name
   /\ exists e, register self js name w = (Raise e, w))
  \/ (~ rejected self (fs w) registry js name
      /\ register self js name w
         = (Ok (), set_fs (insert (registry_path self)
                             (FJson (canon (JDict (map_to_list
                                (<[hashinput js := JStr name]> registry)))))) w)).
Proof.
  intros Hreg. unfold rejected.
  unfold register, mbind, M_bind, rd, raise, mret, M_ret. rewrite Hreg. cbv beta iota.
  destruct (String.eqb_spec name "simplesimdb") as [-> | Hn].
  { left. split; [now left | eexists; reflexivity]. }
  destruct (registry !! hashinput js) as [v |] eqn:Eh.
  - destruct (is_str_eq v name) eqn:Ev; cbn [negb]; cbv beta iota.
    + apply is_str_eq_true in Ev. subst v.
      match goal with |- context [existsb ?f ?l] => destruct (existsb f l) eqn:Ex end.
      * left. split; [| eexists; reflexivity].
        do 3 right. now apply used_elsewhere_spec.
      * right. split.
        -- intros [H | [(v & Hv & Hne) | [(Hnone & _) | H]]]; try congruence.
           apply used_elsewhere_spec in H. congruence.
        -- rewrite set_registry_nonempty.
           ++ now rewrite (insert_id registry _ _ Eh).
           ++ intros ->. now rewrite lookup_empty in Eh.
    + left. split.
      * right. left. exists v. split; [reflexivity |].
        intros ->. simpl in Ev. now rewrite String.eqb_refl in Ev.
      * destruct (as_str v); eexists; reflexivity.
  - destruct (isfile (fs w) (path_join (directory self) (hashinput js ++ ".json"))) eqn:Ef.
    + left. split; [| eexists; reflexivity]. right. right. left. now split.
    + cbv beta iota.
      match goal with |- context [existsb ?f ?l] => destruct (existsb f l) eqn:Ex end.
      * left. split; [| eexists; reflexivity].
        do 3 right. apply used_elsewhere_spec in Ex as (k & Hk & Hlook).
        exists k. split; [exact Hk |]. now rewrite lookup_insert_ne in Hlook.
      * right. split.
        -- intros [H | [(v & Hv & Hne) | [(_ & Hfile) | (k & Hk & Hlook)]]]; try congruence.
           assert (Htrue : existsb (fun kv : string * json =>
                              is_str_eq kv.2 name && negb (String.eqb kv.1 (hashinput js)))
                             (map_to_list (<[hashinput js := JStr name]> registry)) = true).
           { apply used_elsewhere_spec. exists k. split; [exact Hk |].
             now rewrite lookup_insert_ne. }
           congruence.
        -- rewrite set_registry_nonempty; [reflexivity |].
           apply insert_non_empty.
Qed.

End RegisterLemmas.

Section DeleteLemmas.
Context {W : Type}.
Variable self : Manager.

Lemma delete_absent (js : json) (n : Z) (w : @world W) (nc : string) :
  outfile self (fs w) js n = Ok nc ->
  isfile (fs w) nc = false ->
  delete_ self js n w = (Ok (), w).
Proof.
  intros Hout Hfile. unfold delete_, mbind, M_bind, rd, mret, M_ret.
  rewrite Hout, Hfile. reflexivity.
Qed.

Lemma delete_restart (js : json) (n : Z) (w : @world W) (nc : string) :
  outfile self (fs w) js n = Ok nc ->
  isfile (fs w) nc = true ->
  n <> 0 ->
  delete_ self js n w = (Ok (), set_fs (delete nc) w).
Proof.
  intros Hout Hfile Hn. unfold delete_, mbind, M_bind, rd, mret, M_ret, os_remove.
  rewrite Hout, Hfile. cbv beta iota. rewrite Hfile.
  apply Z.eqb_neq in Hn. rewrite Hn. reflexivity.
Qed.

Lemma delete_first (js : json) (w : @world W) (name : string) :
  let nc := out_path (directory self) name (filetype self) 0 in
  let input := in_path (directory self) name in
  display_name self (fs w) js = Ok name ->
  isfile (fs w) nc = true ->
  isfile (fs w) input = true ->
  nc <> registry_path self ->
  exists (w' : @world W) (registry' : gmap string json),
    delete_ self js 0 w = (Ok (), w')
    /\ fs w' !! nc = None
    /\ fs w' !! input = None
    /\ get_registry self (fs w') = Ok registry'
    /\ registry' !! hashinput js = None
    /\ (forall p, p <> nc -> p <> input -> p <> registry_path self -> fs w' !! p = fs w !! p)
    /\ console w' = console w /\ calls w' = calls w /\ ext w' = ext w.
Proof.
  intros nc input Hname Hnc Hin Hrp.
  assert (Hne : input <> nc) by apply in_path_not_out_path.
  unfold delete_, mbind, M_bind, rd, mret, M_ret, os_remove, set_fs.
  rewrite outfile_resolved, Hname. cbn [mbind result_bind]. fold nc.
  rewrite Hnc. cbv beta iota. rewrite Hnc. cbv beta iota.
  change (0 =? 0) with true. cbv beta iota. cbn [fs console calls ext].
  rewrite jsonfile_resolved, (display_name_delete _ _ _ _ Hrp), Hname.
  cbn [mbind result_bind]. fold input.
  assert (Hin1 : isfile (delete nc (fs w)) input = true).
  { apply isfile_true. rewrite lookup_delete_ne by congruence. now apply isfile_true. }
  rewrite Hin1. cbv beta iota. cbn [fs console calls ext].
  set (files2 := delete input (delete nc (fs w))).
  assert (Hreg2 : exists registry, get_registry self files2 = Ok registry).
  { destruct (decide (input = registry_path self)) as [Heq | Hneq].
    - exists ∅. apply get_registry_absent. unfold files2. rewrite <- Heq.
      apply lookup_delete_eq.
    - unfold files2. rewrite !get_registry_delete by assumption.
      unfold display_name in Hname. destruct (get_registry self (fs w)); [eauto | discriminate]. }
  destruct Hreg2 as (registry & Hreg2). rewrite Hreg2. cbv beta iota.
  set (registry' := if decide (is_Some (registry !! hashinput js))
                    then delete (hashinput js) registry else registry).
  assert (Hgone : registry' !! hashinput js = None).
  { unfold registry'. destruct (decide (is_Some (registry !! hashinput js))) as [_ | Hno].
    - apply lookup_delete_eq.
    - now apply eq_None_not_Some. }
  assert (Hfiles2_nc : files2 !! nc = None).
  { unfold files2. rewrite lookup_delete_ne by congruence. apply lookup_delete_eq. }
  assert (Hfiles2_in : files2 !! input = None) by apply lookup_delete_eq.
  assert (Hfiles2_other : forall p, p <> nc -> p <> input -> files2 !! p = fs w !! p).
  { intros p H1 H2. unfold files2. now rewrite !lookup_delete_ne by congruence. }
  destruct (decide (registry' = ∅)) as [Hempty | Hnonempty].
  - rewrite Hempty, set_registry_empty. unfold set_fs. cbn [fs console calls ext].
    eexists. exists ∅. split; [reflexivity |]. cbn [fs console calls ext].
    repeat apply conj; try reflexivity.
    + rewrite lookup_delete_ne by congruence. exact Hfiles2_nc.
    + destruct (decide (registry_path self = input)) as [<- | Hneq];
        [apply lookup_delete_eq | now rewrite lookup_delete_ne by congruence].
    + apply get_registry_absent, lookup_delete_eq.
    + intros p H1 H2 H3. rewrite lookup_delete_ne by congruence. now apply Hfiles2_other.
  - rewrite set_registry_nonempty by exact Hnonempty. unfold set_fs.
    cbn [fs console calls ext].
    eexists. exists (canon <$> registry'). split; [reflexivity |]. cbn [fs console calls ext].
    repeat apply conj; try reflexivity.
    + rewrite lookup_insert_ne by congruence. exact Hfiles2_nc.
    + destruct (decide (registry_path self = input)) as [Heq | Hneq].
      * exfalso. apply Hnonempty. unfold registry'.
        assert (registry = ∅) as ->.
        { rewrite get_registry_absent in Hreg2; [congruence |].
          rewrite Heq. exact Hfiles2_in. }
        rewrite lookup_empty. destruct (decide (is_Some None)) as [[? ?] | _]; [discriminate | reflexivity].
      * rewrite lookup_insert_ne by congruence. exact Hfiles2_in.
    + apply get_registry_written.
    + rewrite lookup_fmap, Hgone. reflexivity.
    + intros p H1 H2 H3. rewrite lookup_insert_ne by congruence. now apply Hfiles2_other.
Qed.

End DeleteLemmas.

(** ** Further facts about [create] *)

Section MoreCreateLemmas.
Context {W : Type}.
Variable run : list string -> W -> filesystem -> option process * W.
Variable self : Manager.

Lemma create_unresolved (js : json) (n : Z) (error stdout : string) (w : @world W) (e : exn) :
  outfile self (fs w) js n = Raise e ->
  create run self js n EmptyString error stdout w = (Raise e, w).
Proof.
  intros Hout. unfold create.
  change (negb (String.eqb EmptyString EmptyString)) with false. cbv iota.
  unfold mbind, M_bind, rd, mret, M_ret. rewrite Hout. reflexivity.
Qed.

Lemma out_missing_not_registry (fs : filesystem) (js : json) (name : string) (n : Z) :
  display_name self fs js = Ok name ->
  fs !! out_path (directory self) name (filetype self) n = None ->
  out_path (directory self) name (filetype self) n <> registry_path self.
Proof. intros Hname Hnone. unfold out_path in *. eapply missing_not_registry; eauto. Qed.

Lemma display_name_prepared (js : json) (nc : string) (w : @world W) (name : string) :
  display_name self (fs w) js = Ok name ->
  display_name self (fs (prepared js nc (in_path (directory self) name) w)) js = Ok name.
Proof.
  intros Hname. unfold prepared. simpl.
  destruct (isfile (fs w) (in_path (directory self) name)) eqn:E; [exact Hname |].
  rewrite display_name_insert; [exact Hname |].
  apply isfile_false in E. unfold in_path in *. eapply missing_not_registry; eauto.
Qed.

End MoreCreateLemmas.

(** ** Lists of results *)

Lemma mapR_elem {A B : Type} (f : A -> result B) (l : list A) (ys : list B) (y : B) :
  mapR f l = Ok ys -> y ∈ ys -> exists x, x ∈ l /\ f x = Ok y.
Proof.
  revert ys. induction l as [|x l IH]; intros ys H Hy; simpl in H.
  - injection H as <-. now apply elem_of_nil in Hy.
  - destruct (f x) as [b |] eqn:Ef; [| discriminate]. simpl in H.
    destruct (mapR f l) as [bs |] eqn:El; [| discriminate]. simpl in H.
    injection H as <-. apply elem_of_cons in Hy as [-> | Hy].
    + exists x. split; [apply elem_of_cons; now left | exact Ef].
    + destruct (IH bs eq_refl Hy) as (x' & Hx' & Hf).
      exists x'. split; [apply elem_of_cons; now right | exact Hf].
Qed.

Lemma substring_app_tail (a b : string) :
  String.substring (String.length a) (String.length b) (a ++ b) = b.
Proof.
  induction a as [|c a IH].
  - rewrite str_app_nil_l. simpl.
    induction b as [|c b IHb]; [reflexivity |].
    simpl. destruct b; simpl in *; now f_equal.
  - rewrite str_app_cons. simpl. exact IH.
Qed.

(** ** The listing of the directory *)

Lemma endswith_app (a b : string) : endswith (a ++ b) b = true.
Proof.
  unfold endswith, str_last. rewrite str_length_app.
  replace (String.length a + String.length b - String.length b)%nat
    with (String.length a) by lia.
  rewrite substring_app_tail, String.eqb_refl. simpl.
  apply Nat.leb_le. lia.
Qed.

Lemma files_of_elem (self : Manager) (fs : filesystem) (filename : string)
    (chunk : list entry) (e : entry) :
  files_of self fs filename = Ok chunk ->
  e ∈ chunk ->
  exists js, json_load fs (path_join (directory self) filename) = Ok js
             /\ outfile self fs js (n e) = Ok (outputfile e)
             /\ jsonfile self fs js = Ok (inputfile e).
Proof.
  unfold files_of. intros H He.
  destruct (json_load fs (path_join (directory self) filename)) as [js |]; [| discriminate].
  simpl in H. destruct (count self fs js) as [number |]; [| discriminate]. simpl in H.
  destruct (mapR_elem _ _ _ _ H He) as (k & _ & Hk).
  exists js. split; [reflexivity |].
  destruct (outfile self fs js k) as [nc |] eqn:Hout; [| discriminate]. simpl in Hk.
  destruct (get_registry self fs) as [registry |]; [| discriminate]. simpl in Hk.
  destruct (match registry !! hashinput js with
            | Some v => as_str v
            | None => Ok (hashinput js)
            end) as [ident |]; [| discriminate]. simpl in Hk.
  destruct (jsonfile self fs js) as [input |] eqn:Hjson; [| discriminate]. simpl in Hk.
  injection Hk as <-. simpl. split; [exact Hout | reflexivity].
Qed.

Lemma files_elem (self : Manager) (fs : filesystem) (listed : list entry) (e : entry) :
  files self fs = Ok listed ->
  e ∈ listed ->
  exists filename js,
    filename ∈ listdir fs (directory self)
    /\ is_input_name filename = true
    /\ json_load fs (path_join (directory self) filename) = Ok js
    /\ outfile self fs js (n e) = Ok (outputfile e)
    /\ jsonfile self fs js = Ok (inputfile e).
Proof.
  unfold files. intros H He.
  destruct (mapR (files_of self fs) (List.filter is_input_name (listdir fs (directory self))))
    as [table |] eqn:Htable; [| discriminate].
  simpl in H. injection H as <-.
  rewrite merge_sort_Permutation in He.
  apply list_elem_of_In, in_concat in He as (chunk & Hchunk & He).
  apply list_elem_of_In in Hchunk, He.
  destruct (mapR_elem _ _ _ _ Htable Hchunk) as (filename & Hin & Hof).
  apply list_elem_of_In, filter_In in Hin as [Hin Hname].
  destruct (files_of_elem self fs filename chunk e Hof He) as (js & Hload & Hout & Hjson).
  exists filename, js. split; [now apply list_elem_of_In |]. auto.
Qed.

Lemma table_elem (self : Manager) (fs : filesystem) (listed : list entry)
    (loaded : list json) (js : json) :
  files self fs = Ok listed ->
  table self fs = Ok loaded ->
  js ∈ loaded ->
  exists e, e ∈ listed /\ n e = 0 /\ json_load fs (inputfile e) = Ok js.
Proof.
  unfold table. intros Hfiles Htable Hjs. rewrite Hfiles in Htable. simpl in Htable.
  destruct (mapR _ listed) as [chunks |] eqn:Hchunks; [| discriminate].
  simpl in Htable. injection Htable as <-.
  apply list_elem_of_In, in_concat in Hjs as (chunk & Hchunk & Hjs).
  apply list_elem_of_In in Hchunk, Hjs.
  destruct (mapR_elem _ _ _ _ Hchunks Hchunk) as (e & He & Hload).
  exists e. split; [exact He |].
  destruct (json_load fs (inputfile e)) as [js' |]; [| discriminate].
  simpl in Hload. injection Hload as <-.
  destruct (n e =? 0) eqn:En.
  - apply elem_of_cons in Hjs as [-> | Hjs]; [split; [lia | reflexivity] | now apply elem_of_nil in Hjs].
  - now apply elem_of_nil in Hjs.
Qed.

Section DeleteAllLemmas.
Context {W : Type}.
Variable self : Manager.

Lemma os_remove_frame (path p : string) (w : @world W) :
  p <> path -> fs (os_remove path w).2 !! p = fs w !! p.
Proof.
  intros Hne. unfold os_remove. destruct (isfile (fs w) path); [| reflexivity].
  cbn. apply lookup_delete_ne. congruence.
Qed.

Lemma for_each_remove_frame (listed : list entry) (p : string) (w : @world W) :
  (forall e, e ∈ listed -> p <> inputfile e /\ p <> outputfile e) ->
  fs (for_each listed (fun entry =>
         _ ← (if n entry =? 0 then os_remove (inputfile entry) else mret ());
         os_remove (outputfile entry)) w).2 !! p = fs w !! p.
Proof.
  revert w. induction listed as [|e listed IH]; intros w Hp; [reflexivity |].
  destruct (Hp e ltac:(apply elem_of_cons; now left)) as [Hin Hout].
  assert (Hrest : forall e', e' ∈ listed -> p <> inputfile e' /\ p <> outputfile e').
  { intros e' He'. apply Hp, elem_of_cons. now right. }
  cbn [for_each]. unfold mbind at 1, M_bind at 1.
  match goal with |- context [let (r, w') := ?step w in _] =>
    assert (Hstep : fs (step w).2 !! p = fs w !! p) end.
  { unfold mbind, M_bind, mret, M_ret. destruct (n e =? 0).
    - pose proof (os_remove_frame (inputfile e) p w Hin) as H1.
      destruct (os_remove (inputfile e) w) as [[[] | err] w1]; cbn [snd] in *.
      + rewrite <- H1. now apply os_remove_frame.
      + exact H1.
    - now apply os_remove_frame. }
  match goal with |- context [let (r, w') := ?step w in _] =>
    destruct (step w) as [[[] | err] w1] end; cbn [snd] in *.
  - rewrite <- Hstep. now apply IH.
  - exact Hstep.
Qed.

Lemma delete_all_frame (listed : list entry) (p : string) (w : @world W) :
  files self (fs w) = Ok listed ->
  (forall e, e ∈ listed -> p <> inputfile e /\ p <> outputfile e) ->
  p <> registry_path self ->
  fs (delete_all self w).2 !! p = fs w !! p.
Proof.
  intros Hfiles Hp Hrp. unfold delete_all, mbind, M_bind, rd. rewrite Hfiles.
  pose proof (for_each_remove_frame listed p w Hp) as Hloop.
  match goal with |- context [let (r, w') := ?loop w in _] =>
    change (fs (loop w).2 !! p = fs w !! p) in Hloop;
    destruct (loop w) as [[[] | err] w1] end; cbn [snd] in *.
  - rewrite set_registry_empty. cbn [snd set_fs fs].
    rewrite lookup_delete_ne by congruence. exact Hloop.
  - exact Hloop.
Qed.

End DeleteAllLemmas.

(** ** [count] always returns *)

Lemma display_name_error (self : Manager) (fs : filesystem) (js : json) (e : exn) :
  display_name self fs js = Raise e -> e <> OutOfFuel.
Proof.
  unfold display_name, get_registry, json_load, as_dict, as_str.
  destruct (isfile fs _); simpl.
  - destruct (fs !! _) as [[v | b] |]; simpl; try (intros [= <-]; discriminate).
    2: { destruct (utf8_valid b); simpl; intros [= <-]; discriminate. }
    destruct v; simpl; try (intros [= <-]; discriminate).
    destruct (list_to_map items !! hashinput js) as [[] |];
      intros [= <-] || intros [=]; discriminate.
  - rewrite lookup_empty. discriminate.
Qed.

Lemma count_terminates (self : Manager) (fs : filesystem) (js : json) :
  count self fs js <> Raise OutOfFuel.
Proof.
  destruct (display_name self fs js) as [name | e] eqn:Hname.
  - destruct (count_loop_spec self fs js name (S (size fs)) 0 Hname) as (k & Hk & _).
    + lia.
    + intros i Hi. lia.
    + simpl. lia.
    + unfold count. rewrite Hk. discriminate.
  - unfold count. simpl. rewrite exists_resolved, Hname. simpl.
    intros [= ->]. now apply display_name_error in Hname.
Qed.

(** ** Resolved paths and display names *)

Lemma outfile_name (self : Manager) (fs : filesystem) (js : json) (n : Z) (nc : string) :
  outfile self fs js n = Ok nc ->
  exists name, display_name self fs js = Ok name
               /\ nc = out_path (directory self) name (filetype self) n.
Proof.
  rewrite outfile_resolved.
  destruct (display_name self fs js) as [name |]; [| discriminate].
  simpl. intros [= <-]. now exists name.
Qed.

Lemma jsonfile_name (self : Manager) (fs : filesystem) (js : json) (name input : string) :
  display_name self fs js = Ok name ->
  jsonfile self fs js = Ok input ->
  input = in_path (directory self) name.
Proof. intros Hname. rewrite jsonfile_resolved, Hname. simpl. now intros [= <-]. Qed.

Lemma outfile_of_name (self : Manager) (fs : filesystem) (js : json) (n : Z)
    (name other : string) :
  display_name self fs js = Ok name ->
  outfile self fs js n = Ok other ->
  other = out_path (directory self) name (filetype self) n.
Proof. intros Hname. rewrite outfile_resolved, Hname. simpl. now intros [= <-]. Qed.


(** ** The properties of the specification *)

(** C1, amended.  When the output file resolved for [(js, n)] exists,
    [create(js, n)] returns its path, leaves every file as it is and does
    not start the executable.  Hence, when a call of [create(js, n)]
    returns a path and the file at that path exists afterwards, a second
    call returns the same path without starting the executable, so that
    the two calls start it at most once. *)
Theorem create_cached {W : Type}
    (run : list string -> W -> filesystem -> option process * W)
    (self : Manager) (js : json) (n : Z) :
  (forall (error stdout : string) (w : @world W) (nc : string),
     outfile self (fs w) js n = Ok nc ->
     isfile (fs w) nc = true ->
     exists w' : @world W,
       create run self js n EmptyString error stdout w = (Ok nc, w')
       /\ fs w' = fs w /\ calls w' = calls w /\ ext w' = ext w)
  /\ (forall (error1 stdout1 error2 stdout2 : string) (w w1 : @world W) (p : string),
        create run self js n EmptyString error1 stdout1 w = (Ok p, w1) ->
        isfile (fs w1) p = true ->
        exists w2 : @world W,
          create run self js n EmptyString error2 stdout2 w1 = (Ok p, w2)
          /\ fs w2 = fs w1 /\ calls w2 = calls w1
          /\ (length (calls w2) <= length (calls w) + 1)%nat).
Proof.
  split.
  - intros error stdout w nc Hout Hfile.
    rewrite (create_hit run self js n error stdout w nc Hout Hfile).
    eexists. split; [reflexivity |]. now cbn.
  - intros error1 stdout1 error2 stdout2 w w1 p Hfirst Hfile.
    assert (Hagain : outfile self (fs w1) js n = Ok p
                     /\ (length (calls w1) <= length (calls w) + 1)%nat).
    { destruct (outfile self (fs w) js n) as [nc | e] eqn:Hout.
      2: { rewrite (create_unresolved run self js n error1 stdout1 w e Hout) in Hfirst.
           discriminate. }
      destruct (isfile (fs w) nc) eqn:Hnc.
      { rewrite (create_hit run self js n error1 stdout1 w nc Hout Hnc) in Hfirst.
        injection Hfirst as <- <-. cbn. split; [exact Hout | lia]. }
      destruct (outfile_name self (fs w) js n nc Hout) as (name & Hname & ->).
      apply isfile_false in Hnc.
      pose proof (out_missing_not_registry self (fs w) js name n Hname Hnc) as Hrp.
      pose proof (display_name_prepared self js
                    (out_path (directory self) name (filetype self) n) w name Hname) as Hprep.
      rewrite (create_miss run self js n error1 stdout1 w name Hname Hnc) in Hfirst.
      destruct (run _ _ _) as [[pr |] x]; [| discriminate].
      destruct (p_returncode pr =? 0).
      - injection Hfirst as <- <-. unfold prepared in *. cbn [fs calls] in *. split.
        + rewrite outfile_resolved.
          destruct (p_output pr) as [c |].
          * rewrite display_name_insert by exact Hrp. now rewrite Hprep.
          * now rewrite Hprep.
        + rewrite length_app. simpl. lia.
      - exfalso.
        assert (Hshape : p = out_path (directory self) name (filetype self) n
                         /\ fs w1 = rolled_back n (in_path (directory self) name)
                                      (out_path (directory self) name (filetype self) n)
                                      (fs (prepared js
                                             (out_path (directory self) name (filetype self) n)
                                             (in_path (directory self) name) w))).
        { destruct (String.eqb error1 "display"), (String.eqb error1 "raise");
            try discriminate Hfirst; injection Hfirst as <- <-; split; reflexivity. }
        destruct Hshape as [-> Hfs].
        apply isfile_true in Hfile. rewrite Hfs in Hfile. unfold rolled_back in Hfile.
        destruct (n =? 0);
          rewrite ?(lookup_delete_ne _ (in_path (directory self) name)) in Hfile
            by apply in_path_not_out_path;
          rewrite lookup_delete_eq in Hfile; destruct Hfile as [? ?]; discriminate. }
    destruct Hagain as [Hout1 Hlen].
    rewrite (create_hit run self js n error2 stdout2 w1 p Hout1 Hfile).
    eexists. split; [reflexivity |]. cbn. repeat apply conj; try reflexivity. exact Hlen.
Qed.

Lemma create_cached_witness :
  (exists w' : @world unit,
     create Demo.succeeds Demo.store Demo.record 0 EmptyString "raise" "ignore"
       (Demo.on_disk Demo.chain) = (Ok "data/run.nc", w')
     /\ fs w' = Demo.chain /\ calls w' = [] /\ ext w' = ())
  /\ (exists w2 : @world unit,
        create Demo.succeeds Demo.store Demo.record 0 EmptyString "raise" "ignore"
          (create Demo.succeeds Demo.store Demo.record 0 EmptyString "raise" "ignore"
             Demo.start).2
        = (Ok "data/c8b0bcdb34ded0fdaf264864fe47b8f2cd5dc056.nc", w2)
        /\ (length (calls w2) <= 1)%nat).
Proof.
  split.
  - apply (proj1 (create_cached Demo.succeeds Demo.store Demo.record 0)
             "raise" "ignore" (Demo.on_disk Demo.chain) "data/run.nc").
    + vm_compute. reflexivity.
    + vm_compute. reflexivity.
  - destruct (proj2 (create_cached Demo.succeeds Demo.store Demo.record 0)
                "raise" "ignore" "raise" "ignore" Demo.start
                (create Demo.succeeds Demo.store Demo.record 0 EmptyString "raise" "ignore"
                   Demo.start).2
                "data/c8b0bcdb34ded0fdaf264864fe47b8f2cd5dc056.nc")
      as (w2 & Hsecond & _ & _ & Hlen).
    + vm_compute. reflexivity.
    + vm_compute. reflexivity.
    + exists w2. split; [exact Hsecond | exact Hlen].
Defined.

(** C1, counterexample.  In the demonstration store, two calls with the
    same record and no delete in between start the executable twice: with
    an executable that fails, under [error="ignore"], and with one that
    exits with 0 without writing its output file.  Both calls return the
    same path. *)
Lemma create_twice_runs_twice :
  (let first := create Demo.fails Demo.store Demo.record 0 EmptyString "ignore" "ignore"
                  Demo.start in
   let second := create Demo.fails Demo.store Demo.record 0 EmptyString "ignore" "ignore"
                   first.2 in
   first.1 = Ok "data/c8b0bcdb34ded0fdaf264864fe47b8f2cd5dc056.nc"
   /\ second.1 = first.1
   /\ length (calls second.2) = 2%nat)
  /\ (let first := create Demo.idles Demo.store Demo.record 0 EmptyString "raise" "ignore"
                     Demo.start in
      let second := create Demo.idles Demo.store Demo.record 0 EmptyString "raise" "ignore"
                      first.2 in
      first.1 = Ok "data/c8b0bcdb34ded0fdaf264864fe47b8f2cd5dc056.nc"
      /\ second.1 = first.1
      /\ length (calls second.2) = 2%nat).
Proof. vm_compute. repeat split. Qed.

(** C2.  When the executable exits with a nonzero code during
    [create(js, n, error=...)] on a cache miss: the output file does not
    exist afterwards, whether or not the run created it; the input file
    is removed when [n = 0] and is in place otherwise; no other file
    changes; ["raise"] raises the [CalledProcessError], ["display"]
    prints the captured stderr, and every policy but ["raise"] returns
    the intended output path. *)
Theorem create_failure {W : Type}
    (run : list string -> W -> filesystem -> option process * W)
    (self : Manager) (js : json) (n : Z) (error stdout : string)
    (w : @world W) (nc input previous : string) (pr : process) (x : W) :
  outfile self (fs w) js n = Ok nc ->
  jsonfile self (fs w) js = Ok input ->
  outfile self (fs w) js (n - 1) = Ok previous ->
  isfile (fs w) nc = false ->
  run (argv_for self n input nc previous) (ext w) (fs (prepared js nc input w))
  = (Some pr, x) ->
  p_returncode pr <> 0 ->
  exists w' : @world W,
    create run self js n EmptyString error stdout w
    = (if String.eqb error "raise"
       then Raise (CalledProcessError (p_returncode pr) (p_stdout pr) (p_stderr pr))
       else Ok nc, w')
    /\ isfile (fs w') nc = false
    /\ (n = 0 -> isfile (fs w') input = false)
    /\ (n <> 0 -> isfile (fs w') input = true)
    /\ (forall p, p <> nc -> p <> input -> fs w' !! p = fs w !! p)
    /\ console w' = (console w ++ [running_line js nc]
                       ++ (if String.eqb error "display" then [PBytes (p_stderr pr)] else []))%list
    /\ calls w' = (calls w ++ [argv_for self n input nc previous])%list.
Proof.
  intros Hout Hjson Hprev Hmiss Hrun Hcode.
  destruct (outfile_name self (fs w) js n nc Hout) as (name & Hname & ->).
  pose proof (jsonfile_name self (fs w) js name input Hname Hjson) as ->.
  pose proof (outfile_of_name self (fs w) js (n - 1) name previous Hname Hprev) as ->.
  clear Hout Hjson Hprev.
  set (nc := out_path (directory self) name (filetype self) n) in *.
  set (input := in_path (directory self) name) in *.
  assert (Hne : input <> nc) by apply in_path_not_out_path.
  apply isfile_false in Hmiss.
  rewrite (create_miss run self js n error stdout w name Hname Hmiss).
  fold nc input. change (ext (prepared js nc input w)) with (ext w). rewrite Hrun.
  apply Z.eqb_neq in Hcode. rewrite Hcode.
  eexists. split.
  { f_equal. destruct (String.eqb_spec error "display") as [-> | _]; [reflexivity |].
    destruct (String.eqb error "raise"); reflexivity. }
  cbn [fs console calls ext]. unfold rolled_back, prepared. cbn [fs console calls ext].
  repeat apply conj.
  - apply isfile_false.
    destruct (n =? 0); rewrite ?(lookup_delete_ne _ input) by exact Hne;
      apply lookup_delete_eq.
  - intros ->. apply isfile_false. simpl. apply lookup_delete_eq.
  - intros Hn. apply Z.eqb_neq in Hn. rewrite Hn. apply isfile_true.
    rewrite lookup_delete_ne by congruence.
    destruct (isfile (fs w) input) eqn:E; [now apply isfile_true |].
    rewrite lookup_insert_eq. eauto.
  - intros p Hp1 Hp2.
    assert (Hbase : (if isfile (fs w) input then fs w
                     else <[input := FJson (canon js)]> (fs w)) !! p = fs w !! p).
    { destruct (isfile (fs w) input); [reflexivity |].
      apply lookup_insert_ne. congruence. }
    destruct (n =? 0); rewrite !lookup_delete_ne by congruence; exact Hbase.
  - now rewrite <- app_assoc.
  - reflexivity.
Qed.

Lemma create_failure_witness :
  exists w' : @world unit,
    create Demo.fails Demo.store Demo.record 0 EmptyString "display" "ignore" Demo.start
    = (Ok "data/c8b0bcdb34ded0fdaf264864fe47b8f2cd5dc056.nc", w')
    /\ isfile (fs w') "data/c8b0bcdb34ded0fdaf264864fe47b8f2cd5dc056.nc" = false
    /\ isfile (fs w') "data/c8b0bcdb34ded0fdaf264864fe47b8f2cd5dc056.json" = false
    /\ console w' = [running_line Demo.record "data/c8b0bcdb34ded0fdaf264864fe47b8f2cd5dc056.nc";
                     PBytes "boom"].
Proof.
  destruct (create_failure Demo.fails Demo.store Demo.record 0 "display" "ignore"
              Demo.start
              "data/c8b0bcdb34ded0fdaf264864fe47b8f2cd5dc056.nc"
              "data/c8b0bcdb34ded0fdaf264864fe47b8f2cd5dc056.json"
              "data/c8b0bcdb34ded0fdaf264864fe47b8f2cd5dc056.nc"
              {| p_returncode := 1; p_stdout := EmptyString; p_stderr := "boom";
                 p_output := Some (FRaw "partial") |} ())
    as (w' & Hres & Hout & Hin & _ & _ & Hcon & _).
  - vm_compute. reflexivity.
  - vm_compute. reflexivity.
  - vm_compute. reflexivity.
  - vm_compute. reflexivity.
  - reflexivity.
  - simpl. lia.
  - exists w'. split; [exact Hres |]. split; [exact Hout |]. split; [now apply Hin |].
    exact Hcon.
Defined.

(** C3, amended.  [hashinput] is a function of the canonical
    serialization: records with byte-identical serializations hash
    equally, so do records that differ only in the order of the keys of
    their mappings, and records with different hashes have different
    serializations; [{"a": 10}] and [{"a": 10.0}] hash differently. *)
Theorem hashinput_canonical :
  (forall r1 r2 : json, dumps r1 = dumps r2 -> hashinput r1 = hashinput r2)
  /\ (forall r1 r2 : json, reordered r1 r2 -> hashinput r1 = hashinput r2)
  /\ (forall r1 r2 : json, hashinput r1 <> hashinput r2 -> dumps r1 <> dumps r2)
  /\ hashinput (JDict [("a", JInt 10)]) <> hashinput (JDict [("a", JFloat "10.0")]).
Proof.
  split; [| split; [| split]].
  - intros r1 r2 H. unfold hashinput. now rewrite H.
  - intros r1 r2 H. unfold hashinput. now rewrite (dumps_reordered r1 r2 H).
  - intros r1 r2 H Hd. apply H. unfold hashinput. now rewrite Hd.
  - vm_compute. discriminate.
Qed.

Lemma hashinput_canonical_witness :
  hashinput (JDict [("b", JInt 1); ("a", JDict [("y", JNull); ("x", JBool true)])])
  = hashinput (JDict [("a", JDict [("x", JBool true); ("y", JNull)]); ("b", JInt 1)]).
Proof.
  apply (proj1 (proj2 hashinput_canonical)).
  eapply (reordered_dict _ [("b", JInt 1); ("a", JDict [("x", JBool true); ("y", JNull)])]).
  - repeat constructor.
    eapply (reordered_dict _ [("y", JNull); ("x", JBool true)]).
    + repeat constructor.
    + apply Permutation_swap.
    + simpl. apply (bool_decide_unpack (NoDup _)). vm_compute. exact I.
  - apply Permutation_swap.
  - simpl. apply (bool_decide_unpack (NoDup _)). vm_compute. exact I.
Defined.

(** C3, counterexample.  The "only if" half does not hold: equal hashes
    do not force equal serializations, because the records have
    infinitely many serializations and a digest has at most [2^160]
    values. *)
Lemma hashinput_iff_fails :
  ~ (forall r1 r2 : json, hashinput r1 = hashinput r2 <-> dumps r1 = dumps r2).
Proof.
  intros Hiff.
  apply (not_injective_into_bounded (Z.to_nat digest_bound)
           (fun k => Z.to_nat (digest_code (SHA1.digest (SHA1.bytes_of (dumps (filler k))))))).
  - intros k.
    pose proof (digest_code_bound _ (digest_range (SHA1.bytes_of (dumps (filler k))))) as Hb.
    apply Z2Nat.inj_lt; lia.
  - intros i j Hij.
    pose proof (digest_code_bound _ (digest_range (SHA1.bytes_of (dumps (filler i))))) as Hi.
    pose proof (digest_code_bound _ (digest_range (SHA1.bytes_of (dumps (filler j))))) as Hj.
    apply Z2Nat.inj in Hij; [| lia | lia].
    apply digest_code_inj in Hij; [| apply digest_range | apply digest_range].
    apply hexdigest_of_digest in Hij.
    assert (Hd : dumps (filler i) = dumps (filler j)) by (apply Hiff; exact Hij).
    apply (f_equal String.length) in Hd. rewrite !length_dumps_filler in Hd. lia.
Qed.

(** C4.  With the registry read from the directory, [register(js, name)]
    raises exactly when the name is "simplesimdb", the key is bound to a
    different name, the key is unbound and an input file exists under the
    raw key, or the name is bound to a different key; a refused call
    leaves the whole state, the registry file included, as it was.  In
    every other case it binds the name and changes no file but the
    registry file. *)
Theorem register_rejects {W : Type} (self : Manager) (js : json) (name : string)
    (w : @world W) (registry : gmap string json) :
  get_registry self (fs w) = Ok registry ->
  ((exists e, (register self js name w).1 = Raise e)
   <-> rejected self (fs w) registry js name)
  /\ (rejected self (fs w) registry js name -> (register self js name w).2 = w)
  /\ (~ rejected self (fs w) registry js name ->
      exists w' : @world W,
        register self js name w = (Ok (), w')
        /\ get_registry self (fs w')
           = Ok (<[hashinput js := JStr name]> (canon <$> registry))
        /\ (forall p, p <> registry_path self -> fs w' !! p = fs w !! p)
        /\ console w' = console w /\ calls w' = calls w).
Proof.
  intros Hreg.
  destruct (register_spec self js name w registry Hreg) as [[Hrej (e & He)] | [Hok Hreg']].
  - rewrite He. cbn [fst snd]. split; [| split].
    + split; [intros _; exact Hrej | intros _; now exists e].
    + reflexivity.
    + intros Hnot. contradiction.
  - rewrite Hreg'. cbn [fst snd]. split; [| split].
    + split; [intros (e & He); discriminate | intros H; contradiction].
    + intros H. contradiction.
    + intros _. eexists. split; [reflexivity |]. cbn [set_fs fs console calls].
      repeat apply conj; try reflexivity.
      * rewrite get_registry_written. now rewrite fmap_insert.
      * intros p Hp. now apply lookup_insert_ne.
Qed.

Lemma register_rejects_witness :
  get_registry Demo.store DemoFiles.taken
  = Ok (<[hashinput (JDict []) := JStr "other"]> (∅ : gmap string json))
  /\ rejected Demo.store DemoFiles.taken
       (<[hashinput (JDict []) := JStr "other"]> (∅ : gmap string json))
       Demo.record "other"
  /\ (exists e, (register Demo.store Demo.record "other" (Demo.on_disk DemoFiles.taken)).1
                = Raise e)
  /\ (register Demo.store Demo.record "other" (Demo.on_disk DemoFiles.taken)).2
     = Demo.on_disk DemoFiles.taken.
Proof.
  assert (Hreg : get_registry Demo.store (fs (Demo.on_disk DemoFiles.taken))
                 = Ok (<[hashinput (JDict []) := JStr "other"]> (∅ : gmap string json)))
    by (vm_compute; reflexivity).
  assert (Hrej : rejected Demo.store (fs (Demo.on_disk DemoFiles.taken))
                   (<[hashinput (JDict []) := JStr "other"]> (∅ : gmap string json))
                   Demo.record "other").
  { do 3 right. exists (hashinput (JDict [])). split.
    - vm_compute. discriminate.
    - vm_compute. reflexivity. }
  destruct (register_rejects Demo.store Demo.record "other" (Demo.on_disk DemoFiles.taken)
              (<[hashinput (JDict []) := JStr "other"]> (∅ : gmap string json))
              Hreg) as (Hiff & Hsame & _).
  split; [exact Hreg |]. split; [exact Hrej |].
  split; [apply Hiff; exact Hrej | apply Hsame; exact Hrej].
Defined.

(** C5.  Whenever the output paths of [js] resolve, [count] returns the
    length [k] of the contiguous chain from index 0: every index below
    [k] exists, index [k] does not, and no index at or after a missing
    one is counted, whatever files exist beyond the gap. *)
Theorem count_contiguous (self : Manager) (fs : filesystem) (js : json) (first : string) :
  outfile self fs js 0 = Ok first ->
  exists k : Z,
    count self fs js = Ok k
    /\ 0 <= k
    /\ (forall i, 0 <= i < k -> exists_ self fs js i = Ok true)
    /\ exists_ self fs js k = Ok false
    /\ (forall gap, 0 <= gap -> exists_ self fs js gap = Ok false -> k <= gap).
Proof.
  intros Hfirst.
  destruct (outfile_name self fs js 0 first Hfirst) as (name & Hname & _).
  destruct (count_loop_spec self fs js name (S (size fs)) 0 Hname) as (k & Hk & Hle & Hall & Hgap).
  - lia.
  - intros i Hi. lia.
  - simpl. lia.
  - exists k. split; [exact Hk |]. split; [exact Hle |].
    split; [| split].
    + intros i Hi. rewrite exists_resolved, Hname. simpl. f_equal. now apply Hall.
    + rewrite exists_resolved, Hname. simpl. now f_equal.
    + intros gap Hpos Hfalse. rewrite exists_resolved, Hname in Hfalse. simpl in Hfalse.
      destruct (Z_le_gt_dec k gap) as [Hle' | Hgt]; [exact Hle' |].
      rewrite Hall in Hfalse by lia. discriminate.
Qed.

Lemma count_contiguous_witness :
  outfile Demo.store Demo.chain Demo.record 0 = Ok "data/run.nc"
  /\ exists k : Z,
       count Demo.store Demo.chain Demo.record = Ok k
       /\ 0 <= k
       /\ (forall i, 0 <= i < k -> exists_ Demo.store Demo.chain Demo.record i = Ok true)
       /\ exists_ Demo.store Demo.chain Demo.record k = Ok false
       /\ (forall gap, 0 <= gap ->
             exists_ Demo.store Demo.chain Demo.record gap = Ok false -> k <= gap).
Proof.
  split; [vm_compute; reflexivity |].
  apply (count_contiguous Demo.store Demo.chain Demo.record "data/run.nc").
  vm_compute. reflexivity.
Defined.

(** C6.  For an entry whose output file of index [n] exists (and is not
    the sidecar file), [delete(js, n)] removes that file.  For [n = 0],
    with the input file in place, it also removes the input file and
    leaves the key without a name in the registry, so that the key
    resolves to itself again.  For [n > 0] nothing else changes: the
    input file, the registry and the outputs of all other indices stay
    as they were. *)
Theorem delete_entry {W : Type} (self : Manager) (js : json) (n : Z)
    (w : @world W) (nc input : string) :
  outfile self (fs w) js n = Ok nc ->
  jsonfile self (fs w) js = Ok input ->
  isfile (fs w) nc = true ->
  nc <> registry_path self ->
  (n = 0 -> isfile (fs w) input = true) ->
  0 <= n ->
  exists w' : @world W,
    delete_ self js n w = (Ok (), w')
    /\ isfile (fs w') nc = false
    /\ (n = 0 ->
        isfile (fs w') input = false
        /\ (exists registry', get_registry self (fs w') = Ok registry'
                              /\ registry' !! hashinput js = None)
        /\ jsonfile self (fs w') js
           = Ok (path_join (directory self) (hashinput js ++ ".json"))
        /\ (forall p, p <> nc -> p <> input -> p <> registry_path self ->
                      fs w' !! p = fs w !! p))
    /\ (0 < n ->
        fs w' = delete nc (fs w)
        /\ fs w' !! input = fs w !! input
        /\ get_registry self (fs w') = get_registry self (fs w)
        /\ (forall k other, 0 <= k -> k <> n ->
              outfile self (fs w) js k = Ok other ->
              fs w' !! other = fs w !! other)).
Proof.
  intros Hout Hjson Hnc Hrp Hin Hpos.
  destruct (outfile_name self (fs w) js n nc Hout) as (name & Hname & ->).
  pose proof (jsonfile_name self (fs w) js name input Hname Hjson) as ->.
  destruct (decide (n = 0)) as [-> | Hn].
  - destruct (delete_first self js w name Hname Hnc (Hin eq_refl) Hrp)
      as (w' & registry' & Hdel & H1 & H2 & H3 & H4 & H5 & _).
    exists w'. split; [exact Hdel |]. split; [now apply isfile_false |]. split; [| lia].
    intros _. split; [now apply isfile_false |]. split; [eauto |]. split; [| exact H5].
    unfold jsonfile. rewrite H3. simpl. now rewrite H4.
  - exists (set_fs (delete (out_path (directory self) name (filetype self) n)) w).
    split; [now apply delete_restart |].
    cbn [set_fs fs]. split; [apply isfile_false, lookup_delete_eq |].
    split; [contradiction |].
    intros _. split; [reflexivity |]. split; [| split].
    + apply lookup_delete_ne. intros H. symmetry in H. revert H.
      apply in_path_not_out_path.
    + now apply get_registry_delete.
    + intros k other Hk Hkn Hother.
      pose proof (outfile_of_name self (fs w) js k name other Hname Hother) as ->.
      apply lookup_delete_ne. intros H. apply out_path_inj in H; lia.
Qed.

Lemma delete_entry_witness :
  (exists w' : @world unit,
     delete_ Demo.store Demo.record 1 (Demo.on_disk Demo.chain) = (Ok (), w')
     /\ isfile (fs w') "data/run0x1.nc" = false)
  /\ (exists w' : @world unit,
        delete_ Demo.store Demo.record 0 (Demo.on_disk Demo.chain) = (Ok (), w')
        /\ isfile (fs w') "data/run.nc" = false).
Proof.
  split.
  - destruct (delete_entry Demo.store Demo.record 1 (Demo.on_disk Demo.chain)
                "data/run0x1.nc" "data/run.json")
      as (w' & Hdel & Hgone & _).
    + vm_compute. reflexivity.
    + vm_compute. reflexivity.
    + vm_compute. reflexivity.
    + vm_compute. discriminate.
    + intros H. discriminate H.
    + lia.
    + exists w'. split; [exact Hdel | exact Hgone].
  - destruct (delete_entry Demo.store Demo.record 0 (Demo.on_disk Demo.chain)
                "data/run.nc" "data/run.json")
      as (w' & Hdel & Hgone & _).
    + vm_compute. reflexivity.
    + vm_compute. reflexivity.
    + vm_compute. reflexivity.
    + vm_compute. discriminate.
    + intros _. vm_compute. reflexivity.
    + lia.
    + exists w'. split; [exact Hdel | exact Hgone].
Defined.



(** C8.  The output path is a function of the directory, the display
    name, the output extension and the index: the name, then for an index
    above 0 the suffix [0x] and the lowercase hexadecimal digits of the
    index, then [_out.json] when the extension is [json] and a dot and
    the extension otherwise.  It is never the path of the input file. *)
Theorem outfile_path (self : Manager) (fs : filesystem) (js : json) (n : Z) (name : string) :
  display_name self fs js = Ok name ->
  let stem := if 0 <? n then name ++ "0x" ++ hex_digits (Z.to_N n) else name in
  let ending := if String.eqb (filetype self) "json" then "_out.json"
                else "." ++ filetype self in
  outfile self fs js n = Ok (path_join (directory self) (stem ++ ending))
  /\ outfile self fs js n = Ok (out_path (directory self) name (filetype self) n)
  /\ all_chars is_lower_hex (hex_digits (Z.to_N n)) = true
  /\ N.of_hex_uint <$> HexadecimalString.NilZero.uint_of_string (hex_digits (Z.to_N n))
     = Some (Z.to_N n)
  /\ jsonfile self fs js = Ok (path_join (directory self) (name ++ ".json"))
  /\ path_join (directory self) (stem ++ ending)
     <> path_join (directory self) (name ++ ".json").
Proof.
  intros Hname stem ending.
  assert (Hpath : out_path (directory self) name (filetype self) n
                  = path_join (directory self) (stem ++ ending)).
  { unfold out_path, sim_suffix, ext_suffix, stem, ending.
    destruct (0 <? n); [now rewrite !str_app_assoc | reflexivity]. }
  repeat apply conj.
  - rewrite outfile_resolved, Hname. simpl. now rewrite Hpath.
  - rewrite outfile_resolved, Hname. reflexivity.
  - apply hex_digits_lower.
  - apply hex_digits_value.
  - rewrite jsonfile_resolved, Hname. reflexivity.
  - rewrite <- Hpath. intros H. symmetry in H. revert H. apply in_path_not_out_path.
Qed.

Lemma outfile_path_witness :
  outfile Demo.store Demo.chain Demo.record 26 = Ok "data/run0x1a.nc".
Proof.
  exact (proj1 (outfile_path Demo.store Demo.chain Demo.record 26 "run"
                  ltac:(vm_compute; reflexivity))).
Defined.

(** C9.  When the output file of index 0 does not exist, [delete(js, 0)]
    changes nothing: the input file and the registry binding stay, and
    the whole state is the one before the call. *)
Theorem delete_absent_noop {W : Type} (self : Manager) (js : json) (w : @world W) :
  exists_ self (fs w) js 0 = Ok false ->
  delete_ self js 0 w = (Ok (), w).
Proof.
  unfold exists_. intros H.
  destruct (outfile self (fs w) js 0) as [nc |] eqn:Hout; [| discriminate].
  simpl in H. injection H as H. now apply (delete_absent self js 0 w nc).
Qed.

Lemma delete_absent_noop_witness :
  exists_ Demo.store DemoFiles.orphan Demo.record 0 = Ok false
  /\ isfile DemoFiles.orphan "data/run.json" = true
  /\ display_name Demo.store DemoFiles.orphan Demo.record = Ok "run"
  /\ delete_ Demo.store Demo.record 0 (Demo.on_disk DemoFiles.orphan)
     = (Ok (), Demo.on_disk DemoFiles.orphan).
Proof.
  split; [vm_compute; reflexivity |].
  split; [vm_compute; reflexivity |].
  split; [vm_compute; reflexivity |].
  apply (delete_absent_noop Demo.store Demo.record (Demo.on_disk DemoFiles.orphan)).
  vm_compute. reflexivity.
Defined.

(** C10.  Every entry of [files()] comes from a file of the directory
    whose name ends with [.json] and not with [out.json].  The input
    file of a display name that ends in "out" has a name ending with
    [out.json]; so when that file is the only one in the directory holding
    a record with the key of [js], every entry of [files()] belongs to
    another key.  [table()] loads only input files of listed entries and
    [delete_all()] removes only files named by listed entries (and the
    registry file).  In the demonstration directory, where the record is
    registered as "fallout" and its input file and two output files
    exist, [files()] and [table()] are empty and [delete_all()] removes
    none of the three files. *)
Theorem files_skips_out_names :
  (forall (self : Manager) (fs : filesystem) (listed : list entry) (e : entry),
     files self fs = Ok listed ->
     e ∈ listed ->
     exists filename js,
       filename ∈ listdir fs (directory self)
       /\ endswith filename ".json" = true
       /\ endswith filename "out.json" = false
       /\ json_load fs (path_join (directory self) filename) = Ok js
       /\ outfile self fs js (n e) = Ok (outputfile e)
       /\ jsonfile self fs js = Ok (inputfile e))
  /\ (forall stem : string,
        endswith ((stem ++ "out") ++ ".json") "out.json" = true
        /\ is_input_name ((stem ++ "out") ++ ".json") = false)
  /\ (forall (self : Manager) (fs : filesystem) (js : json) (stem : string)
             (listed : list entry) (e : entry),
        (forall filename js',
           filename ∈ listdir fs (directory self) ->
           json_load fs (path_join (directory self) filename) = Ok js' ->
           hashinput js' = hashinput js ->
           filename = (stem ++ "out") ++ ".json") ->
        files self fs = Ok listed ->
        e ∈ listed ->
        exists filename js',
          json_load fs (path_join (directory self) filename) = Ok js'
          /\ outfile self fs js' (n e) = Ok (outputfile e)
          /\ jsonfile self fs js' = Ok (inputfile e)
          /\ hashinput js' <> hashinput js)
  /\ (forall (self : Manager) (fs : filesystem) (listed : list entry)
             (loaded : list json) (js : json),
        files self fs = Ok listed ->
        table self fs = Ok loaded ->
        js ∈ loaded ->
        exists e, e ∈ listed /\ n e = 0 /\ json_load fs (inputfile e) = Ok js)
  /\ (forall (W : Type) (self : Manager) (w : @world W) (listed : list entry) (p : string),
        files self (fs w) = Ok listed ->
        (forall e, e ∈ listed -> p <> inputfile e /\ p <> outputfile e) ->
        p <> registry_path self ->
        fs (delete_all self w).2 !! p = fs w !! p)
  /\ (display_name Demo.store Demo.fallout Demo.record = Ok "fallout"
      /\ isfile Demo.fallout "data/fallout.json" = true
      /\ exists_ Demo.store Demo.fallout Demo.record 0 = Ok true
      /\ exists_ Demo.store Demo.fallout Demo.record 1 = Ok true
      /\ files Demo.store Demo.fallout = Ok []
      /\ table Demo.store Demo.fallout = Ok []
      /\ (let after := (delete_all Demo.store (Demo.on_disk Demo.fallout)).2 in
          isfile (fs after) "data/fallout.json" = true
          /\ isfile (fs after) "data/fallout.nc" = true
          /\ isfile (fs after) "data/fallout0x1.nc" = true)).
Proof.
  assert (Hprov : forall (self : Manager) (fs : filesystem) (listed : list entry) (e : entry),
     files self fs = Ok listed ->
     e ∈ listed ->
     exists filename js,
       filename ∈ listdir fs (directory self)
       /\ endswith filename ".json" = true
       /\ endswith filename "out.json" = false
       /\ json_load fs (path_join (directory self) filename) = Ok js
       /\ outfile self fs js (n e) = Ok (outputfile e)
       /\ jsonfile self fs js = Ok (inputfile e)).
  { intros self fs listed e Hfiles He.
    destruct (files_elem self fs listed e Hfiles He)
      as (filename & js & Hin & Hname & Hload & Hout & Hjson).
    unfold is_input_name in Hname. apply andb_true_iff in Hname as [H1 H2].
    apply negb_true_iff in H2.
    exists filename, js. auto 10. }
  assert (Hout : forall stem : string,
             endswith ((stem ++ "out") ++ ".json") "out.json" = true).
  { intros stem. rewrite str_app_assoc. change ("out" ++ ".json") with "out.json".
    apply endswith_app. }
  split; [exact Hprov |]. split; [| split; [| split; [| split]]].
  - intros stem. split; [apply Hout |].
    unfold is_input_name. rewrite Hout. apply andb_false_r.
  - intros self fs js stem listed e Honly Hfiles He.
    destruct (Hprov self fs listed e Hfiles He)
      as (filename & js' & Hin & H1 & H2 & Hload & Houtf & Hjson).
    exists filename, js'. repeat apply conj; try assumption.
    intros Hkey. rewrite (Honly filename js' Hin Hload Hkey), Hout in H2. discriminate.
  - intros self fs listed loaded js. apply table_elem.
  - intros W self w listed p. apply delete_all_frame.
  - vm_compute. repeat split.
Qed.

Lemma files_skips_out_names_witness :
  is_input_name "fallout.json" = false
  /\ forall e : entry, e ∈ ([] : list entry) -> False.
Proof.
  split.
  - exact (proj2 (proj1 (proj2 files_skips_out_names) "fall")).
  - intros e He.
    destruct (proj1 files_skips_out_names Demo.store Demo.fallout [] e
                ltac:(vm_compute; reflexivity) He) as (filename & _).
    now apply elem_of_nil in He.
Defined.

(** * Further properties of the code *)

(** ** The Repeater *)

Section RepeaterLemmas.

Context {W : Type}.
Variable run : list string -> W -> filesystem -> option process * W.
Variable self : Repeater.t.

Lemma repeater_run_unfold (js : json) (error stdout : string) (w : @world W) :
  let argv := [Repeater.executable self; Repeater.inputfile self; Repeater.outputfile self] in
  let files := <[Repeater.inputfile self := FJson (canon js)]> (fs w) in
  Repeater.run run self js error stdout w
  = match run argv (ext w) files with
    | (None, x) =>
        (Raise OSError,
         {| fs := files; console := console w; calls := calls w ++ [argv]; ext := x |})
    | (Some p, x) =>
        let files' := match p_output p with
                      | Some c => <[Repeater.outputfile self := c]> files
                      | None => files
                      end in
        if p_returncode p =? 0 then
          (Ok (),
           {| fs := files';
              console := console w ++ (if String.eqb stdout "display"
                                       then [PBytes (p_stdout p)] else []);
              calls := calls w ++ [argv]; ext := x |})
        else
          (if String.eqb error "display" then Ok ()
           else if String.eqb error "raise"
                then Raise (CalledProcessError (p_returncode p) (p_stdout p) (p_stderr p))
                else Ok (),
           {| fs := files';
              console := console w ++ (if String.eqb error "display"
                                       then [PBytes (p_stderr p)] else []);
              calls := calls w ++ [argv]; ext := x |})
    end.
Proof.
  intros argv files.
  unfold Repeater.run, mbind, M_bind, json_dump, try_except_CalledProcessError,
    subprocess_run, set_fs, print, raise, mret, M_ret.
  cbn [fs console calls ext]. fold argv files.
  destruct (run argv (ext w) files) as [[p |] x]; [| reflexivity].
  cbn [nth]. destruct (p_returncode p =? 0).
  - destruct (String.eqb stdout "display"); cbn [fs console calls ext];
      rewrite ?app_nil_r; reflexivity.
  - destruct (String.eqb error "display"); [reflexivity |].
    destruct (String.eqb error "raise"); cbn [fs console calls ext];
      rewrite ?app_nil_r; reflexivity.
Qed.

End RepeaterLemmas.

Lemma canon_is_str (v : json) (s : string) : canon v = JStr s <-> v = JStr s.
Proof. destruct v; simpl; split; intros H; try discriminate H; exact H. Qed.

Lemma canon_str_valued (registry : gmap string json) :
  str_valued registry -> canon <$> registry = registry.
Proof.
  intros Hstr. apply map_eq. intros k. rewrite lookup_fmap.
  destruct (registry !! k) as [v |] eqn:Hk; [| reflexivity].
  destruct (Hstr k v Hk) as [s ->]. reflexivity.
Qed.



(** X2.  [Repeater.run] does not clean up after a failed run: when the
    executable exits with a nonzero code after writing to its output
    path, the partial output and the input file are both on disk
    afterwards; the call raises the [CalledProcessError] exactly when
    [error] is ["raise"] and returns normally for any other value. *)
Theorem repeater_run_failure_keeps_files {W : Type}
    (run : list string -> W -> filesystem -> option process * W)
    (self : Repeater.t) (js : json) (error stdout : string) (w : @world W)
    (pr : process) (x : W) (c : fcontent) :
  run [Repeater.executable self; Repeater.inputfile self; Repeater.outputfile self]
      (ext w) (<[Repeater.inputfile self := FJson (canon js)]> (fs w)) = (Some pr, x) ->
  p_returncode pr <> 0 ->
  p_output pr = Some c ->
  Repeater.inputfile self <> Repeater.outputfile self ->
  exists (r : result unit) (w' : @world W),
    Repeater.run run self js error stdout w = (r, w')
    /\ fs w' !! Repeater.outputfile self = Some c
    /\ fs w' !! Repeater.inputfile self = Some (FJson (canon js))
    /\ r = (if String.eqb error "raise"
            then Raise (CalledProcessError (p_returncode pr) (p_stdout pr) (p_stderr pr))
            else Ok ()).
Proof.
  intros Hrun Hcode Hout Hne.
  rewrite repeater_run_unfold. cbv zeta. rewrite Hrun, Hout.
  apply Z.eqb_neq in Hcode. rewrite Hcode.
  do 2 eexists. split; [reflexivity |]. cbn [fs]. split; [apply lookup_insert_eq |]. split.
  - rewrite lookup_insert_ne by congruence. apply lookup_insert_eq.
  - destruct (String.eqb_spec error "display") as [-> | _]; reflexivity.
Qed.

Lemma repeater_run_failure_keeps_files_witness :
  exists (r : result unit) (w' : @world unit),
    Repeater.run Demo.fails DemoRepeater.temp Demo.record "ignore" "ignore" Demo.start
    = (r, w')
    /\ fs w' !! "temp.nc" = Some (FRaw "partial")
    /\ fs w' !! "temp.json" = Some (FJson (canon Demo.record))
    /\ r = Ok ().
Proof.
  apply (repeater_run_failure_keeps_files Demo.fails DemoRepeater.temp Demo.record
           "ignore" "ignore" Demo.start
           {| p_returncode := 1; p_stdout := EmptyString; p_stderr := "boom";
              p_output := Some (FRaw "partial") |} () (FRaw "partial")).
  - reflexivity.
  - simpl. lia.
  - reflexivity.
  - simpl. discriminate.
Defined.

Lemma remove_if_present {W : Type} (path : string) (w : @world W) :
  (if isfile (fs w) path then os_remove path else mret ()) w
  = (Ok (), set_fs (delete path) w).
Proof.
  unfold os_remove, mret, M_ret. destruct (isfile (fs w) path) eqn:Hp; [now rewrite Hp |].
  apply isfile_false in Hp. unfold set_fs. rewrite (delete_id _ _ Hp). now destruct w.
Qed.

(** X3.  [Repeater.clean] never raises: it removes the input file and
    the output file, each if it exists, and changes nothing else, so a
    second call in a row changes nothing at all. *)
Theorem repeater_clean_removes_both {W : Type} (self : Repeater.t) (w : @world W) :
  exists w' : @world W,
    Repeater.clean self w = (Ok (), w')
    /\ fs w' = delete (Repeater.outputfile self) (delete (Repeater.inputfile self) (fs w))
    /\ console w' = console w /\ calls w' = calls w /\ ext w' = ext w
    /\ Repeater.clean self w' = (Ok (), w').
Proof.
  assert (Hgen : forall v : @world W,
    Repeater.clean self v
    = (Ok (), set_fs (delete (Repeater.outputfile self))
                (set_fs (delete (Repeater.inputfile self)) v))).
  { intros v. unfold Repeater.clean, mbind, M_bind, rd. cbv beta iota.
    rewrite (remove_if_present (Repeater.inputfile self) v). cbv beta iota.
    apply remove_if_present. }
  rewrite Hgen. eexists. split; [reflexivity |].
  unfold set_fs. cbn [fs console calls ext]. repeat apply conj; try reflexivity.
  assert (Hsame : delete (Repeater.outputfile self)
                    (delete (Repeater.inputfile self)
                       (delete (Repeater.outputfile self)
                          (delete (Repeater.inputfile self) (fs w))))
                  = delete (Repeater.outputfile self)
                      (delete (Repeater.inputfile self) (fs w)));
    [| rewrite Hgen; unfold set_fs; cbn [fs console calls ext]; now rewrite Hsame].
  apply map_eq. intros q.
  destruct (decide (q = Repeater.outputfile self)) as [-> | Hout].
  { now rewrite !lookup_delete_eq. }
  destruct (decide (q = Repeater.inputfile self)) as [-> | Hin].
  { repeat (rewrite lookup_delete_eq || rewrite lookup_delete_ne by congruence).
    reflexivity. }
  repeat rewrite lookup_delete_ne by congruence. reflexivity.
Qed.

(** ** The registry *)

(** X4.  Round trip of the registry: after [set_registry(registry)], for
    a registry with [str] values, [get_registry()] returns that registry;
    the sidecar file exists afterwards exactly when the registry is not
    empty, no other file changes and the executable is not started. *)
Theorem registry_round_trip {W : Type} (self : Manager)
    (registry : gmap string json) (w : @world W) :
  str_valued registry ->
  exists w' : @world W,
    set_registry self registry w = (Ok (), w')
    /\ get_registry self (fs w') = Ok registry
    /\ (isfile (fs w') (registry_path self) = true <-> registry <> ∅)
    /\ (forall p, p <> registry_path self -> fs w' !! p = fs w !! p)
    /\ calls w' = calls w.
Proof.
  intros Hstr. destruct (decide (registry = ∅)) as [-> | Hne].
  - rewrite set_registry_empty. eexists. split; [reflexivity |].
    unfold set_fs. cbn [fs calls]. repeat apply conj.
    + apply get_registry_absent, lookup_delete_eq.
    + intros Hfile. apply isfile_true in Hfile. rewrite lookup_delete_eq in Hfile.
      destruct Hfile as [? ?]. discriminate.
    + intros Hne. now contradiction Hne.
    + intros p Hp. now rewrite lookup_delete_ne by congruence.
    + reflexivity.
  - rewrite set_registry_nonempty by exact Hne. eexists. split; [reflexivity |].
    unfold set_fs. cbn [fs calls]. repeat apply conj.
    + rewrite get_registry_written. now rewrite canon_str_valued.
    + intros _. exact Hne.
    + intros _. apply isfile_true. rewrite lookup_insert_eq. eauto.
    + intros p Hp. now rewrite lookup_insert_ne by congruence.
    + reflexivity.
Qed.

Lemma registry_round_trip_witness :
  exists w' : @world unit,
    set_registry Demo.store {[ hashinput Demo.record := JStr "run" ]} Demo.start = (Ok (), w')
    /\ get_registry Demo.store (fs w') = Ok {[ hashinput Demo.record := JStr "run" ]}.
Proof.
  destruct (registry_round_trip Demo.store {[ hashinput Demo.record := JStr "run" ]}
              Demo.start) as (w' & Hset & Hget & _).
  - intros k v Hk. apply lookup_singleton_Some in Hk as [_ <-]. now exists "run".
  - exists w'. split; [exact Hset | exact Hget].
Defined.

Section NamedLemmas.

Context {W : Type}.
Variable run : list string -> W -> filesystem -> option process * W.
Variable self : Manager.

Lemma register_unreadable (js : json) (name : string) (w : @world W) (e : exn) :
  get_registry self (fs w) = Raise e -> register self js name w = (Raise e, w).
Proof.
  intros Hreg. unfold register, mbind, M_bind, rd. now rewrite Hreg.
Qed.

Lemma register_ok (js : json) (name : string) (w w' : @world W) :
  register self js name w = (Ok (), w') ->
  exists registry,
    get_registry self (fs w) = Ok registry
    /\ ~ rejected self (fs w) registry js name
    /\ w' = set_fs (insert (registry_path self)
                      (FJson (canon (JDict (map_to_list
                         (<[hashinput js := JStr name]> registry)))))) w.
Proof.
  intros Hrun. destruct (get_registry self (fs w)) as [registry | e] eqn:Hreg.
  - exists registry. split; [reflexivity |].
    destruct (register_spec self js name w registry Hreg) as [[_ [e He]] | [Hno Hok]].
    + rewrite He in Hrun. discriminate.
    + split; [exact Hno |]. rewrite Hok in Hrun. now injection Hrun as <-.
  - rewrite (register_unreadable js name w e Hreg) in Hrun. discriminate.
Qed.

Lemma display_name_registered (files : filesystem) (registry : gmap string json)
    (js : json) (name : string) :
  display_name self
    (<[registry_path self := FJson (canon (JDict (map_to_list
                                (<[hashinput js := JStr name]> registry))))]> files) js
  = Ok name.
Proof.
  unfold display_name. rewrite get_registry_written. cbn [mbind result_bind].
  rewrite lookup_fmap, lookup_insert_eq. reflexivity.
Qed.

(** [create] with a name is [register] followed by [create] without one *)
Lemma create_named (js : json) (n : Z) (name error stdout : string) (w : @world W) :
  name <> EmptyString ->
  create run self js n name error stdout w
  = match register self js name w with
    | (Ok _, w') => create run self js n EmptyString error stdout w'
    | (Raise e, w') => (Raise e, w')
    end.
Proof.
  intros Hname. apply String.eqb_neq in Hname.
  unfold create. rewrite Hname.
  change (negb (String.eqb EmptyString EmptyString)) with false.
  cbn [negb]. cbv iota. unfold mbind at 1. unfold M_bind at 1.
  destruct (register self js name w) as [[[] | e] w']; reflexivity.
Qed.

End NamedLemmas.

(** X5.  After [register(js, name)] has returned, every path of [js] is
    built from [name]: [jsonfile(js)] is [directory/name.json] and
    [outfile(js, n)] is the output path of [name] for every [n]; no file
    but the sidecar file has changed and nothing was run. *)
Theorem register_names_paths {W : Type} (self : Manager) (js : json) (name : string)
    (w w' : @world W) :
  register self js name w = (Ok (), w') ->
  jsonfile self (fs w') js = Ok (in_path (directory self) name)
  /\ (forall n, outfile self (fs w') js n
                = Ok (out_path (directory self) name (filetype self) n))
  /\ (forall p, p <> registry_path self -> fs w' !! p = fs w !! p)
  /\ calls w' = calls w.
Proof.
  intros Hrun. destruct (register_ok self js name w w' Hrun) as (registry & _ & _ & ->).
  unfold set_fs. cbn [fs calls]. repeat apply conj.
  - rewrite jsonfile_resolved, display_name_registered. reflexivity.
  - intros n. rewrite outfile_resolved, display_name_registered. reflexivity.
  - intros p Hp. now rewrite lookup_insert_ne by congruence.
  - reflexivity.
Qed.

Lemma register_names_paths_witness :
  let w' := (register Demo.store Demo.record "run" (@Demo.start)).2 in
  jsonfile Demo.store (fs w') Demo.record = Ok "data/run.json"
  /\ outfile Demo.store (fs w') Demo.record 2 = Ok "data/run0x2.nc".
Proof.
  intros w'.
  destruct (register_names_paths Demo.store Demo.record "run" Demo.start w')
    as (Hin & Hout & _).
  - vm_compute. reflexivity.
  - split; [exact Hin | exact (Hout 2)].
Defined.

(** X6.  [register] keeps the registry sound: when no key is bound to
    the reserved name ["simplesimdb"] and no name is bound to two keys
    before a call that returns, the same holds of the registry read back
    afterwards, in which the key of [js] is bound to [name]. *)
Theorem register_keeps_sound {W : Type} (self : Manager) (js : json) (name : string)
    (w w' : @world W) (registry : gmap string json) :
  get_registry self (fs w) = Ok registry ->
  sound_registry registry ->
  register self js name w = (Ok (), w') ->
  exists registry' : gmap string json,
    get_registry self (fs w') = Ok registry'
    /\ sound_registry registry'
    /\ registry' !! hashinput js = Some (JStr name).
Proof.
  intros Hreg [Hreserved Huniq] Hrun.
  destruct (register_ok self js name w w' Hrun) as (registry0 & Hreg0 & Hno & ->).
  rewrite Hreg in Hreg0. injection Hreg0 as <-.
  exists (canon <$> <[hashinput js := JStr name]> registry).
  unfold set_fs. cbn [fs]. split; [apply get_registry_written |].
  assert (Hlook : forall k s,
            (canon <$> <[hashinput js := JStr name]> registry) !! k = Some (JStr s) ->
            (k = hashinput js /\ s = name)
            \/ (k <> hashinput js /\ registry !! k = Some (JStr s))).
  { intros k s Hk. rewrite lookup_fmap in Hk.
    destruct (decide (k = hashinput js)) as [-> | Hne].
    - rewrite lookup_insert_eq in Hk. simpl in Hk. left. split; congruence.
    - rewrite lookup_insert_ne in Hk by congruence.
      destruct (registry !! k) as [v |]; [| discriminate]. simpl in Hk.
      right. split; [exact Hne |]. f_equal. apply canon_is_str. congruence. }
  split; [split |].
  - intros k Hk. destruct (Hlook k _ Hk) as [[_ Hname] | [_ Hold]].
    + apply Hno. left. now symmetry.
    + exact (Hreserved k Hold).
  - intros k1 k2 s H1 H2.
    destruct (Hlook k1 s H1) as [[E1 N1] | [Hne1 Hold1]];
      destruct (Hlook k2 s H2) as [[E2 N2] | [Hne2 Hold2]].
    + congruence.
    + exfalso. apply Hno. do 3 right. exists k2. subst s. now split.
    + exfalso. apply Hno. do 3 right. exists k1. subst s. now split.
    + exact (Huniq k1 k2 s Hold1 Hold2).
  - rewrite lookup_fmap, lookup_insert_eq. reflexivity.
Qed.

Lemma register_keeps_sound_witness :
  exists registry' : gmap string json,
    get_registry Demo.store (fs (register Demo.store Demo.record "run"
                                   (Demo.on_disk DemoFiles.taken)).2) = Ok registry'
    /\ sound_registry registry'
    /\ registry' !! hashinput Demo.record = Some (JStr "run").
Proof.
  apply (register_keeps_sound Demo.store Demo.record "run" (Demo.on_disk DemoFiles.taken)
           (register Demo.store Demo.record "run" (Demo.on_disk DemoFiles.taken)).2
           {[ hashinput (JDict []) := JStr "other" ]}).
  - vm_compute. reflexivity.
  - split.
    + intros k Hk. apply lookup_singleton_Some in Hk as [_ Hk]. discriminate.
    + intros k1 k2 s H1 H2.
      apply lookup_singleton_Some in H1 as [<- _].
      now apply lookup_singleton_Some in H2 as [<- _].
  - vm_compute. reflexivity.
Defined.

(** X7.  A naming conflict stops [create] before anything happens: when
    [name] is not empty and [register] refuses it, [create(js, n, name)]
    raises, no file is written or removed, nothing is printed and the
    executable is not started. *)
Theorem create_name_conflict {W : Type}
    (run : list string -> W -> filesystem -> option process * W)
    (self : Manager) (js : json) (n : Z) (name error stdout : string)
    (w : @world W) (registry : gmap string json) :
  name <> EmptyString ->
  get_registry self (fs w) = Ok registry ->
  rejected self (fs w) registry js name ->
  exists e : exn, create run self js n name error stdout w = (Raise e, w).
Proof.
  intros Hname Hreg Hrej. rewrite (create_named run self js n name error stdout w Hname).
  destruct (register_spec self js name w registry Hreg) as [[_ [e He]] | [Hno _]].
  - exists e. now rewrite He.
  - contradiction.
Qed.

Lemma create_name_conflict_witness :
  exists e : exn,
    create Demo.succeeds Demo.store Demo.record 0 "walk" "raise" "ignore"
      (Demo.on_disk Demo.chain)
    = (Raise e, Demo.on_disk Demo.chain).
Proof.
  apply (create_name_conflict Demo.succeeds Demo.store Demo.record 0 "walk" "raise" "ignore"
           (Demo.on_disk Demo.chain) {[ hashinput Demo.record := JStr "run" ]}).
  - discriminate.
  - vm_compute. reflexivity.
  - right. left. exists (JStr "run"). split; [| discriminate].
    vm_compute. reflexivity.
Defined.

(** ** What [create] leaves behind, by cases *)

Section CreateCases.

Context {W : Type}.
Variable run : list string -> W -> filesystem -> option process * W.
Variable self : Manager.

Lemma create_miss_cases (js : json) (n : Z) (error stdout : string) (w w1 : @world W)
    (name : string) (r : result string) :
  let nc := out_path (directory self) name (filetype self) n in
  let input := in_path (directory self) name in
  let previous := out_path (directory self) name (filetype self) (n - 1) in
  let files := fs (prepared js nc input w) in
  display_name self (fs w) js = Ok name ->
  fs w !! nc = None ->
  create run self js n EmptyString error stdout w = (r, w1) ->
  calls w1 = (calls w ++ [argv_for self n input nc previous])%list
  /\ ((fs w1 = files /\ (r = Raise OSError \/ r = Ok nc))
      \/ (exists c, fs w1 = <[nc := c]> files /\ r = Ok nc)
      \/ (fs w1 = rolled_back n input nc files
          /\ (r = Ok nc \/ exists code out err, r = Raise (CalledProcessError code out err)))).
Proof.
  intros nc input previous files Hname Hnone Hrun.
  rewrite (create_miss run self js n error stdout w name Hname Hnone) in Hrun.
  fold nc input previous in Hrun.
  destruct (run _ _ _) as [[pr |] x].
  - destruct (p_returncode pr =? 0).
    + injection Hrun as <- <-. cbn [fs calls]. split; [reflexivity |].
      destruct (p_output pr) as [c |].
      * right. left. exists c. now split.
      * left. split; [reflexivity | now right].
    + assert (Hw : w1.(calls) = (calls w ++ [argv_for self n input nc previous])%list
                   /\ fs w1 = rolled_back n input nc files).
      { injection Hrun as _ <-. cbn [fs calls]. now split. }
      destruct Hw as [Hcalls Hfs]. split; [exact Hcalls |]. right. right.
      split; [exact Hfs |].
      destruct (String.eqb error "display"); [left; congruence |].
      destruct (String.eqb error "raise"); [right | left; congruence].
      do 3 eexists. injection Hrun as <- _. reflexivity.
  - injection Hrun as <- <-. cbn [fs calls]. split; [reflexivity |].
    left. split; [reflexivity | now left].
Qed.

Lemma prepared_lookup (js : json) (nc input : string) (w : @world W) (p : string) :
  p <> input -> fs (prepared js nc input w) !! p = fs w !! p.
Proof.
  intros Hp. unfold prepared. cbn [fs].
  destruct (isfile (fs w) input); [reflexivity |].
  now rewrite lookup_insert_ne by congruence.
Qed.

Lemma prepared_keeps (js : json) (nc input : string) (w : @world W) (p : string) :
  is_Some (fs w !! p) -> is_Some (fs (prepared js nc input w) !! p).
Proof.
  intros Hp. unfold prepared. cbn [fs].
  destruct (isfile (fs w) input) eqn:Hin; [exact Hp |].
  destruct (decide (p = input)) as [-> | Hne].
  - rewrite lookup_insert_eq. eauto.
  - now rewrite lookup_insert_ne by congruence.
Qed.

Lemma rolled_back_absent (n : Z) (input nc : string) (files : filesystem) :
  rolled_back n input nc files !! nc = None.
Proof.
  unfold rolled_back. destruct (n =? 0).
  - destruct (decide (nc = input)) as [-> | Hne].
    + apply lookup_delete_eq.
    + rewrite lookup_delete_ne by congruence. apply lookup_delete_eq.
  - apply lookup_delete_eq.
Qed.

Lemma rolled_back_lookup (n : Z) (input nc : string) (files : filesystem) (p : string) :
  p <> input -> p <> nc -> rolled_back n input nc files !! p = files !! p.
Proof.
  intros Hin Hnc. unfold rolled_back.
  destruct (n =? 0); repeat rewrite lookup_delete_ne by congruence; reflexivity.
Qed.

(** the paths of a record resolve after [create] as they did before,
    when the call returned a path at which a file exists *)
Lemma create_keeps_name (js : json) (n : Z) (error stdout : string) (w w1 : @world W)
    (p : string) :
  create run self js n EmptyString error stdout w = (Ok p, w1) ->
  isfile (fs w1) p = true ->
  exists name,
    display_name self (fs w) js = Ok name
    /\ display_name self (fs w1) js = Ok name
    /\ p = out_path (directory self) name (filetype self) n
    /\ (forall q, is_Some (fs w !! q) -> is_Some (fs w1 !! q)).
Proof.
  intros Hrun Hfile.
  destruct (outfile self (fs w) js n) as [nc | e] eqn:Hout.
  2: { rewrite (create_unresolved run self js n error stdout w e Hout) in Hrun.
       discriminate. }
  destruct (outfile_name self (fs w) js n nc Hout) as (name & Hname & ->).
  exists name.
  destruct (isfile (fs w) (out_path (directory self) name (filetype self) n)) eqn:Hnc.
  { rewrite (create_hit run self js n error stdout w _ Hout Hnc) in Hrun.
    injection Hrun as <- <-. cbn [fs]. repeat apply conj; auto. }
  apply isfile_false in Hnc.
  pose proof (out_missing_not_registry self (fs w) js name n Hname Hnc) as Hrp.
  pose proof (display_name_prepared self js
                (out_path (directory self) name (filetype self) n) w name Hname) as Hprep.
  destruct (create_miss_cases js n error stdout w w1 name (Ok p) Hname Hnc Hrun)
    as [_ [[Hfs Hr] | [(c & Hfs & Hr) | [Hfs Hr]]]].
  - destruct Hr as [Hr | Hr]; [discriminate |]. injection Hr as ->.
    rewrite Hfs. repeat apply conj; auto. intros q. apply prepared_keeps.
  - injection Hr as ->. rewrite Hfs. repeat apply conj; auto.
    + now rewrite display_name_insert by exact Hrp.
    + intros q Hq. destruct (decide (q = out_path (directory self) name (filetype self) n))
        as [-> | Hne].
      * rewrite lookup_insert_eq. eauto.
      * rewrite lookup_insert_ne by congruence. now apply prepared_keeps.
  - exfalso. destruct Hr as [Hr | (code & out & err & Hr)]; [| discriminate].
    injection Hr as ->. apply isfile_true in Hfile.
    rewrite Hfs, rolled_back_absent in Hfile. destruct Hfile as [? ?]. discriminate.
Qed.

End CreateCases.

(** ** Counting *)

Lemma count_ok_name (self : Manager) (fs : filesystem) (js : json) (k : Z) :
  count self fs js = Ok k ->
  exists name,
    display_name self fs js = Ok name
    /\ 0 <= k
    /\ (forall i, 0 <= i < k ->
          isfile fs (out_path (directory self) name (filetype self) i) = true)
    /\ isfile fs (out_path (directory self) name (filetype self) k) = false.
Proof.
  intros Hcount. destruct (display_name self fs js) as [name | e] eqn:Hname.
  - exists name. split; [reflexivity |].
    destruct (count_loop_spec self fs js name (S (size fs)) 0 Hname) as (k0 & Hk0 & H).
    + lia.
    + intros i Hi. lia.
    + simpl. lia.
    + unfold count in Hcount. rewrite Hk0 in Hcount. injection Hcount as <-. exact H.
  - unfold count in Hcount. cbn [count_loop] in Hcount.
    rewrite exists_resolved, Hname in Hcount. discriminate.
Qed.

Lemma count_intro (self : Manager) (fs : filesystem) (js : json) (name : string) (k : Z) :
  display_name self fs js = Ok name ->
  0 <= k ->
  (forall i, 0 <= i < k ->
     isfile fs (out_path (directory self) name (filetype self) i) = true) ->
  isfile fs (out_path (directory self) name (filetype self) k) = false ->
  count self fs js = Ok k.
Proof.
  intros Hname Hk Hall Hgap.
  destruct (count_loop_spec self fs js name (S (size fs)) 0 Hname) as (k0 & Hk0 & H0 & Hall0 & Hgap0).
  - lia.
  - intros i Hi. lia.
  - simpl. lia.
  - unfold count. rewrite Hk0. f_equal.
    destruct (Z.lt_trichotomy k0 k) as [Hlt | [Heq | Hgt]]; [| exact Heq |].
    + rewrite Hall in Hgap0 by lia. discriminate.
    + rewrite Hall0 in Hgap by lia. discriminate.
Qed.

Lemma key_path_not_registry (self : Manager) (js : json) (x : string) :
  path_join (directory self) (hashinput js ++ x) <> registry_path self.
Proof.
  destruct (hashinput_head js) as (c & rest & -> & Hc).
  assert (Hslash : Ascii.eqb c "/" = false).
  { destruct (Ascii.eqb_spec c "/") as [-> | _]; [discriminate Hc | reflexivity]. }
  unfold path_join, registry_path. rewrite str_app_cons. cbn [starts_with_slash].
  rewrite Hslash. change (starts_with_slash "simplesimdb.json") with false. cbv iota.
  intros Heq. apply str_app_inv_head in Heq. injection Heq as -> _. discriminate Hc.
Qed.

Lemma create_miss_path {W : Type}
    (run : list string -> W -> filesystem -> option process * W)
    (self : Manager) (js : json) (n : Z) (error stdout : string) (w w1 : @world W)
    (name p : string) :
  display_name self (fs w) js = Ok name ->
  fs w !! out_path (directory self) name (filetype self) n = None ->
  create run self js n EmptyString error stdout w = (Ok p, w1) ->
  p = out_path (directory self) name (filetype self) n.
Proof.
  intros Hname Hnone Hrun.
  destruct (create_miss_cases run self js n error stdout w w1 name (Ok p) Hname Hnone Hrun)
    as [_ [[_ [Hr | Hr]] | [(c & _ & Hr) | [_ [Hr | (? & ? & ? & Hr)]]]]];
    try discriminate Hr; now injection Hr.
Qed.

(** ** [create], [select], [recreate] *)

(** X8.  [select] and [exists] agree with [create]: when
    [create(js, n, name)] has returned a path and a file exists at that
    path, [select(js, n)] returns the same path and [exists(js, n)] is
    true, whether the call ran the executable or found the output. *)
Theorem select_after_create {W : Type}
    (run : list string -> W -> filesystem -> option process * W)
    (self : Manager) (js : json) (n : Z) (name error stdout : string)
    (w w1 : @world W) (p : string) :
  create run self js n name error stdout w = (Ok p, w1) ->
  isfile (fs w1) p = true ->
  select self (fs w1) js n = Ok p /\ exists_ self (fs w1) js n = Ok true.
Proof.
  intros Hrun Hfile.
  assert (Hplain : exists w0 : @world W,
            create run self js n EmptyString error stdout w0 = (Ok p, w1)).
  { destruct (String.eqb_spec name EmptyString) as [-> | Hname].
    - now exists w.
    - rewrite (create_named run self js n name error stdout w Hname) in Hrun.
      destruct (register self js name w) as [[u | e] w0]; [| discriminate].
      now exists w0. }
  destruct Hplain as [w0 Hrun0].
  destruct (create_keeps_name run self js n error stdout w0 w1 p Hrun0 Hfile)
    as (name0 & _ & Hname1 & -> & _).
  unfold select, exists_. rewrite outfile_resolved, Hname1. cbn [mbind result_bind].
  rewrite Hfile. split; reflexivity.
Qed.

Lemma select_after_create_witness :
  let w1 := (create Demo.succeeds Demo.store Demo.record 0 "run" "raise" "ignore"
               Demo.start).2 in
  select Demo.store (fs w1) Demo.record 0 = Ok "data/run.nc"
  /\ exists_ Demo.store (fs w1) Demo.record 0 = Ok true.
Proof.
  intros w1.
  apply (select_after_create Demo.succeeds Demo.store Demo.record 0 "run" "raise" "ignore"
           Demo.start w1 "data/run.nc").
  - vm_compute. reflexivity.
  - vm_compute. reflexivity.
Defined.



(** X10.  [create] without a name touches at most two paths: whatever
    the outcome (found, run, failed and cleaned up, or raised), every
    file other than [jsonfile(js)] and [outfile(js, n)] is afterwards as
    it was before, for an executable that writes only its output file. *)
Theorem create_touches_two_paths {W : Type}
    (run : list string -> W -> filesystem -> option process * W)
    (self : Manager) (js : json) (n : Z) (error stdout : string)
    (w w1 : @world W) (r : result string) (p : string) :
  create run self js n EmptyString error stdout w = (r, w1) ->
  jsonfile self (fs w) js <> Ok p ->
  outfile self (fs w) js n <> Ok p ->
  fs w1 !! p = fs w !! p.
Proof.
  intros Hrun Hin Hout.
  destruct (outfile self (fs w) js n) as [nc | e] eqn:Hnc.
  2: { rewrite (create_unresolved run self js n error stdout w e Hnc) in Hrun.
       now injection Hrun as _ <-. }
  destruct (outfile_name self (fs w) js n nc Hnc) as (name & Hname & ->).
  rewrite jsonfile_resolved, Hname in Hin. cbn [mbind result_bind] in Hin.
  assert (Hp1 : p <> in_path (directory self) name) by congruence.
  assert (Hp2 : p <> out_path (directory self) name (filetype self) n) by congruence.
  destruct (isfile (fs w) (out_path (directory self) name (filetype self) n)) eqn:Hfile.
  { rewrite (create_hit run self js n error stdout w _ Hnc Hfile) in Hrun.
    now injection Hrun as _ <-. }
  apply isfile_false in Hfile.
  destruct (create_miss_cases run self js n error stdout w w1 name r Hname Hfile Hrun)
    as [_ [[Hfs _] | [(c & Hfs & _) | [Hfs _]]]]; rewrite Hfs.
  - now apply prepared_lookup.
  - rewrite lookup_insert_ne by congruence. now apply prepared_lookup.
  - rewrite rolled_back_lookup by assumption. now apply prepared_lookup.
Qed.

Lemma create_touches_two_paths_witness :
  fs (create Demo.fails Demo.store Demo.record 2 EmptyString "ignore" "ignore"
        (Demo.on_disk Demo.chain)).2 !! "data/run0x3.nc"
  = Demo.chain !! "data/run0x3.nc".
Proof.
  apply (create_touches_two_paths Demo.fails Demo.store Demo.record 2 "ignore" "ignore"
           (Demo.on_disk Demo.chain)
           (create Demo.fails Demo.store Demo.record 2 EmptyString "ignore" "ignore"
              (Demo.on_disk Demo.chain)).2
           (Ok "data/run0x2.nc") "data/run0x3.nc").
  - vm_compute. reflexivity.
  - vm_compute. discriminate.
  - vm_compute. discriminate.
Defined.



(** X12.  [recreate(js)] without a name drops a registered name: for an
    entry of index 0 stored under a registered name, the [delete] inside
    it clears the binding, so the executable is then started on the paths
    built from the key of [js], not from the former name, and a returned
    path is the output path of the key. *)
Theorem recreate_forgets_name {W : Type}
    (run : list string -> W -> filesystem -> option process * W)
    (self : Manager) (js : json) (error stdout : string)
    (w : @world W) (name : string) :
  let nc := out_path (directory self) name (filetype self) 0 in
  let input := in_path (directory self) name in
  let key_nc := out_path (directory self) (hashinput js) (filetype self) 0 in
  let key_input := in_path (directory self) (hashinput js) in
  display_name self (fs w) js = Ok name ->
  isfile (fs w) nc = true ->
  isfile (fs w) input = true ->
  nc <> registry_path self ->
  fs w !! key_nc = None ->
  exists (r : result string) (w' : @world W),
    recreate run self js 0 EmptyString error stdout w = (r, w')
    /\ calls w' = (calls w ++ [[executable self; key_input; key_nc]])%list
    /\ (forall p, r = Ok p -> p = key_nc).
Proof.
  intros nc input key_nc key_input Hname Hnc Hin Hrp Hkey.
  destruct (delete_first self js w name Hname Hnc Hin Hrp)
    as (w0 & registry0 & Hdel & Hnc0 & Hin0 & Hreg0 & Hunbound & Hframe & _ & Hcalls0 & _).
  fold nc input in Hnc0, Hin0, Hframe.
  assert (Hname0 : display_name self (fs w0) js = Ok (hashinput js)).
  { unfold display_name. rewrite Hreg0. cbn [mbind result_bind]. now rewrite Hunbound. }
  assert (Hnone0 : fs w0 !! key_nc = None).
  { destruct (decide (key_nc = nc)) as [-> | Hne1]; [exact Hnc0 |].
    destruct (decide (key_nc = input)) as [-> | Hne2]; [exact Hin0 |].
    rewrite Hframe; [exact Hkey | exact Hne1 | exact Hne2 |].
    apply key_path_not_registry. }
  unfold recreate, mbind, M_bind. rewrite Hdel.
  destruct (create run self js 0 EmptyString error stdout w0) as [r w'] eqn:Hrun.
  exists r, w'. split; [reflexivity |].
  destruct (create_miss_cases run self js 0 error stdout w0 w' (hashinput js) r
              Hname0 Hnone0 Hrun) as [Hcalls _].
  split; [now rewrite Hcalls, Hcalls0 |].
  intros p ->. exact (create_miss_path _ _ _ _ _ _ _ _ _ _ Hname0 Hnone0 Hrun).
Qed.

Lemma recreate_forgets_name_witness :
  exists (r : result string) (w' : @world unit),
    recreate Demo.succeeds Demo.store Demo.record 0 EmptyString "raise" "ignore"
      (Demo.on_disk Demo.chain) = (r, w')
    /\ calls w' = [["./execute.sh"; "data/c8b0bcdb34ded0fdaf264864fe47b8f2cd5dc056.json";
                    "data/c8b0bcdb34ded0fdaf264864fe47b8f2cd5dc056.nc"]]
    /\ (forall p, r = Ok p -> p = "data/c8b0bcdb34ded0fdaf264864fe47b8f2cd5dc056.nc").
Proof.
  apply (recreate_forgets_name Demo.succeeds Demo.store Demo.record "raise" "ignore"
           (Demo.on_disk Demo.chain) "run").
  - vm_compute. reflexivity.
  - vm_compute. reflexivity.
  - vm_compute. reflexivity.
  - vm_compute. discriminate.
  - vm_compute. reflexivity.
Defined.

(** ** Chains of restarts *)

(** X13.  A successful [create] at the end of the chain makes it longer:
    when [count(js)] is [k], [create(js, k)] returns a path and a file
    exists at that path afterwards, [count(js)] is then larger than
    [k]. *)
Theorem create_extends_chain {W : Type}
    (run : list string -> W -> filesystem -> option process * W)
    (self : Manager) (js : json) (error stdout : string)
    (w w1 : @world W) (k : Z) (p : string) :
  count self (fs w) js = Ok k ->
  create run self js k EmptyString error stdout w = (Ok p, w1) ->
  isfile (fs w1) p = true ->
  exists k' : Z, count self (fs w1) js = Ok k' /\ k < k'.
Proof.
  intros Hcount Hrun Hfile.
  destruct (count_ok_name self (fs w) js k Hcount) as (name & Hname & Hk & Hall & _).
  destruct (create_keeps_name run self js k error stdout w w1 p Hrun Hfile)
    as (name' & Hname' & Hname1 & -> & Hkeep).
  rewrite Hname in Hname'. injection Hname' as <-.
  destruct (count_loop_spec self (fs w1) js name (S (size (fs w1))) 0 Hname1)
    as (k' & Hk' & _ & _ & Hgap).
  - lia.
  - intros i Hi. lia.
  - simpl. lia.
  - exists k'. split; [exact Hk' |].
    destruct (Z_lt_le_dec k k') as [Hlt | Hle]; [exact Hlt | exfalso].
    destruct (Z_lt_le_dec k' 0) as [Hneg | Hpos].
    + destruct (count_ok_name self (fs w1) js k' Hk') as (_ & _ & H0 & _). lia.
    + destruct (Z.eq_dec k' k) as [-> | Hne].
      * rewrite Hfile in Hgap. discriminate.
      * assert (Hold : isfile (fs w1) (out_path (directory self) name (filetype self) k')
                       = true).
        { apply isfile_true, Hkeep, isfile_true, Hall. lia. }
        rewrite Hold in Hgap. discriminate.
Qed.

Lemma create_extends_chain_witness :
  exists k' : Z,
    count Demo.store
      (fs (create Demo.succeeds Demo.store Demo.record 2 EmptyString "raise" "ignore"
             (Demo.on_disk Demo.chain)).2) Demo.record = Ok k'
    /\ 2 < k'.
Proof.
  apply (create_extends_chain Demo.succeeds Demo.store Demo.record "raise" "ignore"
           (Demo.on_disk Demo.chain)
           (create Demo.succeeds Demo.store Demo.record 2 EmptyString "raise" "ignore"
              (Demo.on_disk Demo.chain)).2 2 "data/run0x2.nc").
  - vm_compute. reflexivity.
  - vm_compute. reflexivity.
  - vm_compute. reflexivity.
Defined.

(** X14.  Deleting inside the chain truncates it: when [count(js)] is
    [k] and [0 < g < k] (and the output file of index [g] is not the
    sidecar file), [delete(js, g)] returns and [count(js)] is [g]
    afterwards, although the outputs after [g] are still on disk. *)
Theorem delete_truncates_count {W : Type} (self : Manager) (js : json)
    (w : @world W) (k g : Z) :
  count self (fs w) js = Ok k ->
  0 < g < k ->
  outfile self (fs w) js g <> Ok (registry_path self) ->
  exists w' : @world W,
    delete_ self js g w = (Ok (), w')
    /\ count self (fs w') js = Ok g
    /\ (forall i other, g < i -> outfile self (fs w) js i = Ok other ->
                        fs w' !! other = fs w !! other).
Proof.
  intros Hcount Hg Hrp.
  destruct (count_ok_name self (fs w) js k Hcount) as (name & Hname & Hk & Hall & _).
  set (nc := out_path (directory self) name (filetype self) g).
  assert (Hout : outfile self (fs w) js g = Ok nc).
  { rewrite outfile_resolved, Hname. reflexivity. }
  assert (Hne : nc <> registry_path self) by congruence.
  assert (Hfile : isfile (fs w) nc = true) by (apply Hall; lia).
  rewrite (delete_restart self js g w nc Hout Hfile) by lia.
  eexists. split; [reflexivity |]. unfold set_fs. cbn [fs]. split.
  - apply (count_intro self _ js name).
    + now rewrite display_name_delete by exact Hne.
    + lia.
    + intros i Hi. apply isfile_true. rewrite lookup_delete_ne.
      * apply isfile_true, Hall. lia.
      * unfold nc. intros Heq. apply out_path_inj in Heq; lia.
    + apply isfile_false, lookup_delete_eq.
  - intros i other Hi Hother. rewrite outfile_resolved, Hname in Hother.
    cbn [mbind result_bind] in Hother. injection Hother as <-.
    rewrite lookup_delete_ne; [reflexivity |].
    unfold nc. intros Heq. apply out_path_inj in Heq; lia.
Qed.

Lemma delete_truncates_count_witness :
  count Demo.store Demo.chain Demo.record = Ok 2
  /\ exists w' : @world unit,
       delete_ Demo.store Demo.record 1 (Demo.on_disk Demo.chain) = (Ok (), w')
       /\ count Demo.store (fs w') Demo.record = Ok 1.
Proof.
  split; [vm_compute; reflexivity |].
  destruct (delete_truncates_count Demo.store Demo.record (Demo.on_disk Demo.chain) 2 1)
    as (w' & Hdel & Hcount & _).
  - vm_compute. reflexivity.
  - lia.
  - vm_compute. discriminate.
  - exists w'. split; [exact Hdel | exact Hcount].
Defined.

(** X15.  The output paths of a record are pairwise different over the
    indices from 0 on, so a restart never overwrites the output of
    another index. *)
Theorem outfile_distinct_indices (self : Manager) (fs : filesystem) (js : json)
    (a b : Z) (pa pb : string) :
  0 <= a -> 0 <= b -> a <> b ->
  outfile self fs js a = Ok pa ->
  outfile self fs js b = Ok pb ->
  pa <> pb.
Proof.
  intros Ha Hb Hab Hpa Hpb.
  destruct (outfile_name self fs js a pa Hpa) as (name & Hname & ->).
  rewrite (outfile_of_name self fs js b name pb Hname Hpb).
  intros Heq. apply Hab. exact (out_path_inj _ _ _ a b Ha Hb Heq).
Qed.

Lemma outfile_distinct_indices_witness :
  "data/run0x1.nc" <> "data/run0x10.nc"
  /\ outfile Demo.store Demo.chain Demo.record 16 = Ok "data/run0x10.nc".
Proof.
  split; [| vm_compute; reflexivity].
  apply (outfile_distinct_indices Demo.store Demo.chain Demo.record 1 16).
  - lia.
  - lia.
  - lia.
  - vm_compute. reflexivity.
  - vm_compute. reflexivity.
Defined.



(** ** Errors *)

(** X17.  [delete(js)] of an entry whose output file exists while its
    input file does not: the output file is removed first, then removing
    the input file raises [FileNotFoundError]; the registry is not
    reached, so a registered name stays bound. *)
Theorem delete_missing_input {W : Type} (self : Manager) (js : json)
    (w : @world W) (name : string) :
  let nc := out_path (directory self) name (filetype self) 0 in
  let input := in_path (directory self) name in
  display_name self (fs w) js = Ok name ->
  isfile (fs w) nc = true ->
  isfile (fs w) input = false ->
  nc <> registry_path self ->
  delete_ self js 0 w = (Raise (FileNotFoundError input), set_fs (delete nc) w)
  /\ get_registry self (delete nc (fs w)) = get_registry self (fs w).
Proof.
  intros nc input Hname Hnc Hin Hrp. split.
  - unfold delete_, mbind, M_bind, rd, mret, M_ret, os_remove, set_fs.
    rewrite outfile_resolved, Hname. cbn [mbind result_bind]. fold nc.
    rewrite Hnc. cbv beta iota. rewrite Hnc. cbv beta iota.
    change (0 =? 0) with true. cbv beta iota. cbn [fs console calls ext].
    rewrite jsonfile_resolved, (display_name_delete _ _ _ _ Hrp), Hname.
    cbn [mbind result_bind]. fold input.
    assert (Hin1 : isfile (delete nc (fs w)) input = false).
    { apply isfile_false. apply isfile_false in Hin.
      destruct (decide (input = nc)) as [-> | Hne].
      - apply lookup_delete_eq.
      - now rewrite lookup_delete_ne by congruence. }
    rewrite Hin1. reflexivity.
  - now apply get_registry_delete.
Qed.

Lemma delete_missing_input_witness :
  delete_ Demo.store Demo.record 0 (Demo.on_disk DemoMore.lone)
  = (Raise (FileNotFoundError "data/run.json"),
     set_fs (delete "data/run.nc") (Demo.on_disk DemoMore.lone))
  /\ get_registry Demo.store (delete "data/run.nc" DemoMore.lone)
     = get_registry Demo.store DemoMore.lone.
Proof.
  apply (delete_missing_input Demo.store Demo.record (Demo.on_disk DemoMore.lone) "run").
  - vm_compute. reflexivity.
  - vm_compute. reflexivity.
  - vm_compute. reflexivity.
  - vm_compute. discriminate.
Defined.

(** X18.  A sidecar file that [json.load] cannot read stops every
    operation before it touches anything: [select], [count], [create],
    [delete] and [register] raise the exception of [json.load]
    ([JSONDecodeError] for text that is not JSON, [UnicodeDecodeError]
    for bytes that are not text); no file changes, nothing is printed and
    the executable is not started. *)
Theorem unreadable_registry_stops_all {W : Type}
    (run : list string -> W -> filesystem -> option process * W)
    (self : Manager) (js : json) (n : Z) (name error stdout : string)
    (w : @world W) (e : exn) :
  isfile (fs w) (registry_path self) = true ->
  json_load (fs w) (registry_path self) = Raise e ->
  select self (fs w) js n = Raise e
  /\ count self (fs w) js = Raise e
  /\ create run self js n name error stdout w = (Raise e, w)
  /\ delete_ self js n w = (Raise e, w)
  /\ register self js name w = (Raise e, w).
Proof.
  intros Hfile Hload.
  assert (Hreg : get_registry self (fs w) = Raise e).
  { unfold get_registry. fold (registry_path self). now rewrite Hfile, Hload. }
  assert (Hout : forall m, outfile self (fs w) js m = Raise e).
  { intros m. rewrite outfile_resolved. unfold display_name. now rewrite Hreg. }
  assert (Hregister : register self js name w = (Raise e, w))
    by now apply register_unreadable.
  repeat apply conj.
  - unfold select. now rewrite Hout.
  - unfold count. cbn [count_loop]. unfold exists_. now rewrite Hout.
  - destruct (String.eqb_spec name EmptyString) as [-> | Hname].
    + now apply create_unresolved.
    + rewrite (create_named run self js n name error stdout w Hname). now rewrite Hregister.
  - unfold delete_, mbind, M_bind, rd. now rewrite Hout.
  - exact Hregister.
Qed.

Lemma unreadable_registry_stops_all_witness :
  (select Demo.store DemoMore.corrupt Demo.record 0 = Raise JSONDecodeError
   /\ count Demo.store DemoMore.corrupt Demo.record = Raise JSONDecodeError
   /\ create Demo.succeeds Demo.store Demo.record 0 "run" "raise" "ignore"
        (Demo.on_disk DemoMore.corrupt)
      = (Raise JSONDecodeError, Demo.on_disk DemoMore.corrupt)
   /\ delete_ Demo.store Demo.record 0 (Demo.on_disk DemoMore.corrupt)
      = (Raise JSONDecodeError, Demo.on_disk DemoMore.corrupt)
   /\ register Demo.store Demo.record "run" (Demo.on_disk DemoMore.corrupt)
      = (Raise JSONDecodeError, Demo.on_disk DemoMore.corrupt))
  /\ (select Demo.store DemoMore.binary Demo.record 0 = Raise UnicodeDecodeError
      /\ count Demo.store DemoMore.binary Demo.record = Raise UnicodeDecodeError
      /\ create Demo.succeeds Demo.store Demo.record 0 "run" "raise" "ignore"
           (Demo.on_disk DemoMore.binary)
         = (Raise UnicodeDecodeError, Demo.on_disk DemoMore.binary)
      /\ delete_ Demo.store Demo.record 0 (Demo.on_disk DemoMore.binary)
         = (Raise UnicodeDecodeError, Demo.on_disk DemoMore.binary)
      /\ register Demo.store Demo.record "run" (Demo.on_disk DemoMore.binary)
         = (Raise UnicodeDecodeError, Demo.on_disk DemoMore.binary)).
Proof.
  split.
  - apply (unreadable_registry_stops_all Demo.succeeds Demo.store Demo.record 0 "run"
             "raise" "ignore" (Demo.on_disk DemoMore.corrupt) JSONDecodeError).
    + vm_compute. reflexivity.
    + vm_compute. reflexivity.
  - apply (unreadable_registry_stops_all Demo.succeeds Demo.store Demo.record 0 "run"
             "raise" "ignore" (Demo.on_disk DemoMore.binary) UnicodeDecodeError).
    + vm_compute. reflexivity.
    + vm_compute. reflexivity.
Defined.

(** ** The listing *)

Lemma mapR_ok_elem {A B : Type} (f : A -> result B) (l : list A) (ys : list B) (x : A) :
  mapR f l = Ok ys -> x ∈ l -> exists y, f x = Ok y /\ y ∈ ys.
Proof.
  revert ys. induction l as [|a l IH]; intros ys H Hx; simpl in H.
  - now apply elem_of_nil in Hx.
  - destruct (f a) as [b |] eqn:Ef; [| discriminate]. simpl in H.
    destruct (mapR f l) as [bs |] eqn:El; [| discriminate]. simpl in H.
    injection H as <-. apply elem_of_cons in Hx as [-> | Hx].
    + exists b. split; [exact Ef | apply elem_of_cons; now left].
    + destruct (IH bs eq_refl Hx) as (y & Hy & Hin).
      exists y. split; [exact Hy | apply elem_of_cons; now right].
Qed.

Lemma mapR_total {A B : Type} (f : A -> result B) (g : A -> B) (l : list A) :
  (forall x, x ∈ l -> f x = Ok (g x)) -> mapR f l = Ok (map g l).
Proof.
  induction l as [|a l IH]; intros H; [reflexivity |].
  simpl. rewrite (H a) by (apply elem_of_cons; now left). simpl.
  rewrite IH; [reflexivity |]. intros x Hx. apply H, elem_of_cons. now right.
Qed.

Lemma elem_of_range (number x : Z) : x ∈ range number <-> 0 <= x < number.
Proof.
  unfold range. rewrite list_elem_of_fmap. split.
  - intros (k & -> & Hk). apply elem_of_seq in Hk. lia.
  - intros Hx. exists (Z.to_nat x). split; [lia |]. apply elem_of_seq. lia.
Qed.

(** the entry of [files] for a display name and an index *)
Lemma files_of_ok (self : Manager) (fs : filesystem) (filename : string)
    (chunk : list entry) :
  files_of self fs filename = Ok chunk ->
  exists js number name,
    json_load fs (path_join (directory self) filename) = Ok js
    /\ count self fs js = Ok number
    /\ display_name self fs js = Ok name
    /\ chunk = map (entry_of self name) (range number).
Proof.
  unfold files_of. intros H.
  destruct (json_load fs (path_join (directory self) filename)) as [js |]; [| discriminate].
  cbn [mbind result_bind] in H.
  destruct (count self fs js) as [number |] eqn:Hcount; [| discriminate].
  cbn [mbind result_bind] in H.
  destruct (count_ok_name self fs js number Hcount) as (name & Hname & _).
  exists js, number, name. repeat apply conj; try reflexivity; try assumption.
  rewrite (mapR_total _ (entry_of self name)) in H; [now injection H |].
  intros i _. rewrite outfile_resolved, jsonfile_resolved, Hname.
  cbn [mbind result_bind]. unfold display_name in Hname.
  destruct (get_registry self fs) as [registry |]; [| discriminate].
  cbn [mbind result_bind] in *. rewrite Hname. reflexivity.
Qed.

Lemma files_of_intro (self : Manager) (fs : filesystem) (filename : string)
    (js : json) (number : Z) (name : string) :
  json_load fs (path_join (directory self) filename) = Ok js ->
  count self fs js = Ok number ->
  display_name self fs js = Ok name ->
  files_of self fs filename = Ok (map (entry_of self name) (range number)).
Proof.
  intros Hload Hcount Hname. unfold files_of. rewrite Hload. cbn [mbind result_bind].
  rewrite Hcount. cbn [mbind result_bind].
  apply mapR_total. intros i _. rewrite outfile_resolved, jsonfile_resolved, Hname.
  cbn [mbind result_bind]. unfold display_name in Hname.
  destruct (get_registry self fs) as [registry |]; [| discriminate].
  cbn [mbind result_bind] in *. rewrite Hname. reflexivity.
Qed.

Lemma files_elem_index (self : Manager) (fs : filesystem) (listed : list entry) (e : entry) :
  files self fs = Ok listed ->
  (e ∈ listed
   <-> exists filename js number name,
         filename ∈ listdir fs (directory self)
         /\ is_input_name filename = true
         /\ json_load fs (path_join (directory self) filename) = Ok js
         /\ count self fs js = Ok number
         /\ display_name self fs js = Ok name
         /\ 0 <= n e < number
         /\ e = entry_of self name (n e)).
Proof.
  unfold files. intros H.
  destruct (mapR (files_of self fs) (List.filter is_input_name (listdir fs (directory self))))
    as [table |] eqn:Htable; [| discriminate].
  cbn [mbind result_bind] in H. injection H as <-.
  rewrite merge_sort_Permutation. split.
  - intros He. apply list_elem_of_In, in_concat in He as (chunk & Hchunk & He).
    apply list_elem_of_In in Hchunk, He.
    destruct (mapR_elem _ _ _ _ Htable Hchunk) as (filename & Hin & Hof).
    apply list_elem_of_In, filter_In in Hin as [Hin Hname].
    destruct (files_of_ok self fs filename chunk Hof)
      as (js & number & name & Hload & Hcount & Hdisp & ->).
    apply list_elem_of_fmap in He as (i & -> & Hi). apply elem_of_range in Hi.
    exists filename, js, number, name.
    repeat apply conj; try assumption; try reflexivity; try (cbn; lia).
    now apply list_elem_of_In.
  - intros (filename & js & number & name & Hin & Hok & Hload & Hcount & Hdisp & Hi & He).
    assert (Hfiltered : filename ∈ List.filter is_input_name (listdir fs (directory self))).
    { apply list_elem_of_In, filter_In. split; [now apply list_elem_of_In | exact Hok]. }
    destruct (mapR_ok_elem _ _ _ _ Htable Hfiltered) as (chunk & Hof & Hchunk).
    rewrite (files_of_intro self fs filename js number name Hload Hcount Hdisp) in Hof.
    injection Hof as <-.
    apply list_elem_of_In, in_concat. exists (map (entry_of self name) (range number)).
    split; [now apply list_elem_of_In |]. apply list_elem_of_In.
    rewrite He. apply list_elem_of_fmap. exists (n e). split; [reflexivity |].
    now apply elem_of_range.
Qed.

(** X19.  Every entry of [files()] has an index from 0 on and an output
    file that exists; its paths are those [jsonfile] and [outfile] give
    for the display name in its [id]. *)
Theorem files_lists_existing_outputs (self : Manager) (fs : filesystem)
    (listed : list entry) (e : entry) :
  files self fs = Ok listed ->
  e ∈ listed ->
  0 <= n e
  /\ isfile fs (outputfile e) = true
  /\ outputfile e = out_path (directory self) (id e) (filetype self) (n e)
  /\ inputfile e = in_path (directory self) (id e).
Proof.
  intros Hfiles He.
  apply (files_elem_index self fs listed e Hfiles) in He
    as (filename & js & number & name & _ & _ & _ & Hcount & Hname & Hi & ->).
  destruct (count_ok_name self fs js number Hcount) as (name' & Hname' & _ & Hall & _).
  rewrite Hname in Hname'. injection Hname' as <-.
  cbn [n id outputfile inputfile entry_of] in *. repeat apply conj; try reflexivity.
  - lia.
  - now apply Hall.
Qed.

Lemma files_lists_existing_outputs_witness :
  0 <= 1
  /\ isfile Demo.chain "data/run0x1.nc" = true
  /\ "data/run0x1.nc" = out_path "data" "run" "nc" 1
  /\ "data/run.json" = in_path "data" "run".
Proof.
  apply (files_lists_existing_outputs Demo.store Demo.chain
           [entry_of Demo.store "run" 0; entry_of Demo.store "run" 1]
           (entry_of Demo.store "run" 1)).
  - vm_compute. reflexivity.
  - apply elem_of_cons. right. apply elem_of_cons. now left.
Defined.

(** X20.  [files()] misses nothing: for a file of the directory whose
    name passes the test of [files] and which holds the record [js], every
    index below [count(js)] has its entry in the list, with the display
    name of [js] as [id]. *)
Theorem files_complete (self : Manager) (fs : filesystem) (listed : list entry)
    (filename : string) (js : json) (number i : Z) (name : string) :
  files self fs = Ok listed ->
  filename ∈ listdir fs (directory self) ->
  is_input_name filename = true ->
  json_load fs (path_join (directory self) filename) = Ok js ->
  count self fs js = Ok number ->
  display_name self fs js = Ok name ->
  0 <= i < number ->
  {| id := name; n := i;
     inputfile := in_path (directory self) name;
     outputfile := out_path (directory self) name (filetype self) i |} ∈ listed.
Proof.
  intros Hfiles Hin Hok Hload Hcount Hname Hi.
  apply (files_elem_index self fs listed _ Hfiles).
  exists filename, js, number, name.
  repeat apply conj; try assumption; try reflexivity; cbn [n]; lia.
Qed.

Lemma files_complete_witness :
  {| id := "run"; n := 1; inputfile := "data/run.json"; outputfile := "data/run0x1.nc" |}
  ∈ [entry_of Demo.store "run" 0; entry_of Demo.store "run" 1].
Proof.
  apply (files_complete Demo.store Demo.chain
           [entry_of Demo.store "run" 0; entry_of Demo.store "run" 1]
           "run.json" Demo.record 2 1 "run").
  - vm_compute. reflexivity.
  - apply (bool_decide_unpack ("run.json" ∈ listdir Demo.chain "data")).
    vm_compute. exact I.
  - vm_compute. reflexivity.
  - vm_compute. reflexivity.
  - vm_compute. reflexivity.
  - vm_compute. reflexivity.
  - lia.
Defined.

Lemma string_compare_refl (s : string) : String.compare s s = Eq.
Proof.
  pose proof (String.compare_antisym s s) as H.
  destruct (String.compare s s); [reflexivity | discriminate H | discriminate H].
Qed.

Lemma entry_le_total : Total entry_le.
Proof.
  intros e1 e2. unfold entry_le, entry_leb.
  rewrite (String.compare_antisym (id e1) (id e2)).
  destruct (String.compare (id e2) (id e1)); cbn [CompOpp]; auto.
  destruct (Z.leb_spec (n e1) (n e2)); [now left | right].
  apply Z.leb_le. lia.
Qed.

Lemma entry_le_trans : Transitive entry_le.
Proof.
  intros a b c. unfold entry_le, entry_leb.
  destruct (String.compare (id a) (id b)) eqn:E1; [| | discriminate];
    destruct (String.compare (id b) (id c)) eqn:E2; try discriminate.
  - apply String.compare_eq_iff in E1, E2. rewrite E1, E2.
    rewrite string_compare_refl.
    intros H1 H2. apply Z.leb_le in H1, H2. apply Z.leb_le. lia.
  - apply String.compare_eq_iff in E1. rewrite E1, E2. reflexivity.
  - apply String.compare_eq_iff in E2. rewrite <- E2, E1. reflexivity.
  - intros _ _. rewrite (string_compare_lt_trans (id a) (id b) (id c) E1); [reflexivity |].
    rewrite E2. discriminate.
Qed.

(** X21.  The list of [files()] is in the order of the keys [(id, n)]:
    every entry is at or below every later one, so the entries of one
    [id] are together, by rising index. *)
Theorem files_sorted (self : Manager) (fs : filesystem) (listed : list entry) :
  files self fs = Ok listed ->
  StronglySorted entry_le listed.
Proof.
  unfold files. intros H.
  destruct (mapR (files_of self fs) (List.filter is_input_name (listdir fs (directory self))))
    as [table |]; [| discriminate].
  cbn [mbind result_bind] in H. injection H as <-.
  apply Sorted_StronglySorted; [exact entry_le_trans |].
  apply Sorted_merge_sort, entry_le_total.
Qed.

Lemma files_sorted_witness :
  StronglySorted entry_le [entry_of Demo.store "run" 0; entry_of Demo.store "run" 1].
Proof.
  apply (files_sorted Demo.store Demo.chain). vm_compute. reflexivity.
Defined.

(** X22.  [table()] holds one record for each entry of index 0 of
    [files()], in the order of [files()]: the record loaded from the
    input file of the entry.  Outputs of restarts add nothing. *)
Theorem table_once_per_input (self : Manager) (fs : filesystem)
    (listed : list entry) (loaded : list json) :
  files self fs = Ok listed ->
  table self fs = Ok loaded ->
  Forall2 (fun e js => json_load fs (inputfile e) = Ok js)
          (List.filter (fun e => n e =? 0) listed) loaded.
Proof.
  unfold table. intros Hfiles Htable. rewrite Hfiles in Htable.
  cbn [mbind result_bind] in Htable.
  destruct (mapR _ listed) as [chunks |] eqn:Hchunks; [| discriminate].
  cbn [mbind result_bind] in Htable. injection Htable as <-.
  clear Hfiles. revert chunks Hchunks.
  induction listed as [|e listed IH]; intros chunks Hchunks; simpl in Hchunks.
  - injection Hchunks as <-. constructor.
  - destruct (json_load fs (inputfile e)) as [js |] eqn:Hload; [| discriminate].
    cbn [mbind result_bind] in Hchunks.
    destruct (mapR _ listed) as [rest |] eqn:Hrest; [| discriminate].
    cbn [mbind result_bind] in Hchunks. injection Hchunks as <-.
    cbn [List.filter concat]. destruct (n e =? 0).
    + constructor; [exact Hload | now apply IH].
    + now apply IH.
Qed.

Lemma table_once_per_input_witness :
  Forall2 (fun e js => json_load Demo.chain (inputfile e) = Ok js)
          (List.filter (fun e => n e =? 0)
             [entry_of Demo.store "run" 0; entry_of Demo.store "run" 1])
          [Demo.record].
Proof.
  apply (table_once_per_input Demo.store Demo.chain).
  - vm_compute. reflexivity.
  - vm_compute. reflexivity.
Defined.

(** ** Reading a record back *)

Lemma keys_of_encoded {A B : Type} (f : A -> B) (items : list (string * A)) :
  (map (fun kv : string * A => (kv.1, f kv.2)) items).*1 = items.*1.
Proof. induction items as [|x l IH]; [reflexivity |]. simpl. now f_equal. Qed.

Lemma reordered_canon (js : json) : distinct_keys js = true -> reordered js (canon js).
Proof.
  revert js. fix IH 1. intros js Hjs.
  destruct js as [| b | k | repr | s | l | items]; try apply reordered_refl.
  - cbn [canon]. apply reordered_list. cbn [distinct_keys] in Hjs.
    induction l as [|x l IHl]; [constructor |].
    cbn [forallb] in Hjs. apply andb_true_iff in Hjs as [Hx Hl].
    constructor; [now apply IH | now apply IHl].
  - cbn [canon]. cbn [distinct_keys] in Hjs. apply andb_true_iff in Hjs as [Hnd Hall].
    apply bool_decide_eq_true in Hnd.
    apply (reordered_dict items (map (fun kv : string * json => (kv.1, canon kv.2)) items)).
    + clear Hnd. induction items as [|x l IHl]; [constructor |].
      cbn [forallb] in Hall. apply andb_true_iff in Hall as [Hx Hl].
      constructor; [| now apply IHl]. split; [reflexivity |]. cbn [fst snd]. now apply IH.
    + unfold sort_items. symmetry. apply merge_sort_Permutation.
    + unfold sort_items. rewrite merge_sort_Permutation. now rewrite keys_of_encoded.
Qed.

(** X23.  Writing a record and reading it back keeps its key: for a
    record whose dicts have distinct keys, as every Python dict has, the
    record that [json.load] returns from a file written with
    [json.dump(js, sort_keys=True)] has the serialization and the hash of
    [js], so [files()] resolves it to the same names as [create] did. *)
Theorem hashinput_reload (self : Manager) (fs : filesystem) (js : json) (n : Z) :
  distinct_keys js = true ->
  dumps (canon js) = dumps js
  /\ hashinput (canon js) = hashinput js
  /\ jsonfile self fs (canon js) = jsonfile self fs js
  /\ outfile self fs (canon js) n = outfile self fs js n.
Proof.
  intros Hjs.
  assert (Hd : dumps (canon js) = dumps js).
  { symmetry. now apply dumps_reordered, reordered_canon. }
  assert (Hh : hashinput (canon js) = hashinput js).
  { unfold hashinput. now rewrite Hd. }
  repeat apply conj; try assumption.
  - unfold jsonfile. now rewrite Hh.
  - unfold outfile. now rewrite Hh.
Qed.

Lemma hashinput_reload_witness :
  hashinput (canon (JDict [("y", JInt 2); ("x", JDict [("b", JNull); ("a", JBool true)])]))
  = hashinput (JDict [("y", JInt 2); ("x", JDict [("b", JNull); ("a", JBool true)])]).
Proof.
  apply (hashinput_reload Demo.store ∅
           (JDict [("y", JInt 2); ("x", JDict [("b", JNull); ("a", JBool true)])]) 0).
  vm_compute. reflexivity.
Defined.

(** ** [delete_all] *)

Section DeleteAllCases.

Context {W : Type}.
Variable self : Manager.

Lemma delete_all_unfold (w : @world W) :
  delete_all self w
  = match files self (fs w) with
    | Raise e => (Raise e, w)
    | Ok listed =>
        match for_each listed remove_entry w with
        | (Ok _, w1) => set_registry self ∅ w1
        | (Raise e, w1) => (Raise e, w1)
        end
    end.
Proof.
  unfold delete_all. unfold mbind at 1, M_bind at 1, rd.
  destruct (files self (fs w)) as [listed | e]; [| reflexivity].
  unfold mbind at 1, M_bind at 1. reflexivity.
Qed.

Lemma os_remove_cases (path : string) (w : @world W) :
  (isfile (fs w) path = true /\ os_remove path w = (Ok (), set_fs (delete path) w))
  \/ (fs w !! path = None /\ os_remove path w = (Raise (FileNotFoundError path), w)).
Proof.
  unfold os_remove. destruct (isfile (fs w) path) eqn:Hp.
  - left. now split.
  - right. split; [now apply isfile_false | reflexivity].
Qed.

Lemma remove_entry_ok (e : entry) (w w1 : @world W) :
  remove_entry e w = (Ok (), w1) ->
  fs w1 !! outputfile e = None
  /\ (n e = 0 -> fs w1 !! inputfile e = None)
  /\ (forall p, fs w !! p = None -> fs w1 !! p = None)
  /\ console w1 = console w /\ calls w1 = calls w /\ ext w1 = ext w.
Proof.
  unfold remove_entry, mbind, M_bind, mret, M_ret. intros H.
  destruct (n e =? 0) eqn:En.
  - destruct (os_remove_cases (inputfile e) w) as [[_ H1] | [_ H1]];
      rewrite H1 in H; [| discriminate].
    destruct (os_remove_cases (outputfile e) (set_fs (delete (inputfile e)) w))
      as [[_ H2] | [_ H2]]; rewrite H2 in H; [| discriminate].
    injection H as <-. unfold set_fs. cbn [fs console calls ext].
    repeat apply conj; try reflexivity.
    + apply lookup_delete_eq.
    + intros _. destruct (decide (inputfile e = outputfile e)) as [-> | Hne].
      * apply lookup_delete_eq.
      * rewrite lookup_delete_ne by congruence. apply lookup_delete_eq.
    + intros p Hp. apply lookup_delete_None. right. apply lookup_delete_None. now right.
  - destruct (os_remove_cases (outputfile e) w) as [[_ H2] | [_ H2]];
      rewrite H2 in H; [| discriminate].
    injection H as <-. unfold set_fs. cbn [fs console calls ext].
    repeat apply conj; try reflexivity.
    + apply lookup_delete_eq.
    + intros Hn. apply Z.eqb_neq in En. contradiction.
    + intros p Hp. apply lookup_delete_None. now right.
Qed.

Lemma remove_entry_raise (e : entry) (w w1 : @world W) (x : exn) :
  remove_entry e w = (Raise x, w1) -> exists path, x = FileNotFoundError path.
Proof.
  unfold remove_entry, mbind, M_bind, mret, M_ret. intros H.
  destruct (n e =? 0).
  - destruct (os_remove_cases (inputfile e) w) as [[_ H1] | [_ H1]]; rewrite H1 in H.
    + destruct (os_remove_cases (outputfile e) (set_fs (delete (inputfile e)) w))
        as [[_ H2] | [_ H2]]; rewrite H2 in H; [discriminate |].
      injection H as <- _. eauto.
    + injection H as <- _. eauto.
  - destruct (os_remove_cases (outputfile e) w) as [[_ H2] | [_ H2]];
      rewrite H2 in H; [discriminate |].
    injection H as <- _. eauto.
Qed.

Lemma for_each_removed (listed : list entry) (w w1 : @world W) :
  for_each listed remove_entry w = (Ok (), w1) ->
  (forall e, e ∈ listed ->
     fs w1 !! outputfile e = None /\ (n e = 0 -> fs w1 !! inputfile e = None))
  /\ (forall p, fs w !! p = None -> fs w1 !! p = None)
  /\ console w1 = console w /\ calls w1 = calls w /\ ext w1 = ext w.
Proof.
  revert w. induction listed as [|e listed IH]; intros w H.
  - cbn [for_each] in H. injection H as <-. repeat apply conj; auto.
    intros e He. now apply elem_of_nil in He.
  - cbn [for_each] in H. unfold mbind at 1, M_bind at 1 in H.
    destruct (remove_entry e w) as [[[] | x] w0] eqn:Hstep; [| discriminate].
    destruct (remove_entry_ok e w w0 Hstep) as (Hout & Hin & Hmono & Hc & Hk & Hx).
    destruct (IH w0 H) as (Hall & Hmono1 & Hc1 & Hk1 & Hx1).
    repeat apply conj; try congruence.
    + intros e' He'. apply elem_of_cons in He' as [-> | He'].
      * split; [now apply Hmono1 | intros Hn; now apply Hmono1, Hin].
      * now apply Hall.
    + intros p Hp. now apply Hmono1, Hmono.
Qed.

Lemma for_each_absent_raises (listed : list entry) (w : @world W) (e : entry) :
  e ∈ listed ->
  fs w !! outputfile e = None ->
  exists path w1, for_each listed remove_entry w = (Raise (FileNotFoundError path), w1).
Proof.
  revert w. induction listed as [|e0 listed IH]; intros w He Habs.
  - now apply elem_of_nil in He.
  - cbn [for_each]. unfold mbind at 1, M_bind at 1.
    destruct (remove_entry e0 w) as [[[] | x] w0] eqn:Hstep.
    + destruct (remove_entry_ok e0 w w0 Hstep) as (_ & _ & Hmono & _).
      apply elem_of_cons in He as [-> | He].
      * exfalso. unfold remove_entry, mbind, M_bind, mret, M_ret in Hstep.
        assert (Hlast : forall v : @world W,
                  fs v !! outputfile e0 = None ->
                  os_remove (outputfile e0) v <> (Ok (), w0)).
        { intros v Hv. destruct (os_remove_cases (outputfile e0) v) as [[Hf _] | [_ Hr]].
          - apply isfile_true in Hf. rewrite Hv in Hf. destruct Hf as [? ?]. discriminate.
          - rewrite Hr. discriminate. }
        destruct (n e0 =? 0).
        -- destruct (os_remove_cases (inputfile e0) w) as [[_ H1] | [_ H1]];
             rewrite H1 in Hstep; [| discriminate].
           apply (Hlast (set_fs (delete (inputfile e0)) w)); [| exact Hstep].
           unfold set_fs. cbn [fs]. apply lookup_delete_None. now right.
        -- now apply (Hlast w).
      * apply (IH w0 He). now apply Hmono.
    + destruct (remove_entry_raise e0 w w0 x Hstep) as [path ->]. eauto.
Qed.

Lemma for_each_duplicate_raises (listed : list entry) (w : @world W) :
  ~ NoDup (outputfile <$> listed) ->
  exists path w1, for_each listed remove_entry w = (Raise (FileNotFoundError path), w1).
Proof.
  revert w. induction listed as [|e listed IH]; intros w Hdup.
  - exfalso. apply Hdup. constructor.
  - cbn [for_each]. unfold mbind at 1, M_bind at 1.
    destruct (remove_entry e w) as [[[] | x] w0] eqn:Hstep.
    + destruct (remove_entry_ok e w w0 Hstep) as (Hout & _).
      destruct (decide (outputfile e ∈ outputfile <$> listed)) as [Hin | Hnotin].
      * apply list_elem_of_fmap in Hin as (e' & Heq & He').
        apply (for_each_absent_raises listed w0 e' He'). now rewrite <- Heq.
      * apply IH. intros Hnd. apply Hdup. cbn [fmap list_fmap]. now constructor.
    + destruct (remove_entry_raise e w w0 x Hstep) as [path ->]. eauto.
Qed.

End DeleteAllCases.

(** X24.  When [delete_all()] returns, every file named by an entry of
    [files()] is gone, input and output alike, and so is the sidecar
    file: the registry reads as empty.  The executable is not started. *)
Theorem delete_all_removes_listed {W : Type} (self : Manager) (w w' : @world W)
    (listed : list entry) :
  files self (fs w) = Ok listed ->
  delete_all self w = (Ok (), w') ->
  (forall e, e ∈ listed ->
     isfile (fs w') (outputfile e) = false /\ isfile (fs w') (inputfile e) = false)
  /\ isfile (fs w') (registry_path self) = false
  /\ get_registry self (fs w') = Ok ∅
  /\ calls w' = calls w.
Proof.
  intros Hfiles Hrun. rewrite delete_all_unfold, Hfiles in Hrun.
  destruct (for_each listed remove_entry w) as [[[] | x] w1] eqn:Hloop; [| discriminate].
  rewrite set_registry_empty in Hrun. injection Hrun as <-.
  destruct (for_each_removed listed w w1 Hloop) as (Hall & _ & _ & Hcalls & _).
  unfold set_fs. cbn [fs calls].
  assert (Hgone : forall p, fs w1 !! p = None ->
                    isfile (delete (registry_path self) (fs w1)) p = false).
  { intros p Hp. apply isfile_false, lookup_delete_None. now right. }
  repeat apply conj.
  - intros e He. split; [apply Hgone; now apply Hall |].
    apply Hgone.
    destruct (proj1 (files_elem_index self (fs w) listed e Hfiles) He)
      as (filename & js & number & name & Hin & Hok & Hload & Hcount & Hname & Hi & Heq).
    assert (Hfirst : entry_of self name 0 ∈ listed).
    { apply (files_elem_index self (fs w) listed _ Hfiles).
      exists filename, js, number, name.
      repeat apply conj; try assumption; try reflexivity; cbn [n entry_of]; lia. }
    destruct (Hall _ Hfirst) as [_ Hinput]. rewrite Heq. apply Hinput. reflexivity.
  - apply isfile_false, lookup_delete_eq.
  - apply get_registry_absent, lookup_delete_eq.
  - exact Hcalls.
Qed.

Lemma delete_all_removes_listed_witness :
  let w' := (delete_all Demo.store (Demo.on_disk Demo.chain)).2 in
  isfile (fs w') "data/run0x1.nc" = false
  /\ isfile (fs w') "data/run.json" = false
  /\ isfile (fs w') "data/simplesimdb.json" = false
  /\ isfile (fs w') "data/run0x3.nc" = true.
Proof.
  intros w'.
  destruct (delete_all_removes_listed Demo.store (Demo.on_disk Demo.chain) w'
              [entry_of Demo.store "run" 0; entry_of Demo.store "run" 1])
    as (Hall & Hreg & _).
  - vm_compute. reflexivity.
  - vm_compute. reflexivity.
  - destruct (Hall (entry_of Demo.store "run" 1)) as [Hout Hin].
    + apply elem_of_cons. right. apply elem_of_cons. now left.
    + repeat apply conj; [exact Hout | exact Hin | exact Hreg | vm_compute; reflexivity].
Defined.

(** X25.  [delete_all()] stops half way when [files()] names an output
    file twice, as it does when two files of the directory hold the same
    record: the second removal of the path raises [FileNotFoundError],
    and the registry is not cleared. *)
Theorem delete_all_stops_on_duplicates {W : Type} (self : Manager) (w : @world W)
    (listed : list entry) :
  files self (fs w) = Ok listed ->
  ~ NoDup (outputfile <$> listed) ->
  exists (path : string) (w' : @world W),
    delete_all self w = (Raise (FileNotFoundError path), w')
    /\ for_each listed remove_entry w = (Raise (FileNotFoundError path), w').
Proof.
  intros Hfiles Hdup. rewrite delete_all_unfold, Hfiles.
  destruct (for_each_duplicate_raises listed w Hdup) as (path & w' & Hloop).
  exists path, w'. now rewrite Hloop.
Qed.

Lemma delete_all_stops_on_duplicates_witness :
  exists (path : string) (w' : @world unit),
    delete_all Demo.store (Demo.on_disk DemoTwin.twin) = (Raise (FileNotFoundError path), w')
    /\ for_each [entry_of Demo.store "run" 0; entry_of Demo.store "run" 0] remove_entry
         (Demo.on_disk DemoTwin.twin) = (Raise (FileNotFoundError path), w').
Proof.
  apply (delete_all_stops_on_duplicates Demo.store (Demo.on_disk DemoTwin.twin)
           [entry_of Demo.store "run" 0; entry_of Demo.store "run" 0]).
  - vm_compute. reflexivity.
  - intros Hnd. apply NoDup_cons in Hnd as [Hnotin _]. apply Hnotin.
    apply elem_of_cons. now left.
Defined.

(** ** From [create] to [files] *)

Lemma strip_prefix_app (p f : string) : strip_prefix p (p ++ f) = Some f.
Proof.
  induction p as [|c p IH]; [now destruct f |].
  rewrite str_app_cons. cbn [strip_prefix]. now rewrite Ascii.eqb_refl.
Qed.

Lemma has_slash_app (a b : string) : has_slash (a ++ b) = has_slash a || has_slash b.
Proof.
  induction a as [|c a IH]; [reflexivity |].
  rewrite str_app_cons. cbn [has_slash]. rewrite IH. now rewrite orb_assoc.
Qed.

Lemma has_slash_start (s : string) : has_slash s = false -> starts_with_slash s = false.
Proof.
  destruct s as [|c s]; [reflexivity |]. cbn [has_slash starts_with_slash].
  intros H. now apply orb_false_iff in H as [H _].
Qed.

Lemma listdir_elem (fs : filesystem) (d f : string) (c : fcontent) :
  fs !! (dir_prefix d ++ f) = Some c ->
  f <> EmptyString ->
  has_slash f = false ->
  f ∈ listdir fs d.
Proof.
  intros Hlook Hne Hslash. unfold listdir. apply list_elem_of_omap.
  exists (dir_prefix d ++ f, c). split; [now apply elem_of_map_to_list |].
  unfold entry_name. cbn [fst]. rewrite strip_prefix_app, Hslash.
  apply String.eqb_neq in Hne. now rewrite Hne.
Qed.

Lemma count_loop_same_key (self : Manager) (fs : filesystem) (a b : json)
    (fuel : nat) (number : Z) :
  hashinput a = hashinput b ->
  count_loop self fs fuel a number = count_loop self fs fuel b number.
Proof.
  intros Hh. revert number. induction fuel as [|fuel IH]; intros number; [reflexivity |].
  assert (He : exists_ self fs a number = exists_ self fs b number).
  { unfold exists_, outfile. now rewrite Hh. }
  cbn [count_loop]. rewrite He.
  destruct (exists_ self fs b number) as [[] |]; cbn [mbind result_bind];
    [apply IH | reflexivity | reflexivity].
Qed.

(** X26.  An input file written by [create] is found again by
    [files()]: when the input file of [js] holds the record as
    [json.dump] wrote it, its name passes the test of [files] and has no
    slash, and the dicts of [js] have distinct keys, then every index
    below [count(js)] has its entry in [files()], under the display name
    of [js]. *)
Theorem files_finds_written (self : Manager) (fs : filesystem) (js : json)
    (name : string) (number i : Z) (listed : list entry) :
  distinct_keys js = true ->
  display_name self fs js = Ok name ->
  has_slash name = false ->
  is_input_name (name ++ ".json") = true ->
  fs !! in_path (directory self) name = Some (FJson (canon js)) ->
  count self fs js = Ok number ->
  0 <= i < number ->
  files self fs = Ok listed ->
  entry_of self name i ∈ listed.
Proof.
  intros Hjs Hname Hslash Hok Hfile Hcount Hi Hfiles.
  assert (Hh : hashinput (canon js) = hashinput js).
  { unfold hashinput. f_equal. symmetry. now apply dumps_reordered, reordered_canon. }
  assert (Hrel : has_slash (name ++ ".json") = false).
  { rewrite has_slash_app, Hslash. reflexivity. }
  assert (Hpath : in_path (directory self) name
                  = dir_prefix (directory self) ++ (name ++ ".json")).
  { unfold in_path, path_join. now rewrite (has_slash_start _ Hrel). }
  apply (files_elem_index self fs listed _ Hfiles).
  exists (name ++ ".json"), (canon js), number, name. repeat apply conj.
  - rewrite Hpath in Hfile. apply (listdir_elem fs _ _ _ Hfile); [| exact Hrel].
    destruct name; discriminate.
  - exact Hok.
  - unfold json_load. fold (in_path (directory self) name). now rewrite Hfile.
  - unfold count. rewrite (count_loop_same_key self fs (canon js) js _ _ Hh). exact Hcount.
  - unfold display_name. rewrite Hh. exact Hname.
  - cbn [n entry_of]. lia.
  - cbn [n entry_of]. lia.
  - reflexivity.
Qed.

Lemma files_finds_written_witness :
  let files1 := fs (create Demo.succeeds Demo.store Demo.record 0 EmptyString "raise"
                      "ignore" Demo.start).2 in
  entry_of Demo.store "c8b0bcdb34ded0fdaf264864fe47b8f2cd5dc056" 0
  ∈ [entry_of Demo.store "c8b0bcdb34ded0fdaf264864fe47b8f2cd5dc056" 0]
  /\ files Demo.store files1
     = Ok [entry_of Demo.store "c8b0bcdb34ded0fdaf264864fe47b8f2cd5dc056" 0].
Proof.
  intros files1. split; [| vm_compute; reflexivity].
  apply (files_finds_written Demo.store files1 Demo.record
           "c8b0bcdb34ded0fdaf264864fe47b8f2cd5dc056" 1 0).
  - vm_compute. reflexivity.
  - vm_compute. reflexivity.
  - vm_compute. reflexivity.
  - vm_compute. reflexivity.
  - vm_compute. reflexivity.
  - vm_compute. reflexivity.
  - lia.
  - vm_compute. reflexivity.
Defined.
